(** * Task tracker: reminder reconciliation, scheduling bridge and task lifecycle

    A shallow embedding of the request handlers of the two services of the
    repository:

    - [notification-service/routes/notifications.py] (module [Notifications]):
      [create_reminder], [get_reminders], [get_reminder], [update_reminder],
      [delete_reminder], [send_notification], [get_notification_history],
      [check_due_reminders], [get_notification_stats];
    - [task-service/routes/tasks.py] (module [Tasks]):
      [notify_reminder_service], [create_task], [get_tasks], [get_task],
      [update_task], [delete_task], [complete_task], [get_task_stats].

    A MongoDB collection is a finite map from [ObjectId] to documents; a
    document is a record whose nullable fields are [option]s; the [$set]
    operator is a record of optional assignments.  A handler is a function
    in a small state-and-exception monad over the service's database.  What
    the environment decides (the clock, a failing store write, the outcome
    of an outbound HTTP call) is an explicit argument of the handler.

    The dashboard ([frontend-service/app.py]) only renders what the two
    services return; its completion rate is a floating-point quotient
    printed with one decimal and is not part of the embedding. *)

From Stdlib Require Import ZArith NArith Ascii String.
From stdpp Require Import gmap strings list fin_maps pretty sorting.

Local Open Scope Z_scope.

(** ** Shared vocabulary *)

(** [datetime] values are instants on a totally ordered time line, counted
    in microseconds, the resolution of [datetime]. *)
Definition datetime : Type := Z.
Bind Scope Z_scope with datetime.

(** BSON keeps a date as whole milliseconds: when the driver encodes a
    document, an update or a query it drops what a [datetime] has below the
    millisecond, and a date read back from the store lies on a
    millisecond. *)
Definition bson_datetime (t : datetime) : datetime := t / 1000 * 1000.

(** A BSON [ObjectId] is a 12-byte value, written as 24 hexadecimal digits:
    the numbers below [2 ^ 96].  The numbers from [2 ^ 96] on stand for the
    identifiers of fewer than 12 bytes that [ObjectId(s)] builds from some
    24-character strings (see [ObjectId_of_str]); no document has such an
    [_id]. *)
Definition ObjectId : Type := N.
Bind Scope N_scope with ObjectId.

(** Exceptions that can leave a handler.  [HTTPException] is what the
    handlers raise themselves; the others escape from library calls and
    surface as a 500 response. *)
Inductive Exn : Type :=
  | HTTPException (status_code : nat) (detail : string)
  | ValidationError
  | PyMongoError
  | TypeError.

(** JSON values of the hand-built response dictionaries. *)
Inductive JSON : Type :=
  | JString (s : string)
  | JNumber (n : Z).

Global Instance Exn_eq_dec : EqDecision Exn.
Proof. solve_decision. Defined.

Global Instance JSON_eq_dec : EqDecision JSON.
Proof. solve_decision. Defined.

(** *** Handlers: state threaded through the store calls, exceptions abort *)

Section handler.
Context {St : Type}.

Definition Handler (A : Type) : Type := St → St * (Exn + A).

Definition ret {A} (a : A) : Handler A := λ s, (s, inr a).

Definition raise {A} (e : Exn) : Handler A := λ s, (s, inl e).

Definition bind {A B} (m : Handler A) (k : A → Handler B) : Handler B :=
  λ s, match m s with
       | (s', inl e) => (s', inl e)
       | (s', inr a) => k a s'
       end.

Definition get_db : Handler St := λ s, (s, inr s).

End handler.

Arguments Handler : clear implicits.

Notation "x <~ m ;; k" := (bind m (λ x, k))
  (at level 100, m at next level, right associativity).
Notation "m ;;; k" := (bind m (λ _, k))
  (at level 100, right associativity).

(** *** ObjectId parsing and printing (bson) *)

Definition hex_digit (c : ascii) : option N :=
  let n := N_of_ascii c in
  if bool_decide (48 ≤ n ≤ 57)%N then Some (n - 48)%N
  else if bool_decide (97 ≤ n ≤ 102)%N then Some (n - 87)%N
  else if bool_decide (65 ≤ n ≤ 70)%N then Some (n - 55)%N
  else None.

Fixpoint hex_value (s : string) (acc : N) : option N :=
  match s with
  | EmptyString => Some acc
  | String c s' =>
      match hex_digit c with
      | Some d => hex_value s' (16 * acc + d)%N
      | None => None
      end
  end.

(** [Py_ISSPACE]: the ASCII whitespace that [bytes.fromhex] passes over
    (tab, line feed, vertical tab, form feed, carriage return, space). *)
Definition is_space (c : ascii) : bool :=
  let n := N_of_ascii c in
  bool_decide (9 ≤ n ≤ 13)%N || bool_decide (n = 32)%N.

(** [bytes.fromhex(s)]: two hexadecimal digits per byte, with whitespace
    allowed before a byte and after the last one, but not between the two
    digits of a byte.  [None] stands for [ValueError]. *)
Fixpoint fromhex (s : string) : option (list N) :=
  match s with
  | EmptyString => Some []
  | String c s' =>
      if is_space c then fromhex s'
      else
        match hex_digit c, s' with
        | Some top, String c' s'' =>
            match hex_digit c' with
            | Some bot => cons (16 * top + bot)%N <$> fromhex s''
            | None => None
            end
        | _, _ => None
        end
  end.

(** The identifier with the given bytes.  Twelve bytes give their value as
    a number, below [2 ^ 96]; fewer bytes give a number from [2 ^ 96] on, so
    that identifiers with different bytes are different. *)
Definition ObjectId_of_bytes (bs : list N) : ObjectId :=
  (foldl (λ acc b, 256 * acc + b) 0 bs
   + 2 ^ 96 * N.of_nat (12 - length bs))%N.

(** [ObjectId(s)]: [None] stands for [InvalidId].  A string of 24
    characters is handed to [bytes.fromhex] and whatever bytes it returns
    are taken as the identifier, without a look at their number: with
    whitespace in the string they are fewer than 12. *)
Definition ObjectId_of_str (s : string) : option ObjectId :=
  if bool_decide (String.length s = 24%nat)
  then ObjectId_of_bytes <$> fromhex s
  else None.

Definition hex_char (d : N) : ascii :=
  if bool_decide (d < 10)%N then ascii_of_N (48 + d) else ascii_of_N (87 + d).

Fixpoint hex_digits (n : nat) (v : N) (acc : string) : string :=
  match n with
  | O => acc
  | S n' => hex_digits n' (v / 16)%N (String (hex_char (v mod 16)%N) acc)
  end.

(** [str(oid)] *)
Definition str_of_ObjectId (oid : ObjectId) : string :=
  hex_digits 24 oid EmptyString.

(** Pydantic's [min_length]/[max_length] constraint on a string field; the
    length is the number of characters of the embedded string. *)
Definition str_len_ok (lo hi : nat) (s : string) : bool :=
  bool_decide (lo ≤ String.length s ≤ hi)%nat.

(** *** Queries (motor) and durations *)

(** [if s:] on an optional string: [None] and the empty string are both
    false. *)
Definition nonempty (s : option string) : option string :=
  match s with
  | Some EmptyString => None
  | _ => s
  end.

(** What a cursor with [skip], [limit] and [sort] set delivers to
    [to_list(length=limit)]: the matching documents are sorted first, then
    [skip] of them are passed over and at most [limit] are delivered, of
    which [to_list] keeps at most [limit]. *)
Definition cursor_to_list {A} (R : relation A) `{∀ x y, Decision (R x y)}
    (skip limit : nat) (matching : list A) : list A :=
  take limit (take limit (drop skip (merge_sort R matching))).

(** [collection.count_documents(query)] *)
Definition count_documents {A} (query : A → bool) (m : gmap ObjectId A)
  : nat :=
  length (filter (λ p, query p.2) (map_to_list m)).

(** [timedelta(hours=h)] and [timedelta(days=d)], in microseconds. *)
Definition timedelta_hours (h : Z) : Z := h * 3600000000.

Definition timedelta_days (d : Z) : Z := d * 24 * 3600000000.

(** The identifier has 12 bytes, as the [_id] of every document has.  What
    the driver sends to the store for an identifier of fewer bytes is not
    part of the embedding: the statements about looking up an identifier
    that no document has are made for 12-byte identifiers. *)
Definition is_ObjectId (oid : ObjectId) : Prop := (oid < 2 ^ 96)%N.

(** ** The notification service *)

Module Notifications.

(** *** models/notification.py *)

Inductive NotificationStatus : Type := PENDING | SENT | FAILED | CANCELLED.

Inductive NotificationType : Type := REMINDER | DUE_DATE | OVERDUE | COMPLETION.

Global Instance NotificationStatus_eq_dec : EqDecision NotificationStatus.
Proof. solve_decision. Defined.

Global Instance NotificationType_eq_dec : EqDecision NotificationType.
Proof. solve_decision. Defined.

(** [ReminderUpdate]: every field is optional, and a request may leave it
    unset (outer [None]), set it to [null] ([Some None]) or to a value. *)
Record ReminderUpdate : Type := {
  ru_title : option (option string);
  ru_message : option (option string);
  ru_reminder_time : option (option datetime);
  ru_task_due_date : option (option datetime);
  ru_status : option (option NotificationStatus);
}.

(** [Reminder], the response model. *)
Record Reminder : Type := {
  rem_id : option string;
  rem_task_id : string;
  rem_title : string;
  rem_message : string;
  rem_reminder_time : datetime;
  rem_task_due_date : option datetime;
  rem_status : NotificationStatus;
  rem_created_at : datetime;
  rem_updated_at : datetime;
  rem_sent_at : option datetime;
}.

Record NotificationCreate : Type := {
  nc_task_id : string;
  nc_title : string;
  nc_message : string;
  nc_notification_type : NotificationType;
}.

(** [Notification], the response model. *)
Record Notification : Type := {
  ntf_id : option string;
  ntf_task_id : string;
  ntf_title : string;
  ntf_message : string;
  ntf_notification_type : NotificationType;
  ntf_status : NotificationStatus;
  ntf_created_at : datetime;
  ntf_sent_at : option datetime;
  ntf_error_message : option string;
}.

(** *** The two collections *)

(** A document of [db.reminders].  [create_reminder] stores validated
    values; [update_reminder] can later [$set] any updatable field to
    [null], hence the options. *)
Record ReminderDoc : Type := {
  r_task_id : string;
  r_title : option string;
  r_message : option string;
  r_reminder_time : option datetime;
  r_task_due_date : option datetime;
  r_status : option NotificationStatus;
  r_created_at : datetime;
  r_updated_at : datetime;
  r_sent_at : option datetime;
}.

(** A document of [db.notifications]. *)
Record NotificationDoc : Type := {
  n_task_id : string;
  n_title : string;
  n_message : string;
  n_notification_type : NotificationType;
  n_created_at : datetime;
  n_status : NotificationStatus;
  n_sent_at : option datetime;
}.

Record Database : Type := {
  reminders : gmap ObjectId ReminderDoc;
  notifications : gmap ObjectId NotificationDoc;
}.

Global Instance ReminderDoc_eq_dec : EqDecision ReminderDoc.
Proof. solve_decision. Defined.

Global Instance NotificationDoc_eq_dec : EqDecision NotificationDoc.
Proof. solve_decision. Defined.

(** The update document of [update_one(..., {"$set": ...})] on a reminder:
    [None] means the key is absent from the dictionary. *)
Record ReminderSet : Type := {
  set_title : option (option string);
  set_message : option (option string);
  set_reminder_time : option (option datetime);
  set_task_due_date : option (option datetime);
  set_status : option (option NotificationStatus);
  set_updated_at : option datetime;
  set_sent_at : option (option datetime);
}.

(** The reminder as the store keeps it: every date to the millisecond. *)
Definition bson_reminder (d : ReminderDoc) : ReminderDoc :=
  {| r_task_id := r_task_id d;
     r_title := r_title d;
     r_message := r_message d;
     r_reminder_time := bson_datetime <$> r_reminder_time d;
     r_task_due_date := bson_datetime <$> r_task_due_date d;
     r_status := r_status d;
     r_created_at := bson_datetime (r_created_at d);
     r_updated_at := bson_datetime (r_updated_at d);
     r_sent_at := bson_datetime <$> r_sent_at d |}.

(** The notification as the store keeps it. *)
Definition bson_notification (d : NotificationDoc) : NotificationDoc :=
  {| n_task_id := n_task_id d;
     n_title := n_title d;
     n_message := n_message d;
     n_notification_type := n_notification_type d;
     n_created_at := bson_datetime (n_created_at d);
     n_status := n_status d;
     n_sent_at := bson_datetime <$> n_sent_at d |}.

(** What [$set] with the update document [u] makes of a stored reminder:
    the keys of [u] replace the fields, dates to the millisecond. *)
Definition apply_set (u : ReminderSet) (d : ReminderDoc) : ReminderDoc :=
  {| r_task_id := r_task_id d;
     r_title := default (r_title d) (set_title u);
     r_message := default (r_message d) (set_message u);
     r_reminder_time :=
       default (r_reminder_time d) (fmap (M:=option) bson_datetime <$> set_reminder_time u);
     r_task_due_date :=
       default (r_task_due_date d) (fmap (M:=option) bson_datetime <$> set_task_due_date u);
     r_status := default (r_status d) (set_status u);
     r_created_at := r_created_at d;
     r_updated_at := default (r_updated_at d) (bson_datetime <$> set_updated_at u);
     r_sent_at := default (r_sent_at d) (fmap (M:=option) bson_datetime <$> set_sent_at u) |}.

(** What [$set] with the update document of [send_notification],
    [{"status": SENT, "sent_at": sent_at}], makes of a stored
    notification. *)
Definition set_notification_sent (sent_at : datetime) (d : NotificationDoc)
  : NotificationDoc :=
  {| n_task_id := n_task_id d;
     n_title := n_title d;
     n_message := n_message d;
     n_notification_type := n_notification_type d;
     n_created_at := n_created_at d;
     n_status := SENT;
     n_sent_at := Some (bson_datetime sent_at) |}.

(** Store writes that the environment makes fail during a reconciliation
    pass, named by the reminder being processed. *)
Record Faults : Type := {
  insert_fails : ObjectId → bool;
  update_fails : ObjectId → bool;
}.

Definition no_faults : Faults :=
  {| insert_fails := λ _, false; update_fails := λ _, false |}.

(** [db.notifications.insert_one(doc)]: the store assigns a new [_id]. *)
Definition insert_one_notification (fails : bool) (doc : NotificationDoc)
  : Handler Database ObjectId :=
  λ db,
    if fails then (db, inl PyMongoError)
    else
      let oid := fresh (dom (notifications db)) in
      ({| reminders := reminders db;
          notifications :=
            <[oid := bson_notification doc]> (notifications db) |}, inr oid).

(** [db.notifications.update_one({"_id": oid}, {"$set": ...})] *)
Definition update_one_notification (oid : ObjectId)
    (f : NotificationDoc → NotificationDoc) : Handler Database unit :=
  λ db,
    ({| reminders := reminders db;
        notifications := alter f oid (notifications db) |}, inr tt).

(** [db.reminders.update_one({"_id": oid}, {"$set": u})]: a filter that
    matches nothing changes nothing. *)
Definition update_one_reminder (fails : bool) (oid : ObjectId)
    (u : ReminderSet) : Handler Database unit :=
  λ db,
    if fails then (db, inl PyMongoError)
    else
      ({| reminders := alter (apply_set u) oid (reminders db);
          notifications := notifications db |}, inr tt).

(** [db.reminders.find_one({"_id": oid})] *)
Definition find_one_reminder (oid : ObjectId)
  : Handler Database (option ReminderDoc) :=
  λ db, (db, inr (reminders db !! oid)).

(** [db.notifications.find_one({"_id": oid})] *)
Definition find_one_notification (oid : ObjectId)
  : Handler Database (option NotificationDoc) :=
  λ db, (db, inr (notifications db !! oid)).

(** *** Model constructors (pydantic validation) *)

(** [NotificationCreate(task_id=..., title=..., message=...,
    notification_type=...)] on values read from a reminder document. *)
Definition NotificationCreate_init (task_id : string)
    (title message : option string) (ty : NotificationType)
  : Handler Database NotificationCreate :=
  match title, message with
  | Some t, Some m =>
      if str_len_ok 1 200 t && str_len_ok 1 500 m
      then ret {| nc_task_id := task_id; nc_title := t; nc_message := m;
                  nc_notification_type := ty |}
      else raise ValidationError
  | _, _ => raise ValidationError
  end.

(** [Reminder] built from the keyword arguments of [doc], after
    [doc["_id"] = str(doc["_id"])]. *)
Definition Reminder_init (oid : ObjectId) (d : ReminderDoc)
  : Handler Database Reminder :=
  match r_title d, r_message d, r_reminder_time d, r_status d with
  | Some t, Some m, Some rt, Some st =>
      if str_len_ok 1 200 t && str_len_ok 1 500 m
      then ret {| rem_id := Some (str_of_ObjectId oid);
                  rem_task_id := r_task_id d;
                  rem_title := t;
                  rem_message := m;
                  rem_reminder_time := rt;
                  rem_task_due_date := r_task_due_date d;
                  rem_status := st;
                  rem_created_at := r_created_at d;
                  rem_updated_at := r_updated_at d;
                  rem_sent_at := r_sent_at d |}
      else raise ValidationError
  | _, _, _, _ => raise ValidationError
  end.

(** [Notification] built from the keyword arguments of [doc], after
    [doc["_id"] = str(doc["_id"])]. *)
Definition Notification_init (oid : ObjectId) (d : NotificationDoc)
  : Handler Database Notification :=
  if str_len_ok 1 200 (n_title d) && str_len_ok 1 500 (n_message d)
  then ret {| ntf_id := Some (str_of_ObjectId oid);
              ntf_task_id := n_task_id d;
              ntf_title := n_title d;
              ntf_message := n_message d;
              ntf_notification_type := n_notification_type d;
              ntf_status := n_status d;
              ntf_created_at := n_created_at d;
              ntf_sent_at := n_sent_at d;
              ntf_error_message := None |}
  else raise ValidationError.

(** *** routes/notifications.py *)

(** [reminder_update.model_dump(exclude_unset=True)], then
    [update_data["updated_at"] = datetime.utcnow()]. *)
Definition reminder_update_data (reminder_update : ReminderUpdate)
    (utcnow : datetime) : ReminderSet :=
  {| set_title := ru_title reminder_update;
     set_message := ru_message reminder_update;
     set_reminder_time := ru_reminder_time reminder_update;
     set_task_due_date := ru_task_due_date reminder_update;
     set_status := ru_status reminder_update;
     set_updated_at := Some utcnow;
     set_sent_at := None |}.

(** [PUT /reminders/{reminder_id}] *)
Definition update_reminder (reminder_id : string)
    (reminder_update : ReminderUpdate) (utcnow : datetime)
  : Handler Database Reminder :=
  match ObjectId_of_str reminder_id with
  | None => raise (HTTPException 400 "Invalid reminder ID format")
  | Some object_id =>
      existing_reminder <~ find_one_reminder object_id ;;
      match existing_reminder with
      | None => raise (HTTPException 404 "Reminder not found")
      | Some _ =>
          let update_data := reminder_update_data reminder_update utcnow in
          update_one_reminder false object_id update_data ;;;
          updated_reminder <~ find_one_reminder object_id ;;
          match updated_reminder with
          | None => raise TypeError
          | Some doc => Reminder_init object_id doc
          end
      end
  end.

(** [DELETE /reminders/{reminder_id}] *)
Definition delete_reminder (reminder_id : string)
  : Handler Database (gmap string JSON) :=
  match ObjectId_of_str reminder_id with
  | None => raise (HTTPException 400 "Invalid reminder ID format")
  | Some object_id =>
      λ db,
        match reminders db !! object_id with
        | None => (db, inl (HTTPException 404 "Reminder not found"))
        | Some _ =>
            ({| reminders := delete object_id (reminders db);
                notifications := notifications db |},
             inr {[ "message" := JString "Reminder deleted successfully" ]})
        end
  end.

(** [POST /notifications/send].  [utcnow1] and [utcnow2] are the two clock
    readings of the handler.  The background task
    [send_notification_logic] only prints and sleeps after the response is
    sent; it touches neither collection. *)
Definition send_notification (notification : NotificationCreate)
    (utcnow1 utcnow2 : datetime) : Handler Database Notification :=
  let notification_dict :=
    {| n_task_id := nc_task_id notification;
       n_title := nc_title notification;
       n_message := nc_message notification;
       n_notification_type := nc_notification_type notification;
       n_created_at := utcnow1;
       n_status := PENDING;
       n_sent_at := None |} in
  inserted_id <~ insert_one_notification false notification_dict ;;
  created_notification <~ find_one_notification inserted_id ;;
  match created_notification with
  | None => raise TypeError
  | Some doc =>
      notification_obj <~ Notification_init inserted_id doc ;;
      update_one_notification inserted_id (set_notification_sent utcnow2) ;;;
      ret notification_obj
  end.

(** The query of the reconciler:
    [{"reminder_time": {"$lte": now}, "status": "pending"}].  The store
    compares with [now] as the query carries it, to the millisecond. *)
Definition is_due (now : datetime) (d : ReminderDoc) : bool :=
  match r_reminder_time d with
  | Some t => bool_decide (t ≤ bson_datetime now)
  | None => false
  end && bool_decide (r_status d = Some PENDING).

(** [db.reminders.find(query).to_list(length=None)]: all matching
    documents, in the order in which the collection enumerates them (the
    query asks for no sort). *)
Definition find_due (now : datetime) (db : Database)
  : list (ObjectId * ReminderDoc) :=
  filter (λ p, is_due now p.2) (map_to_list (reminders db)).

(** [{"$set": {"status": SENT, "sent_at": now, "updated_at": now}}] *)
Definition sent_update (now : datetime) : ReminderSet :=
  {| set_title := None;
     set_message := None;
     set_reminder_time := None;
     set_task_due_date := None;
     set_status := Some (Some SENT);
     set_updated_at := Some now;
     set_sent_at := Some (Some now) |}.

(** The body of [for reminder_doc in due_reminders], with the running
    value of [notifications_sent]. *)
Fixpoint process_due (F : Faults) (now : datetime)
    (due_reminders : list (ObjectId * ReminderDoc)) (notifications_sent : nat)
  : Handler Database nat :=
  match due_reminders with
  | [] => ret notifications_sent
  | (oid, reminder_doc) :: rest =>
      notification <~ NotificationCreate_init (r_task_id reminder_doc)
                        (r_title reminder_doc) (r_message reminder_doc)
                        REMINDER ;;
      let notification_dict :=
        {| n_task_id := nc_task_id notification;
           n_title := nc_title notification;
           n_message := nc_message notification;
           n_notification_type := nc_notification_type notification;
           n_created_at := now;
           n_status := SENT;
           n_sent_at := Some now |} in
      insert_one_notification (insert_fails F oid) notification_dict ;;;
      update_one_reminder (update_fails F oid) oid (sent_update now) ;;;
      process_due F now rest (S notifications_sent)
  end.

(** The pass up to the value of [notifications_sent] after the loop. *)
Definition reconcile (F : Faults) (now : datetime) : Handler Database nat :=
  db <~ get_db ;;
  process_due F now (find_due now db) 0.

(** [GET /reminders/due/check] *)
Definition check_due_reminders (F : Faults) (now : datetime)
  : Handler Database (gmap string JSON) :=
  notifications_sent <~ reconcile F now ;;
  ret {[ "message" :=
           JString ("Processed " +:+ pretty notifications_sent
                      +:+ " due reminders") ]}.

(** *** Vocabulary for the statements about the reconciler *)

(** The reminder document after the reconciler's [$set]. *)
Definition mark_sent (now : datetime) (d : ReminderDoc) : ReminderDoc :=
  apply_set (sent_update now) d.

(** The notification document the reconciler inserts for a reminder, as
    the store keeps it. *)
Definition notification_for (now : datetime) (t m : string) (d : ReminderDoc)
  : NotificationDoc :=
  {| n_task_id := r_task_id d;
     n_title := t;
     n_message := m;
     n_notification_type := REMINDER;
     n_created_at := bson_datetime now;
     n_status := SENT;
     n_sent_at := Some (bson_datetime now) |}.

(** The stored title and message pass the constraints of
    [NotificationCreate]. *)
Definition notifiable (d : ReminderDoc) : bool :=
  match r_title d, r_message d with
  | Some t, Some m => str_len_ok 1 200 t && str_len_ok 1 500 m
  | _, _ => false
  end.

(** One iteration of the loop goes through: the document validates and
    neither store write fails. *)
Definition step_ok (F : Faults) (p : ObjectId * ReminderDoc) : Prop :=
  notifiable p.2 = true ∧ insert_fails F p.1 = false
  ∧ update_fails F p.1 = false.

Global Instance step_ok_dec F p : Decision (step_ok F p).
Proof. unfold step_ok. apply _. Defined.

(** The loop body on an iteration that goes through. *)
Definition step_db (now : datetime) (oid : ObjectId) (d : ReminderDoc)
    (db : Database) : Database :=
  {| reminders := alter (mark_sent now) oid (reminders db);
     notifications :=
       <[fresh (dom (notifications db)) :=
           notification_for now (default "" (r_title d))
             (default "" (r_message d)) d]> (notifications db) |}.

(** The store after the iterations for [pre], when all of them go through. *)
Definition run_prefix (now : datetime) (pre : list (ObjectId * ReminderDoc))
    (db : Database) : Database :=
  foldl (λ acc p, step_db now p.1 p.2 acc) db pre.


(** The store after an iteration whose notification was inserted and whose
    reminder update then failed. *)
Definition half_step_db (now : datetime) (d : ReminderDoc) (db : Database)
  : Database :=
  {| reminders := reminders db;
     notifications :=
       <[fresh (dom (notifications db)) :=
           notification_for now (default "" (r_title d))
             (default "" (r_message d)) d]> (notifications db) |}.

(** The response body of the reconciliation endpoint as the specification
    words it: [{processed_count: n}]. *)
Definition processed_count_response (n : nat) : gmap string JSON :=
  {[ "processed_count" := JNumber (Z.of_nat n) ]}.

(** The response body the handler builds. *)
Definition message_response (n : nat) : gmap string JSON :=
  {[ "message" := JString ("Processed " +:+ pretty n +:+ " due reminders") ]}.

(** The input of [send_notification] passed the request validation. *)
Definition valid_NotificationCreate (nc : NotificationCreate) : bool :=
  str_len_ok 1 200 (nc_title nc) && str_len_ok 1 500 (nc_message nc).

(** The document [send_notification] hands to [insert_one]. *)
Definition pending_notification (nc : NotificationCreate) (utcnow : datetime)
  : NotificationDoc :=
  {| n_task_id := nc_task_id nc;
     n_title := nc_title nc;
     n_message := nc_message nc;
     n_notification_type := nc_notification_type nc;
     n_created_at := utcnow;
     n_status := PENDING;
     n_sent_at := None |}.

(** *** Sample data *)

Definition sample_reminder (title : string) (reminder_time : datetime)
    (status : NotificationStatus) : ReminderDoc :=
  {| r_task_id := "65f0a1b2c3d4e5f601234567";
     r_title := Some title;
     r_message := Some "Task is due soon";
     r_reminder_time := Some reminder_time;
     r_task_due_date := None;
     r_status := Some status;
     r_created_at := 0;
     r_updated_at := 0;
     r_sent_at := None |}.

(** Reminders 1 and 2 are pending and due at instant 10000 (10 ms),
    reminder 3 is pending and not due, reminder 4 was sent earlier. *)
Definition sample_db : Database :=
  {| reminders :=
       <[1%N := sample_reminder "Reminder: Pay rent" 5000 PENDING]>
         (<[2%N := sample_reminder "Reminder: Call bank" 7000 PENDING]>
            (<[3%N := sample_reminder "Reminder: Renew pass" 50000 PENDING]>
               (<[4%N := sample_reminder "Reminder: Water plants" 1000 SENT]>
                  ∅)));
     notifications := ∅ |}.

(** The update of the given reminder fails, every other write succeeds. *)
Definition failing_update (oid : ObjectId) : Faults :=
  {| insert_fails := λ _, false;
     update_fails := λ o, bool_decide (o = oid) |}.

Definition sample_notification : NotificationCreate :=
  {| nc_task_id := "65f0a1b2c3d4e5f601234567";
     nc_title := "Task completed";
     nc_message := "Pay rent was completed";
     nc_notification_type := COMPLETION |}.

(** A request that only sets [status] to the given value. *)
Definition status_update (st : NotificationStatus) : ReminderUpdate :=
  {| ru_title := None;
     ru_message := None;
     ru_reminder_time := None;
     ru_task_due_date := None;
     ru_status := Some (Some st) |}.

(** *** The other handlers of routes/notifications.py *)

Record ReminderCreate : Type := {
  rc_task_id : string;
  rc_title : string;
  rc_message : string;
  rc_reminder_time : datetime;
  rc_task_due_date : option datetime;
}.

(** [db.reminders.insert_one(doc)]: the store assigns a new [_id]. *)
Definition insert_one_reminder (doc : ReminderDoc)
  : Handler Database ObjectId :=
  λ db,
    let oid := fresh (dom (reminders db)) in
    ({| reminders := <[oid := bson_reminder doc]> (reminders db);
        notifications := notifications db |}, inr oid).

(** [reminder.model_dump()] with [created_at], [updated_at] and [status]
    added. *)
Definition reminder_dict (reminder : ReminderCreate)
    (utcnow1 utcnow2 : datetime) : ReminderDoc :=
  {| r_task_id := rc_task_id reminder;
     r_title := Some (rc_title reminder);
     r_message := Some (rc_message reminder);
     r_reminder_time := Some (rc_reminder_time reminder);
     r_task_due_date := rc_task_due_date reminder;
     r_status := Some PENDING;
     r_created_at := utcnow1;
     r_updated_at := utcnow2;
     r_sent_at := None |}.

(** [POST /reminders] *)
Definition create_reminder (reminder : ReminderCreate)
    (utcnow1 utcnow2 : datetime) : Handler Database Reminder :=
  inserted_id <~ insert_one_reminder (reminder_dict reminder utcnow1 utcnow2) ;;
  created_reminder <~ find_one_reminder inserted_id ;;
  match created_reminder with
  | None => raise TypeError
  | Some doc => Reminder_init inserted_id doc
  end.

(** [GET /reminders/{reminder_id}] *)
Definition get_reminder (reminder_id : string) : Handler Database Reminder :=
  match ObjectId_of_str reminder_id with
  | None => raise (HTTPException 400 "Invalid reminder ID format")
  | Some object_id =>
      reminder <~ find_one_reminder object_id ;;
      match reminder with
      | None => raise (HTTPException 404 "Reminder not found")
      | Some doc => Reminder_init object_id doc
      end
  end.

(** The [filter_dict] of [get_reminders]; a member of the status
    enumeration is a non-empty string, hence always true. *)
Record ReminderFilter : Type := {
  rf_status : option NotificationStatus;
  rf_task_id : option string;
}.

Definition reminder_filter_dict (status : option NotificationStatus)
    (task_id : option string) : ReminderFilter :=
  {| rf_status := status; rf_task_id := nonempty task_id |}.

(** A document matches the equality conditions of the filter. *)
Definition reminder_matches (f : ReminderFilter) (d : ReminderDoc) : bool :=
  match rf_status f with
  | Some st => bool_decide (r_status d = Some st)
  | None => true
  end
  && match rf_task_id f with
     | Some t => bool_decide (r_task_id d = t)
     | None => true
     end.

(** The order of the sort key of a nullable date field, ascending: [null]
    sorts before every date. *)
Definition date_key_le (a b : option datetime) : Prop :=
  match a, b with
  | None, _ => True
  | Some _, None => False
  | Some x, Some y => x ≤ y
  end.

Global Instance date_key_le_dec a b : Decision (date_key_le a b).
Proof. destruct a, b; simpl; apply _. Defined.

(** [.sort("reminder_time", 1)] *)
Definition by_reminder_time : relation (ObjectId * ReminderDoc) :=
  λ p q, date_key_le (r_reminder_time p.2) (r_reminder_time q.2).

Global Instance by_reminder_time_dec p q : Decision (by_reminder_time p q).
Proof. unfold by_reminder_time. apply _. Defined.

(** [.sort("created_at", -1)] on notifications. *)
Definition by_created_at_desc : relation (ObjectId * NotificationDoc) :=
  λ p q, n_created_at q.2 ≤ n_created_at p.2.

Global Instance by_created_at_desc_dec p q :
  Decision (by_created_at_desc p q).
Proof. unfold by_created_at_desc. apply _. Defined.

(** [[Reminder(...) for reminder in reminders]], after each [_id] was
    turned into a string. *)
Fixpoint Reminder_list (reminders : list (ObjectId * ReminderDoc))
  : Handler Database (list Reminder) :=
  match reminders with
  | [] => ret []
  | (oid, doc) :: rest =>
      r <~ Reminder_init oid doc ;;
      rs <~ Reminder_list rest ;;
      ret (r :: rs)
  end.

(** [GET /reminders] *)
Definition get_reminders (skip limit : nat)
    (status : option NotificationStatus) (task_id : option string)
  : Handler Database (list Reminder) :=
  db <~ get_db ;;
  let filter_dict := reminder_filter_dict status task_id in
  let reminders :=
    cursor_to_list by_reminder_time skip limit
      (filter (λ p, reminder_matches filter_dict p.2)
         (map_to_list (reminders db))) in
  Reminder_list reminders.

(** The [filter_dict] of [get_notification_history]. *)
Record NotificationFilter : Type := {
  nf_status : option NotificationStatus;
  nf_notification_type : option NotificationType;
  nf_task_id : option string;
}.

Definition notification_filter_dict (status : option NotificationStatus)
    (notification_type : option NotificationType) (task_id : option string)
  : NotificationFilter :=
  {| nf_status := status;
     nf_notification_type := notification_type;
     nf_task_id := nonempty task_id |}.

Definition notification_matches (f : NotificationFilter)
    (d : NotificationDoc) : bool :=
  match nf_status f with
  | Some st => bool_decide (n_status d = st)
  | None => true
  end
  && match nf_notification_type f with
     | Some ty => bool_decide (n_notification_type d = ty)
     | None => true
     end
  && match nf_task_id f with
     | Some t => bool_decide (n_task_id d = t)
     | None => true
     end.

Fixpoint Notification_list (notifications : list (ObjectId * NotificationDoc))
  : Handler Database (list Notification) :=
  match notifications with
  | [] => ret []
  | (oid, doc) :: rest =>
      n <~ Notification_init oid doc ;;
      ns <~ Notification_list rest ;;
      ret (n :: ns)
  end.

(** [GET /notifications/history] *)
Definition get_notification_history (skip limit : nat)
    (status : option NotificationStatus)
    (notification_type : option NotificationType) (task_id : option string)
  : Handler Database (list Notification) :=
  db <~ get_db ;;
  let filter_dict := notification_filter_dict status notification_type task_id in
  let notifications :=
    cursor_to_list by_created_at_desc skip limit
      (filter (λ p, notification_matches filter_dict p.2)
         (map_to_list (notifications db))) in
  Notification_list notifications.

(** The dictionary [get_notification_stats] returns, by key. *)
Record NotificationStats : Type := {
  total_reminders : nat;
  pending_reminders : nat;
  sent_reminders : nat;
  total_notifications : nat;
  sent_notifications : nat;
  failed_notifications : nat;
  due_soon : nat;
}.

(** [GET /stats/overview] *)
Definition get_notification_stats (utcnow : datetime)
  : Handler Database NotificationStats :=
  db <~ get_db ;;
  let next_hour := utcnow + timedelta_hours 1 in
  ret {| total_reminders := count_documents (λ _, true) (reminders db);
         pending_reminders :=
           count_documents (λ d, bool_decide (r_status d = Some PENDING))
             (reminders db);
         sent_reminders :=
           count_documents (λ d, bool_decide (r_status d = Some SENT))
             (reminders db);
         total_notifications :=
           count_documents (λ _, true) (notifications db);
         sent_notifications :=
           count_documents (λ d, bool_decide (n_status d = SENT))
             (notifications db);
         failed_notifications :=
           count_documents (λ d, bool_decide (n_status d = FAILED))
             (notifications db);
         due_soon := count_documents (is_due next_hour) (reminders db) |}.

(** The input of [create_reminder] passed the request validation. *)
Definition valid_ReminderCreate (reminder : ReminderCreate) : bool :=
  str_len_ok 1 200 (rc_title reminder)
  && str_len_ok 1 500 (rc_message reminder).

(** The [Reminder] that [create_reminder] answers with: the reminder as
    read back from the store. *)
Definition created_reminder (oid : ObjectId) (reminder : ReminderCreate)
    (utcnow1 utcnow2 : datetime) : Reminder :=
  {| rem_id := Some (str_of_ObjectId oid);
     rem_task_id := rc_task_id reminder;
     rem_title := rc_title reminder;
     rem_message := rc_message reminder;
     rem_reminder_time := bson_datetime (rc_reminder_time reminder);
     rem_task_due_date := bson_datetime <$> rc_task_due_date reminder;
     rem_status := PENDING;
     rem_created_at := bson_datetime utcnow1;
     rem_updated_at := bson_datetime utcnow2;
     rem_sent_at := None |}.

(** The stored reminder passes the validation of [Reminder]. *)
Definition readable (d : ReminderDoc) : bool :=
  match r_title d, r_message d, r_reminder_time d, r_status d with
  | Some t, Some m, Some _, Some _ =>
      str_len_ok 1 200 t && str_len_ok 1 500 m
  | _, _, _, _ => false
  end.

(** The stored notification passes the validation of [Notification]. *)
Definition presentable (d : NotificationDoc) : bool :=
  str_len_ok 1 200 (n_title d) && str_len_ok 1 500 (n_message d).

(** The page that the cursor of [get_reminders] delivers. *)
Definition reminders_page (skip limit : nat)
    (status : option NotificationStatus) (task_id : option string)
    (db : Database) : list (ObjectId * ReminderDoc) :=
  cursor_to_list by_reminder_time skip limit
    (filter (λ p, reminder_matches (reminder_filter_dict status task_id) p.2)
       (map_to_list (reminders db))).

(** The page that the cursor of [get_notification_history] delivers. *)
Definition notifications_page (skip limit : nat)
    (status : option NotificationStatus)
    (notification_type : option NotificationType) (task_id : option string)
    (db : Database) : list (ObjectId * NotificationDoc) :=
  cursor_to_list by_created_at_desc skip limit
    (filter (λ p, notification_matches
                    (notification_filter_dict status notification_type
                       task_id) p.2)
       (map_to_list (notifications db))).

Definition sample_reminder_create : ReminderCreate :=
  {| rc_task_id := "65f0a1b2c3d4e5f601234567";
     rc_title := "Reminder: Pay rent";
     rc_message := "Task 'Pay rent' is due soon";
     rc_reminder_time := 40500;
     rc_task_due_date := Some 100000 |}.

(** A request that only sets [title] to [null]. *)
Definition null_title_update : ReminderUpdate :=
  {| ru_title := Some None;
     ru_message := None;
     ru_reminder_time := None;
     ru_task_due_date := None;
     ru_status := None |}.


End Notifications.

(** ** The task service *)

Module Tasks.

(** *** models/task.py *)

Inductive TaskPriority : Type := LOW | MEDIUM | HIGH | URGENT.

Inductive TaskStatus : Type := PENDING | IN_PROGRESS | COMPLETED | CANCELLED.

Global Instance TaskPriority_eq_dec : EqDecision TaskPriority.
Proof. solve_decision. Defined.

Global Instance TaskStatus_eq_dec : EqDecision TaskStatus.
Proof. solve_decision. Defined.

Record TaskCreate : Type := {
  tc_title : string;
  tc_description : option string;
  tc_priority : TaskPriority;
  tc_category : option string;
  tc_due_date : option datetime;
  tc_reminder_enabled : bool;
  tc_reminder_time : option datetime;
}.

(** [TaskUpdate]: every field is optional, and a request may leave it unset
    (outer [None]), set it to [null] ([Some None]) or to a value. *)
Record TaskUpdate : Type := {
  tu_title : option (option string);
  tu_description : option (option string);
  tu_priority : option (option TaskPriority);
  tu_category : option (option string);
  tu_due_date : option (option datetime);
  tu_reminder_enabled : option (option bool);
  tu_reminder_time : option (option datetime);
  tu_status : option (option TaskStatus);
}.

(** [Task], the response model. *)
Record Task : Type := {
  t_id : option string;
  t_title : string;
  t_description : option string;
  t_priority : TaskPriority;
  t_category : option string;
  t_due_date : option datetime;
  t_reminder_enabled : bool;
  t_reminder_time : option datetime;
  t_status : TaskStatus;
  t_created_at : datetime;
  t_updated_at : datetime;
  t_completed_at : option datetime;
}.

(** *** The collection, and the world around the service *)

(** A document of [db.tasks].  [create_task] stores validated values;
    [update_task] can later [$set] any updatable field to [null].
    [completed_at] is absent until [complete_task] writes it. *)
Record TaskDoc : Type := {
  d_title : option string;
  d_description : option string;
  d_priority : option TaskPriority;
  d_category : option string;
  d_due_date : option datetime;
  d_reminder_enabled : option bool;
  d_reminder_time : option datetime;
  d_status : option TaskStatus;
  d_created_at : datetime;
  d_updated_at : datetime;
  d_completed_at : option datetime;
}.

Global Instance TaskDoc_eq_dec : EqDecision TaskDoc.
Proof. solve_decision. Defined.

(** The update document of [update_one(..., {"$set": ...})] on a task:
    [None] means the key is absent from the dictionary. *)
Record TaskSet : Type := {
  set_title : option (option string);
  set_description : option (option string);
  set_priority : option (option TaskPriority);
  set_category : option (option string);
  set_due_date : option (option datetime);
  set_reminder_enabled : option (option bool);
  set_reminder_time : option (option datetime);
  set_status : option (option TaskStatus);
  set_updated_at : option datetime;
  set_completed_at : option (option datetime);
}.

(** The task as the store keeps it: every date to the millisecond. *)
Definition bson_task (d : TaskDoc) : TaskDoc :=
  {| d_title := d_title d;
     d_description := d_description d;
     d_priority := d_priority d;
     d_category := d_category d;
     d_due_date := bson_datetime <$> d_due_date d;
     d_reminder_enabled := d_reminder_enabled d;
     d_reminder_time := bson_datetime <$> d_reminder_time d;
     d_status := d_status d;
     d_created_at := bson_datetime (d_created_at d);
     d_updated_at := bson_datetime (d_updated_at d);
     d_completed_at := bson_datetime <$> d_completed_at d |}.

(** What [$set] with the update document [u] makes of a stored task: the
    keys of [u] replace the fields, dates to the millisecond. *)
Definition apply_set (u : TaskSet) (d : TaskDoc) : TaskDoc :=
  {| d_title := default (d_title d) (set_title u);
     d_description := default (d_description d) (set_description u);
     d_priority := default (d_priority d) (set_priority u);
     d_category := default (d_category d) (set_category u);
     d_due_date := default (d_due_date d) (fmap (M:=option) bson_datetime <$> set_due_date u);
     d_reminder_enabled :=
       default (d_reminder_enabled d) (set_reminder_enabled u);
     d_reminder_time :=
       default (d_reminder_time d) (fmap (M:=option) bson_datetime <$> set_reminder_time u);
     d_status := default (d_status d) (set_status u);
     d_created_at := d_created_at d;
     d_updated_at := default (d_updated_at d) (bson_datetime <$> set_updated_at u);
     d_completed_at :=
       default (d_completed_at d) (fmap (M:=option) bson_datetime <$> set_completed_at u) |}.

(** The JSON body that the bridge posts to [/reminders] of the notification
    service.  The two instants travel in ISO format. *)
Record ReminderPayload : Type := {
  p_task_id : option string;
  p_title : string;
  p_message : string;
  p_reminder_time : datetime;
  p_task_due_date : option datetime;
}.

(** An instance of a subclass of [Exception] raised by the HTTP client,
    with its rendering [str(e)]. *)
Record PyException : Type := {
  exc_class : string;
  exc_str : string;
}.

(** What the outbound [client.post] does: the notification service answers
    with some status code, or the call raises. *)
Inductive PostOutcome : Type :=
  | Responded (status_code : nat)
  | Raised (e : PyException).

(** What a handler of the task service acts on: the collection, the
    requests it has issued to the notification service (delivered or not),
    and its standard output. *)
Record World : Type := {
  tasks : gmap ObjectId TaskDoc;
  outbox : list ReminderPayload;
  stdout : list string;
}.

(** [db.tasks.insert_one(doc)]: the store assigns a new [_id]. *)
Definition insert_one (doc : TaskDoc) : Handler World ObjectId :=
  λ w,
    let oid := fresh (dom (tasks w)) in
    ({| tasks := <[oid := bson_task doc]> (tasks w);
        outbox := outbox w;
        stdout := stdout w |}, inr oid).

(** [db.tasks.find_one({"_id": oid})] *)
Definition find_one (oid : ObjectId) : Handler World (option TaskDoc) :=
  λ w, (w, inr (tasks w !! oid)).

(** [db.tasks.update_one({"_id": oid}, {"$set": u})], returning
    [matched_count]. *)
Definition update_one (oid : ObjectId) (u : TaskSet) : Handler World nat :=
  λ w,
    ({| tasks := alter (apply_set u) oid (tasks w);
        outbox := outbox w;
        stdout := stdout w |},
     inr (match tasks w !! oid with Some _ => 1%nat | None => 0%nat end)).

(** [db.tasks.delete_one({"_id": oid})], returning [deleted_count]. *)
Definition delete_one (oid : ObjectId) : Handler World nat :=
  λ w,
    ({| tasks := delete oid (tasks w);
        outbox := outbox w;
        stdout := stdout w |},
     inr (match tasks w !! oid with Some _ => 1%nat | None => 0%nat end)).

(** Pydantic's [max_length] on an optional string field. *)
Definition opt_len_ok (hi : nat) (o : option string) : bool :=
  match o with
  | Some s => str_len_ok 0 hi s
  | None => true
  end.

(** [Task] built from the keyword arguments of [doc], after
    [doc["_id"] = str(doc["_id"])]. *)
Definition Task_init (oid : ObjectId) (d : TaskDoc) : Handler World Task :=
  match d_title d, d_priority d, d_reminder_enabled d, d_status d with
  | Some title, Some priority, Some reminder_enabled, Some status =>
      if str_len_ok 1 200 title && opt_len_ok 1000 (d_description d)
         && opt_len_ok 100 (d_category d)
      then ret {| t_id := Some (str_of_ObjectId oid);
                  t_title := title;
                  t_description := d_description d;
                  t_priority := priority;
                  t_category := d_category d;
                  t_due_date := d_due_date d;
                  t_reminder_enabled := reminder_enabled;
                  t_reminder_time := d_reminder_time d;
                  t_status := status;
                  t_created_at := d_created_at d;
                  t_updated_at := d_updated_at d;
                  t_completed_at := d_completed_at d |}
      else raise ValidationError
  | _, _, _, _ => raise ValidationError
  end.

(** *** routes/tasks.py *)

(** The [json=] argument of the bridge's request. *)
Definition reminder_payload (task : Task) (reminder_time : datetime)
  : ReminderPayload :=
  {| p_task_id := t_id task;
     p_title := "Reminder: " +:+ t_title task;
     p_message := "Task '" +:+ t_title task +:+ "' is due soon";
     p_reminder_time := reminder_time;
     p_task_due_date := t_due_date task |}.

(** [notify_reminder_service]: [post] is the behaviour of the outbound
    call.  The [except Exception] clause prints and falls through. *)
Definition notify_reminder_service (post : ReminderPayload → PostOutcome)
    (task : Task) : Handler World unit :=
  match t_reminder_enabled task, t_reminder_time task with
  | true, Some reminder_time =>
      λ w,
        let payload := reminder_payload task reminder_time in
        match post payload with
        | Responded _ =>
            ({| tasks := tasks w;
                outbox := outbox w ++ [payload];
                stdout := stdout w |}, inr tt)
        | Raised e =>
            ({| tasks := tasks w;
                outbox := outbox w ++ [payload];
                stdout :=
                  stdout w
                  ++ ["Failed to notify reminder service: " +:+ exc_str e] |},
             inr tt)
        end
  | _, _ => ret tt
  end.

(** [task.model_dump()] with [created_at], [updated_at] and [status]
    added. *)
Definition task_dict (task : TaskCreate) (utcnow1 utcnow2 : datetime)
  : TaskDoc :=
  {| d_title := Some (tc_title task);
     d_description := tc_description task;
     d_priority := Some (tc_priority task);
     d_category := tc_category task;
     d_due_date := tc_due_date task;
     d_reminder_enabled := Some (tc_reminder_enabled task);
     d_reminder_time := tc_reminder_time task;
     d_status := Some PENDING;
     d_created_at := utcnow1;
     d_updated_at := utcnow2;
     d_completed_at := None |}.

(** [POST /tasks] *)
Definition create_task (post : ReminderPayload → PostOutcome)
    (task : TaskCreate) (utcnow1 utcnow2 : datetime) : Handler World Task :=
  inserted_id <~ insert_one (task_dict task utcnow1 utcnow2) ;;
  created_task <~ find_one inserted_id ;;
  match created_task with
  | None => raise TypeError
  | Some doc =>
      task_obj <~ Task_init inserted_id doc ;;
      notify_reminder_service post task_obj ;;;
      ret task_obj
  end.

(** [task_update.model_dump(exclude_unset=True)], then
    [update_data["updated_at"] = datetime.utcnow()]. *)
Definition task_update_data (task_update : TaskUpdate) (utcnow : datetime)
  : TaskSet :=
  {| set_title := tu_title task_update;
     set_description := tu_description task_update;
     set_priority := tu_priority task_update;
     set_category := tu_category task_update;
     set_due_date := tu_due_date task_update;
     set_reminder_enabled := tu_reminder_enabled task_update;
     set_reminder_time := tu_reminder_time task_update;
     set_status := tu_status task_update;
     set_updated_at := Some utcnow;
     set_completed_at := None |}.

(** ["reminder_enabled" in update_data or "reminder_time" in update_data] *)
Definition touches_reminder (update_data : TaskSet) : bool :=
  bool_decide (is_Some (set_reminder_enabled update_data))
  || bool_decide (is_Some (set_reminder_time update_data)).

(** [PUT /tasks/{task_id}] *)
Definition update_task (post : ReminderPayload → PostOutcome)
    (task_id : string) (task_update : TaskUpdate) (utcnow : datetime)
  : Handler World Task :=
  match ObjectId_of_str task_id with
  | None => raise (HTTPException 400 "Invalid task ID format")
  | Some object_id =>
      existing_task <~ find_one object_id ;;
      match existing_task with
      | None => raise (HTTPException 404 "Task not found")
      | Some _ =>
          let update_data := task_update_data task_update utcnow in
          update_one object_id update_data ;;;
          updated_task <~ find_one object_id ;;
          match updated_task with
          | None => raise TypeError
          | Some doc =>
              task_obj <~ Task_init object_id doc ;;
              (if touches_reminder update_data
               then notify_reminder_service post task_obj
               else ret tt) ;;;
              ret task_obj
          end
      end
  end.

(** [DELETE /tasks/{task_id}] *)
Definition delete_task (task_id : string)
  : Handler World (gmap string JSON) :=
  match ObjectId_of_str task_id with
  | None => raise (HTTPException 400 "Invalid task ID format")
  | Some object_id =>
      deleted_count <~ delete_one object_id ;;
      if bool_decide (deleted_count = 0%nat)
      then raise (HTTPException 404 "Task not found")
      else ret {[ "message" := JString "Task deleted successfully" ]}
  end.

(** The [update_data] of [complete_task]. *)
Definition completion_data (utcnow1 utcnow2 : datetime) : TaskSet :=
  {| set_title := None;
     set_description := None;
     set_priority := None;
     set_category := None;
     set_due_date := None;
     set_reminder_enabled := None;
     set_reminder_time := None;
     set_status := Some (Some COMPLETED);
     set_updated_at := Some utcnow2;
     set_completed_at := Some (Some utcnow1) |}.

(** [PATCH /tasks/{task_id}/complete] *)
Definition complete_task (task_id : string) (utcnow1 utcnow2 : datetime)
  : Handler World Task :=
  match ObjectId_of_str task_id with
  | None => raise (HTTPException 400 "Invalid task ID format")
  | Some object_id =>
      let update_data := completion_data utcnow1 utcnow2 in
      matched_count <~ update_one object_id update_data ;;
      if bool_decide (matched_count = 0%nat)
      then raise (HTTPException 404 "Task not found")
      else
        updated_task <~ find_one object_id ;;
        match updated_task with
        | None => raise TypeError
        | Some doc => Task_init object_id doc
        end
  end.

(** *** Vocabulary for the statements about the task service *)

(** The input of [create_task] passed the request validation. *)
Definition valid_TaskCreate (task : TaskCreate) : bool :=
  str_len_ok 1 200 (tc_title task) && opt_len_ok 1000 (tc_description task)
  && opt_len_ok 100 (tc_category task).

(** The [Task] that [create_task] answers with: the task as read back from
    the store. *)
Definition created_task (oid : ObjectId) (task : TaskCreate)
    (utcnow1 utcnow2 : datetime) : Task :=
  {| t_id := Some (str_of_ObjectId oid);
     t_title := tc_title task;
     t_description := tc_description task;
     t_priority := tc_priority task;
     t_category := tc_category task;
     t_due_date := bson_datetime <$> tc_due_date task;
     t_reminder_enabled := tc_reminder_enabled task;
     t_reminder_time := bson_datetime <$> tc_reminder_time task;
     t_status := PENDING;
     t_created_at := bson_datetime utcnow1;
     t_updated_at := bson_datetime utcnow2;
     t_completed_at := None |}.

(** The requests the bridge sends for a task: one when its reminder is
    enabled and has a time, none otherwise. *)
Definition bridge_requests (task : Task) : list ReminderPayload :=
  match t_reminder_enabled task, t_reminder_time task with
  | true, Some reminder_time => [reminder_payload task reminder_time]
  | _, _ => []
  end.

(** The invariant of the task model on one document: it is completed
    exactly when it has a completion instant. *)
Definition marker_ok (d : TaskDoc) : Prop :=
  d_status d = Some COMPLETED ↔ is_Some (d_completed_at d).

(** The invariant on every stored task. *)
Definition completion_invariant (w : World) : Prop :=
  map_Forall (λ _, marker_ok) (tasks w).

(** A request to the task service, with the clock readings its handler
    makes. *)
Inductive Request : Type :=
  | CreateTask (task : TaskCreate) (utcnow1 utcnow2 : datetime)
  | UpdateTask (task_id : string) (task_update : TaskUpdate)
      (utcnow : datetime)
  | DeleteTask (task_id : string)
  | CompleteTask (task_id : string) (utcnow1 utcnow2 : datetime).

(** The world after serving one request, whatever the response. *)
Definition serve (post : ReminderPayload → PostOutcome) (r : Request)
    (w : World) : World :=
  match r with
  | CreateTask task utcnow1 utcnow2 =>
      (create_task post task utcnow1 utcnow2 w).1
  | UpdateTask task_id task_update utcnow =>
      (update_task post task_id task_update utcnow w).1
  | DeleteTask task_id => (delete_task task_id w).1
  | CompleteTask task_id utcnow1 utcnow2 =>
      (complete_task task_id utcnow1 utcnow2 w).1
  end.

Definition serve_all (post : ReminderPayload → PostOutcome)
    (rs : list Request) (w : World) : World :=
  foldl (λ acc r, serve post r acc) w rs.

(** An update request whose body has no [status] key; the other requests
    qualify as they are. *)
Definition status_unset (r : Request) : Prop :=
  match r with
  | UpdateTask _ task_update _ => tu_status task_update = None
  | _ => True
  end.

Global Instance status_unset_dec r : Decision (status_unset r).
Proof. destruct r; simpl; apply _. Defined.

(** *** Sample data *)

Definition empty_world : World :=
  {| tasks := ∅; outbox := []; stdout := [] |}.

(** Scenario A of the specification, with [T] at 100 ms. *)
Definition pay_rent : TaskCreate :=
  {| tc_title := "Pay rent";
     tc_description := None;
     tc_priority := HIGH;
     tc_category := None;
     tc_due_date := Some 100000;
     tc_reminder_enabled := true;
     tc_reminder_time := Some 40000 |}.

(** A request body that only sets [status]. *)
Definition status_only (st : TaskStatus) : TaskUpdate :=
  {| tu_title := None;
     tu_description := None;
     tu_priority := None;
     tu_category := None;
     tu_due_date := None;
     tu_reminder_enabled := None;
     tu_reminder_time := None;
     tu_status := Some (Some st) |}.

(** A request body that only sets [title]. *)
Definition title_only (title : string) : TaskUpdate :=
  {| tu_title := Some (Some title);
     tu_description := None;
     tu_priority := None;
     tu_category := None;
     tu_due_date := None;
     tu_reminder_enabled := None;
     tu_reminder_time := None;
     tu_status := None |}.

(** The notification service is reachable and answers 200. *)
Definition reachable : ReminderPayload → PostOutcome :=
  λ _, Responded 200.

(** The notification service cannot be reached. *)
Definition unreachable : ReminderPayload → PostOutcome :=
  λ _, Raised {| exc_class := "ConnectError";
                 exc_str := "All connection attempts failed" |}.

(** *** The other handlers of routes/tasks.py *)

(** [GET /tasks/{task_id}] *)
Definition get_task (task_id : string) : Handler World Task :=
  match ObjectId_of_str task_id with
  | None => raise (HTTPException 400 "Invalid task ID format")
  | Some object_id =>
      task <~ find_one object_id ;;
      match task with
      | None => raise (HTTPException 404 "Task not found")
      | Some doc => Task_init object_id doc
      end
  end.

(** The value of a member of [TaskPriority], as stored. *)
Definition TaskPriority_value (p : TaskPriority) : string :=
  match p with
  | LOW => "low"
  | MEDIUM => "medium"
  | HIGH => "high"
  | URGENT => "urgent"
  end.

(** The [filter_dict] of [get_tasks].  [priority], [category] and [search]
    arrive as plain strings; [ft_search] is the pattern of the two
    [$regex] conditions under [$or]. *)
Record TaskFilter : Type := {
  ft_status : option TaskStatus;
  ft_priority : option string;
  ft_category : option string;
  ft_search : option string;
}.

Definition task_filter_dict (status : option TaskStatus)
    (priority category search : option string) : TaskFilter :=
  {| ft_status := status;
     ft_priority := nonempty priority;
     ft_category := nonempty category;
     ft_search := nonempty search |}.

(** A document matches the filter.  [regex] is the store's case-insensitive
    search of a compiled pattern in a string; a [null] field matches no
    pattern. *)
Definition task_matches (regex : string → bool) (f : TaskFilter)
    (d : TaskDoc) : bool :=
  match ft_status f with
  | Some st => bool_decide (d_status d = Some st)
  | None => true
  end
  && match ft_priority f with
     | Some p => bool_decide (TaskPriority_value <$> d_priority d = Some p)
     | None => true
     end
  && match ft_category f with
     | Some c => bool_decide (d_category d = Some c)
     | None => true
     end
  && match ft_search f with
     | Some _ =>
         match d_title d with Some t => regex t | None => false end
         || match d_description d with Some t => regex t | None => false end
     | None => true
     end.

(** [.sort("created_at", -1)] *)
Definition by_created_at_desc : relation (ObjectId * TaskDoc) :=
  λ p q, d_created_at q.2 ≤ d_created_at p.2.

Global Instance task_order_dec p q : Decision (by_created_at_desc p q).
Proof. unfold by_created_at_desc. apply _. Defined.

(** [[Task(...) for task in tasks]], after each [_id] was turned into a
    string. *)
Fixpoint Task_list (tasks : list (ObjectId * TaskDoc))
  : Handler World (list Task) :=
  match tasks with
  | [] => ret []
  | (oid, doc) :: rest =>
      t <~ Task_init oid doc ;;
      ts <~ Task_list rest ;;
      ret (t :: ts)
  end.

(** [GET /tasks].  [compile] is the store's regular-expression compiler:
    for a pattern it rejects ([None]) the query fails, otherwise it gives
    the case-insensitive search of the pattern in a string. *)
Definition get_tasks (compile : string → option (string → bool))
    (skip limit : nat) (status : option TaskStatus)
    (priority category search : option string)
  : Handler World (list Task) :=
  w <~ get_db ;;
  let filter_dict := task_filter_dict status priority category search in
  match match ft_search filter_dict with
        | Some pattern => compile pattern
        | None => Some (λ _, true)
        end with
  | None => raise PyMongoError
  | Some regex =>
      let tasks :=
        cursor_to_list by_created_at_desc skip limit
          (filter (λ p, task_matches regex filter_dict p.2)
             (map_to_list (tasks w))) in
      Task_list tasks
  end.

(** [TaskStats] *)
Record TaskStats : Type := {
  total_tasks : nat;
  pending_tasks : nat;
  in_progress_tasks : nat;
  completed_tasks : nat;
  cancelled_tasks : nat;
  overdue_tasks : nat;
  upcoming_tasks : nat;
}.

Definition has_status (st : TaskStatus) (d : TaskDoc) : bool :=
  bool_decide (d_status d = Some st).

(** [{"due_date": {"$lt": now}, "status": {"$ne": COMPLETED}}].  The
    store compares with the dates as the query carries them, to the
    millisecond. *)
Definition is_overdue (now : datetime) (d : TaskDoc) : bool :=
  match d_due_date d with
  | Some t => bool_decide (t < bson_datetime now)
  | None => false
  end && bool_decide (d_status d ≠ Some COMPLETED).

(** [{"due_date": {"$gte": now, "$lte": upcoming_deadline},
      "status": {"$ne": COMPLETED}}] *)
Definition is_upcoming (now upcoming_deadline : datetime) (d : TaskDoc)
  : bool :=
  match d_due_date d with
  | Some t =>
      bool_decide (bson_datetime now ≤ t ≤ bson_datetime upcoming_deadline)
  | None => false
  end && bool_decide (d_status d ≠ Some COMPLETED).

(** [GET /tasks/stats/overview] *)
Definition get_task_stats (now : datetime) : Handler World TaskStats :=
  w <~ get_db ;;
  let upcoming_deadline := now + timedelta_days 7 in
  ret {| total_tasks := count_documents (λ _, true) (tasks w);
         pending_tasks := count_documents (has_status PENDING) (tasks w);
         in_progress_tasks :=
           count_documents (has_status IN_PROGRESS) (tasks w);
         completed_tasks := count_documents (has_status COMPLETED) (tasks w);
         cancelled_tasks := count_documents (has_status CANCELLED) (tasks w);
         overdue_tasks := count_documents (is_overdue now) (tasks w);
         upcoming_tasks :=
           count_documents (is_upcoming now upcoming_deadline) (tasks w) |}.

(** The stored task passes the validation of [Task]. *)
Definition showable (d : TaskDoc) : bool :=
  match d_title d, d_priority d, d_reminder_enabled d, d_status d with
  | Some title, Some _, Some _, Some _ =>
      str_len_ok 1 200 title && opt_len_ok 1000 (d_description d)
      && opt_len_ok 100 (d_category d)
  | _, _, _, _ => false
  end.

(** The [Task] built from a stored task that passes the validation. *)
Definition task_view (oid : ObjectId) (d : TaskDoc) : Task :=
  {| t_id := Some (str_of_ObjectId oid);
     t_title := default "" (d_title d);
     t_description := d_description d;
     t_priority := default MEDIUM (d_priority d);
     t_category := d_category d;
     t_due_date := d_due_date d;
     t_reminder_enabled := default false (d_reminder_enabled d);
     t_reminder_time := d_reminder_time d;
     t_status := default PENDING (d_status d);
     t_created_at := d_created_at d;
     t_updated_at := d_updated_at d;
     t_completed_at := d_completed_at d |}.

(** The page that the cursor of [get_tasks] delivers. *)
Definition tasks_page (regex : string → bool) (skip limit : nat)
    (status : option TaskStatus) (priority category search : option string)
    (w : World) : list (ObjectId * TaskDoc) :=
  cursor_to_list by_created_at_desc skip limit
    (filter (λ p, task_matches regex
                    (task_filter_dict status priority category search) p.2)
       (map_to_list (tasks w))).

(** A request body that only sets [title] to [null]. *)
Definition null_title : TaskUpdate :=
  {| tu_title := Some None;
     tu_description := None;
     tu_priority := None;
     tu_category := None;
     tu_due_date := None;
     tu_reminder_enabled := None;
     tu_reminder_time := None;
     tu_status := None |}.

(** A request body that only sets [reminder_time]. *)
Definition reminder_time_only (t : datetime) : TaskUpdate :=
  {| tu_title := None;
     tu_description := None;
     tu_priority := None;
     tu_category := None;
     tu_due_date := None;
     tu_reminder_enabled := None;
     tu_reminder_time := Some (Some t);
     tu_status := None |}.

(** A request body that only sets [reminder_enabled]. *)
Definition reminder_enabled_only (b : bool) : TaskUpdate :=
  {| tu_title := None;
     tu_description := None;
     tu_priority := None;
     tu_category := None;
     tu_due_date := None;
     tu_reminder_enabled := Some (Some b);
     tu_reminder_time := None;
     tu_status := None |}.

(** The world after Scenario A, created at 1 ms. *)
Definition rent_world : World :=
  (create_task reachable pay_rent 1000 1001 empty_world).1.


End Tasks.

(** ** Facts about identifiers, cursors and counts *)

Module QueryFacts.

Local Open Scope nat_scope.

Lemma hex_digit_hex_char d : (d < 16)%N → hex_digit (hex_char d) = Some d.
Proof.
  intros Hd.
  assert (Forall (λ d, hex_digit (hex_char d) = Some d)
            (N.of_nat <$> seq 0 16)) as Hall.
  { apply (bool_decide_unpack _). vm_compute. exact I. }
  rewrite Forall_forall in Hall. apply Hall.
  apply list_elem_of_fmap. exists (N.to_nat d).
  split; [by rewrite N2Nat.id|].
  apply elem_of_seq. lia.
Qed.

Lemma hex_value_hex_digits n v acc a :
  hex_value (hex_digits n v acc) a
  = hex_value acc (a * 16 ^ N.of_nat n + v mod 16 ^ N.of_nat n)%N.
Proof.
  revert v acc a. induction n as [|n IH]; intros v acc a.
  - simpl. f_equal. rewrite N.mod_1_r. lia.
  - cbn [hex_digits]. rewrite IH. cbn [hex_value].
    rewrite hex_digit_hex_char by (apply N.mod_lt; lia).
    f_equal.
    rewrite Nat2N.inj_succ, N.pow_succ_r'.
    rewrite (N.Div0.mod_mul_r v 16 (16 ^ N.of_nat n)). lia.
Qed.

Lemma length_hex_digits n v acc :
  String.length (hex_digits n v acc) = (n + String.length acc)%nat.
Proof.
  revert v acc. induction n as [|n IH]; intros v acc; [done|].
  cbn [hex_digits]. rewrite IH. simpl. lia.
Qed.

Lemma hex_digit_not_space c d : hex_digit c = Some d → is_space c = false.
Proof.
  destruct c as [[] [] [] [] [] [] [] []]; vm_compute; congruence.
Qed.

(** On a string of hexadecimal digits, in pairs, [bytes.fromhex] reads a
    byte per pair, and the bytes make up the number that the digits
    write. *)
Lemma fromhex_hex_value n s acc v :
  String.length s = (2 * n)%nat →
  hex_value s acc = Some v →
  ∃ bs, fromhex s = Some bs ∧ length bs = n
        ∧ foldl (λ a b, 256 * a + b)%N acc bs = v.
Proof.
  revert s acc. induction n as [|n IH]; intros s acc Hlen Hv.
  - destruct s; [|done]. injection Hv as <-. by exists [].
  - destruct s as [|c [|c' s]]; [done|simpl in Hlen; lia|].
    cbn [hex_value] in Hv. cbn [fromhex].
    destruct (hex_digit c) as [top|] eqn:Hc; [|done].
    destruct (hex_digit c') as [bot|] eqn:Hc'; [|done].
    rewrite (hex_digit_not_space c top Hc).
    destruct (IH s (16 * (16 * acc + top) + bot)%N) as (bs & -> & Hbs & Hfold);
      [simpl in Hlen; lia|done|].
    exists ((16 * top + bot)%N :: bs).
    split; [done|]. split; [simpl; lia|].
    simpl. rewrite <- Hfold. f_equal. lia.
Qed.

(** The string written for an identifier is read back as the same
    identifier. *)
Lemma ObjectId_of_str_of_ObjectId oid :
  is_ObjectId oid → ObjectId_of_str (str_of_ObjectId oid) = Some oid.
Proof.
  unfold is_ObjectId, ObjectId_of_str, str_of_ObjectId. intros Hoid.
  rewrite bool_decide_eq_true_2 by (by rewrite length_hex_digits).
  destruct (fromhex_hex_value 12 (hex_digits 24 oid EmptyString) 0 oid)
    as (bs & -> & Hlen & Hfold).
  - by rewrite length_hex_digits.
  - rewrite hex_value_hex_digits. cbn [hex_value]. f_equal.
    change (N.of_nat 24) with 24%N.
    replace (16 ^ 24)%N with (2 ^ 96)%N by (by vm_compute).
    rewrite N.mod_small by done. lia.
  - simpl. f_equal. unfold ObjectId_of_bytes. rewrite Hlen, Hfold.
    rewrite Nat.sub_diag. lia.
Qed.

(** [ObjectId(s)] raises [InvalidId] exactly for the strings that do not
    have 24 characters or that [bytes.fromhex] rejects; it accepts a
    24-character string with whitespace between its digit pairs, and the
    identifier is then of fewer than 12 bytes. *)
Lemma ObjectId_of_str_None s :
  ObjectId_of_str s = None ↔ String.length s ≠ 24%nat ∨ fromhex s = None.
Proof.
  unfold ObjectId_of_str. case_bool_decide as Hlen.
  - destruct (fromhex s); simpl.
    + split; [done|]. by intros [?|?].
    + split; [by right|done].
  - split; [by left|done].
Qed.

Section cursor.
Context {A : Type} (R : relation A) `{∀ x y, Decision (R x y)}.

Lemma length_cursor_to_list skip limit (l : list A) :
  length (cursor_to_list R skip limit l) ≤ limit.
Proof. unfold cursor_to_list. rewrite !length_take. lia. Qed.

Lemma cursor_to_list_sublist skip limit (l : list A) :
  cursor_to_list R skip limit l `sublist_of` merge_sort R l.
Proof.
  unfold cursor_to_list.
  etrans; [apply sublist_take|]. etrans; [apply sublist_take|].
  apply sublist_drop.
Qed.

Lemma elem_of_cursor_to_list skip limit (l : list A) x :
  x ∈ cursor_to_list R skip limit l → x ∈ l.
Proof.
  intros Hx. rewrite <- (merge_sort_Permutation R l).
  eapply elem_of_sublist; [exact Hx|]. apply cursor_to_list_sublist.
Qed.

Lemma cursor_to_list_skipped skip limit (l : list A) :
  length l ≤ skip → cursor_to_list R skip limit l = [].
Proof.
  intros Hskip. unfold cursor_to_list.
  rewrite drop_ge; [by rewrite !take_nil|].
  by rewrite (merge_sort_Permutation R l).
Qed.

Lemma StronglySorted_sublist (l1 l2 : list A) :
  l1 `sublist_of` l2 → StronglySorted R l2 → StronglySorted R l1.
Proof.
  induction 1 as [|x l1 l2 Hsub IH|x l1 l2 Hsub IH]; intros Hs.
  - constructor.
  - apply StronglySorted_inv in Hs as [Hs Hall].
    constructor; [by apply IH|].
    eapply Forall_forall. intros y Hy.
    rewrite Forall_forall in Hall. apply Hall.
    by eapply elem_of_sublist.
  - apply StronglySorted_inv in Hs as [Hs _]. by apply IH.
Qed.

Lemma StronglySorted_cursor_to_list `{!Transitive R, !Total R}
    skip limit (l : list A) :
  StronglySorted R (cursor_to_list R skip limit l).
Proof.
  eapply StronglySorted_sublist; [apply cursor_to_list_sublist|].
  by apply StronglySorted_merge_sort.
Qed.

End cursor.

Section count.
Context {A : Type}.
Implicit Types (m : gmap ObjectId A) (P Q : A → bool).

Lemma count_documents_le P m : count_documents P m ≤ size m.
Proof.
  unfold count_documents. rewrite <- length_map_to_list. apply length_filter.
Qed.

Lemma count_documents_all m : count_documents (λ _, true) m = size m.
Proof.
  unfold count_documents. rewrite <- length_map_to_list. f_equal.
  induction (map_to_list m) as [|x l IH]; [done|].
  rewrite filter_cons_True by done. by f_equal.
Qed.

Lemma length_filter_mono (P1 P2 : ObjectId * A → Prop)
    `{∀ x, Decision (P1 x), ∀ x, Decision (P2 x)} (l : list (ObjectId * A)) :
  (∀ x, x ∈ l → P1 x → P2 x) →
  length (filter P1 l) ≤ length (filter P2 l).
Proof.
  induction l as [|x l IH]; intros Himp; [done|].
  assert (length (filter P1 l) ≤ length (filter P2 l)) as IH'.
  { apply IH. intros y Hy. apply Himp. by apply list_elem_of_further. }
  destruct (decide (P1 x)) as [H1|H1].
  - rewrite (filter_cons_True P1), (filter_cons_True P2);
      [simpl; lia|apply Himp; [apply list_elem_of_here|done]|done].
  - rewrite (filter_cons_False P1) by done.
    destruct (decide (P2 x)).
    + rewrite (filter_cons_True P2) by done. simpl. lia.
    + by rewrite (filter_cons_False P2).
Qed.

(** A query that selects less counts less. *)
Lemma count_documents_mono P Q m :
  (∀ oid d, m !! oid = Some d → P d = true → Q d = true) →
  count_documents P m ≤ count_documents Q m.
Proof.
  intros Himp. unfold count_documents. apply length_filter_mono.
  intros [oid d] Hin%elem_of_map_to_list HP. simpl in *.
  apply Is_true_true. apply (Himp oid d Hin). by apply Is_true_true.
Qed.

Lemma length_filter_disjoint (P1 P2 : ObjectId * A → Prop)
    `{∀ x, Decision (P1 x), ∀ x, Decision (P2 x)} (l : list (ObjectId * A)) :
  (∀ x, P1 x → P2 x → False) →
  length (filter P1 l) + length (filter P2 l)
  = length (filter (λ x, P1 x ∨ P2 x) l).
Proof.
  intros Hdisj. induction l as [|x l IH]; [done|].
  destruct (decide (P1 x)) as [H1|H1], (decide (P2 x)) as [H2|H2].
  - destruct (Hdisj x H1 H2).
  - rewrite (filter_cons_True P1), (filter_cons_False P2),
      (filter_cons_True (λ x, P1 x ∨ P2 x)) by tauto.
    simpl. lia.
  - rewrite (filter_cons_False P1), (filter_cons_True P2),
      (filter_cons_True (λ x, P1 x ∨ P2 x)) by tauto.
    simpl. lia.
  - rewrite (filter_cons_False P1), (filter_cons_False P2),
      (filter_cons_False (λ x, P1 x ∨ P2 x)) by tauto.
    done.
Qed.

(** Two queries that no document satisfies together count, between them,
    what their disjunction counts. *)
Lemma count_documents_disjoint P Q m :
  (∀ d, P d = true → Q d = true → False) →
  (count_documents P m + count_documents Q m
   = count_documents (λ d, P d || Q d) m)%nat.
Proof.
  intros Hdisj. unfold count_documents.
  rewrite length_filter_disjoint.
  - f_equal. apply list_filter_iff. intros [oid d]. simpl.
    rewrite orb_True. tauto.
  - intros [oid d] HP HQ. simpl in *.
    apply (Hdisj d); by apply Is_true_true.
Qed.

Lemma length_filter_cons P (oid : ObjectId) (d : A) (l : list (ObjectId * A)) :
  length (filter (λ p, P p.2) ((oid, d) :: l))
  = ((if P d then 1 else 0) + length (filter (λ p, P p.2) l))%nat.
Proof.
  destruct (P d) eqn:Hd.
  - rewrite filter_cons_True; [done|]. simpl. rewrite Hd. exact I.
  - rewrite filter_cons_False; [done|]. simpl. rewrite Hd. intros [].
Qed.

(** Counting after a document was replaced. *)
Lemma count_documents_insert P m oid d d' :
  m !! oid = Some d →
  (count_documents P (<[oid := d']> m) + (if P d then 1 else 0)
   = count_documents P m + (if P d' then 1 else 0))%nat.
Proof.
  intros Hl. unfold count_documents.
  rewrite <- (insert_delete_eq m oid d') at 1.
  rewrite map_to_list_insert by apply lookup_delete_eq.
  rewrite <- (map_to_list_delete m oid d Hl).
  rewrite !length_filter_cons. lia.
Qed.

Lemma count_documents_insert_new P m oid d :
  m !! oid = None →
  count_documents P (<[oid := d]> m)
  = (count_documents P m + (if P d then 1 else 0))%nat.
Proof.
  intros Hl. unfold count_documents.
  rewrite map_to_list_insert by done.
  rewrite length_filter_cons. lia.
Qed.

Lemma count_documents_delete P m oid d :
  m !! oid = Some d →
  (count_documents P (delete oid m) + (if P d then 1 else 0)
   = count_documents P m)%nat.
Proof.
  intros Hl. unfold count_documents.
  rewrite <- (map_to_list_delete m oid d Hl).
  rewrite length_filter_cons. lia.
Qed.

End count.

Lemma StronglySorted_Forall2 {A B} (R : relation A) (R' : relation B)
    (Q : A → B → Prop) (l : list A) (k : list B) :
  (∀ a1 a2 b1 b2, Q a1 b1 → Q a2 b2 → R a1 a2 → R' b1 b2) →
  Forall2 Q l k → StronglySorted R l → StronglySorted R' k.
Proof.
  intros HQ Hall. induction Hall as [|a b l k Hab Hall IH]; intros Hs.
  - constructor.
  - apply StronglySorted_inv in Hs as [Hs Hhd].
    constructor; [by apply IH|].
    clear IH Hs. induction Hall as [|a' b' l k Hab' _ IH]; [constructor|].
    apply Forall_cons in Hhd as [Hhd Htl].
    constructor; [by eapply HQ|by apply IH].
Qed.

Lemma filter_all {A} (P : A → Prop) `{∀ x, Decision (P x)} (l : list A) :
  (∀ x, P x) → filter P l = l.
Proof.
  intros HP. induction l as [|x l IH]; [done|].
  rewrite filter_cons_True by done. by f_equal.
Qed.

Lemma Forall2_Forall_impl {A B} (P : A → Prop) (Q Q' : A → B → Prop)
    (l : list A) (k : list B) :
  Forall P l → Forall2 Q l k → (∀ x y, P x → Q x y → Q' x y) →
  Forall2 Q' l k.
Proof.
  intros HP HQ Himp. induction HQ as [|x y l k Hxy _ IH]; [constructor|].
  apply Forall_cons in HP as [Hx HP]. constructor; [by apply Himp|by apply IH].
Qed.

Lemma Forall2_elem_of_r {A B} (Q : A → B → Prop) (l : list A) (k : list B) y :
  Forall2 Q l k → y ∈ k → ∃ x, x ∈ l ∧ Q x y.
Proof.
  intros Hall Hy. apply list_elem_of_lookup in Hy as [i Hi].
  destruct (Forall2_lookup_r _ _ _ _ _ Hall Hi) as (x & Hx & HQ).
  exists x. split; [|done]. apply list_elem_of_lookup. eauto.
Qed.

Lemma Forall2_elem_of_l {A B} (Q : A → B → Prop) (l : list A) (k : list B) x :
  Forall2 Q l k → x ∈ l → ∃ y, y ∈ k ∧ Q x y.
Proof.
  intros Hall Hx. apply list_elem_of_lookup in Hx as [i Hi].
  destruct (Forall2_lookup_l _ _ _ _ _ Hall Hi) as (y & Hy & HQ).
  exists y. split; [|done]. apply list_elem_of_lookup. eauto.
Qed.

(** A first page that is long enough holds every matching document. *)
Lemma elem_of_cursor_to_list_all {A} (R : relation A)
    `{∀ x y, Decision (R x y)} limit (l : list A) x :
  (length l ≤ limit)%nat → x ∈ l → x ∈ cursor_to_list R 0 limit l.
Proof.
  intros Hlen Hx. unfold cursor_to_list. rewrite drop_0.
  assert (length (merge_sort R l) ≤ limit)%nat as Hlen'
    by by rewrite merge_sort_Permutation.
  rewrite (take_ge (merge_sort _ _)) by done. rewrite take_ge by done.
  by rewrite merge_sort_Permutation.
Qed.

Lemma length_filter_all {A} (P : A → Prop) `{∀ x, Decision (P x)}
    (l : list A) :
  (∀ x, x ∈ l → P x) → length (filter P l) = length l.
Proof.
  induction l as [|x l IH]; intros HP; [done|].
  rewrite filter_cons_True by apply HP, list_elem_of_here.
  simpl. f_equal. apply IH. intros y Hy. by apply HP, list_elem_of_further.
Qed.

Lemma length_filter_none {A} (P : A → Prop) `{∀ x, Decision (P x)}
    (l : list A) :
  (∀ x, x ∈ l → ¬ P x) → length (filter P l) = 0%nat.
Proof.
  induction l as [|x l IH]; intros HP; [done|].
  rewrite filter_cons_False by apply HP, list_elem_of_here.
  apply IH. intros y Hy. by apply HP, list_elem_of_further.
Qed.

Lemma alter_present {A} (f : A → A) (oid : ObjectId) (m : gmap ObjectId A) x :
  m !! oid = Some x → alter f oid m = <[oid := f x]> m.
Proof.
  intros Hl. apply map_eq. intros o. rewrite lookup_alter, lookup_insert.
  destruct (decide (oid = o)) as [->|]; [by rewrite Hl|done].
Qed.

Lemma count_documents_ext {A} (P Q : A → bool) (m : gmap ObjectId A) :
  (∀ oid d, m !! oid = Some d → P d = Q d) →
  count_documents P m = count_documents Q m.
Proof.
  intros Heq. apply Nat.le_antisymm; apply count_documents_mono;
    intros oid d Hl; by rewrite (Heq oid d Hl).
Qed.

Lemma filter_none {A} (P : A → Prop) `{∀ x, Decision (P x)} (l : list A) :
  (∀ x, ¬ P x) → filter P l = [].
Proof.
  intros HP. induction l as [|x l IH]; [done|].
  by rewrite filter_cons_False.
Qed.

End QueryFacts.

(** ** Facts about dates in the store *)

Module StoreFacts.

Lemma bson_datetime_le t : bson_datetime t ≤ t.
Proof. unfold bson_datetime. Z.div_mod_to_equations. lia. Qed.

Lemma bson_datetime_gt t : t - 1000 < bson_datetime t.
Proof. unfold bson_datetime. Z.div_mod_to_equations. lia. Qed.

Lemma bson_datetime_mono s t : s ≤ t → bson_datetime s ≤ bson_datetime t.
Proof.
  intros Hle. unfold bson_datetime.
  apply Z.mul_le_mono_nonneg_r; [lia|]. by apply Z.div_le_mono.
Qed.

Lemma bson_datetime_idemp t : bson_datetime (bson_datetime t) = bson_datetime t.
Proof. unfold bson_datetime. by rewrite Z.div_mul. Qed.

(** A date of the store is not later than [now] as a query carries it
    exactly when it is not later than [now]. *)
Lemma le_bson_datetime s now :
  bson_datetime s ≤ bson_datetime now ↔ bson_datetime s ≤ now.
Proof.
  split.
  - intros Hle. pose proof (bson_datetime_le now). lia.
  - intros Hle. rewrite <- (bson_datetime_idemp s).
    by apply bson_datetime_mono.
Qed.

End StoreFacts.

(** ** Facts about the notification service *)

Module NotificationsFacts.
Import Notifications StoreFacts.

Lemma mark_sent_idemp now d : mark_sent now (mark_sent now d) = mark_sent now d.
Proof. reflexivity. Qed.

Lemma mark_sent_status now d : r_status (mark_sent now d) = Some SENT.
Proof. reflexivity. Qed.

Lemma is_due_pending now d : is_due now d = true → r_status d = Some PENDING.
Proof.
  unfold is_due. intros [_ H]%andb_true_iff.
  by apply bool_decide_eq_true in H.
Qed.

Lemma is_due_mark_sent now now' d : is_due now' (mark_sent now d) = false.
Proof.
  unfold is_due. apply andb_false_iff. right.
  by apply bool_decide_eq_false.
Qed.

Lemma elem_of_find_due now db oid d :
  (oid, d) ∈ find_due now db ↔ reminders db !! oid = Some d ∧ is_due now d = true.
Proof.
  unfold find_due. rewrite list_elem_of_filter, elem_of_map_to_list. simpl.
  rewrite Is_true_true. tauto.
Qed.

Lemma NoDup_find_due now db : NoDup (find_due now db).*1.
Proof.
  unfold find_due.
  eapply NoDup_fmap_fst.
  - intros oid d1 d2 [_ H1]%list_elem_of_filter [_ H2]%list_elem_of_filter.
    apply elem_of_map_to_list in H1, H2. congruence.
  - apply NoDup_filter, NoDup_map_to_list.
Qed.

Lemma process_due_cons_ok F now oid d rest n db :
  step_ok F (oid, d) →
  process_due F now ((oid, d) :: rest) n db
  = process_due F now rest (S n) (step_db now oid d db).
Proof.
  intros (Hv & Hi & Hu). simpl in *.
  unfold notifiable in Hv. unfold step_db.
  unfold bind at 1. unfold NotificationCreate_init.
  destruct (r_title d) as [t|]; [|done].
  destruct (r_message d) as [m|]; [|done].
  rewrite Hv. unfold ret at 1. simpl.
  unfold bind at 1. unfold insert_one_notification. rewrite Hi.
  unfold bind at 1. unfold update_one_reminder. rewrite Hu.
  reflexivity.
Qed.

Lemma process_due_app_ok F now pre rest n db :
  Forall (step_ok F) pre →
  process_due F now (pre ++ rest) n db
  = process_due F now rest (n + length pre) (run_prefix now pre db).
Proof.
  intros Hpre. revert n db.
  induction Hpre as [|[oid d] pre Hok _ IH]; intros n db.
  - simpl. by rewrite Nat.add_0_r.
  - rewrite <- app_comm_cons, process_due_cons_ok by done.
    rewrite IH. simpl. by rewrite Nat.add_succ_r.
Qed.

Lemma reminders_run_prefix now pre db oid :
  reminders (run_prefix now pre db) !! oid
  = if bool_decide (oid ∈ pre.*1)
    then mark_sent now <$> reminders db !! oid
    else reminders db !! oid.
Proof.
  revert db. induction pre as [|[o d] pre IH]; intros db.
  - done.
  - rewrite fmap_cons.
    change (run_prefix now ((o, d) :: pre) db)
      with (run_prefix now pre (step_db now o d db)).
    rewrite IH. unfold step_db at 1 2. cbn [reminders fst snd].
    rewrite lookup_alter.
    destruct (decide (o = oid)) as [->|Hne].
    + rewrite (bool_decide_eq_true_2 (oid ∈ oid :: pre.*1)) by apply list_elem_of_here.
      case_bool_decide; [|done].
      destruct (reminders db !! oid); simpl; [|done].
      by rewrite mark_sent_idemp.
    + case_bool_decide as Hin.
      * rewrite bool_decide_eq_true_2; [done|]. by apply list_elem_of_further.
      * rewrite bool_decide_eq_false_2; [done|].
        intros [?|?]%elem_of_cons; congruence.
Qed.

Lemma fresh_notification_None db :
  notifications db !! fresh (dom (notifications db)) = None.
Proof. apply not_elem_of_dom, is_fresh. Qed.

Lemma notifications_run_prefix_subseteq now pre db :
  notifications db ⊆ notifications (run_prefix now pre db).
Proof.
  revert db. induction pre as [|[o d] pre IH]; intros db; [done|].
  simpl. etrans; [|apply IH]. simpl.
  apply insert_subseteq, fresh_notification_None.
Qed.

Lemma notifications_run_prefix_size now pre db :
  size (notifications (run_prefix now pre db))
  = (size (notifications db) + length pre)%nat.
Proof.
  revert db. induction pre as [|[o d] pre IH]; intros db.
  - simpl. by rewrite Nat.add_0_r.
  - simpl. rewrite IH. simpl.
    rewrite map_size_insert_None by apply fresh_notification_None. lia.
Qed.


Lemma process_due_cons_update_fails F now oid d rest n db :
  notifiable d = true → insert_fails F oid = false →
  update_fails F oid = true →
  process_due F now ((oid, d) :: rest) n db
  = (half_step_db now d db, inl PyMongoError).
Proof.
  intros Hv Hi Hu. simpl.
  unfold notifiable in Hv. unfold half_step_db.
  unfold bind at 1. unfold NotificationCreate_init.
  destruct (r_title d) as [t|]; [|done].
  destruct (r_message d) as [m|]; [|done].
  rewrite Hv. unfold ret at 1. simpl.
  unfold bind at 1. unfold insert_one_notification. rewrite Hi.
  unfold bind at 1. unfold update_one_reminder. rewrite Hu.
  reflexivity.
Qed.

(** An iteration that does not go through raises, and leaves every
    reminder as it was. *)
Lemma process_due_cons_fail F now oid d rest n db :
  ¬ step_ok F (oid, d) →
  ∃ db1 e, process_due F now ((oid, d) :: rest) n db = (db1, inl e)
           ∧ reminders db1 = reminders db.
Proof.
  intros Hno. simpl.
  unfold bind at 1. unfold NotificationCreate_init.
  destruct (notifiable d) eqn:Hv; unfold notifiable in Hv.
  - destruct (r_title d) as [t|] eqn:Ht; [|done].
    destruct (r_message d) as [m|] eqn:Hm; [|done].
    rewrite Hv. unfold ret at 1. simpl.
    unfold bind at 1. unfold insert_one_notification.
    destruct (insert_fails F oid) eqn:Hi; [by eauto|].
    unfold bind at 1. unfold update_one_reminder.
    destruct (update_fails F oid) eqn:Hu; [by eauto|].
    exfalso. apply Hno. unfold step_ok, notifiable. simpl.
    by rewrite Ht, Hm, Hv.
  - destruct (r_title d) as [t|]; [|by eauto].
    destruct (r_message d) as [m|]; [|by eauto].
    rewrite Hv. by eauto.
Qed.

(** If the loop returns, every iteration went through. *)
Lemma process_due_returns F now due n db db' m :
  process_due F now due n db = (db', inr m) → Forall (step_ok F) due.
Proof.
  revert n db. induction due as [|[oid d] due IH]; intros n db Hrun.
  - constructor.
  - destruct (decide (step_ok F (oid, d))) as [Hok|Hno].
    + constructor; [done|].
      rewrite process_due_cons_ok in Hrun by done. eauto.
    + destruct (process_due_cons_fail F now oid d due n db Hno)
        as (db1 & e & Hfail & _).
      congruence.
Qed.

(** Whatever happens during the loop, a reminder is either left as it was
    or is one of the scanned reminders, now marked sent. *)
Lemma process_due_reminders F now due n db oid :
  reminders (process_due F now due n db).1 !! oid = reminders db !! oid
  ∨ (oid ∈ due.*1
     ∧ reminders (process_due F now due n db).1 !! oid
       = mark_sent now <$> reminders db !! oid).
Proof.
  revert n db. induction due as [|[o d] due IH]; intros n db.
  - by left.
  - destruct (decide (step_ok F (o, d))) as [Hok|Hno].
    + rewrite process_due_cons_ok by done.
      destruct (IH (S n) (step_db now o d db)) as [Heq|[Hin Heq]];
        rewrite Heq; simpl; rewrite lookup_alter.
      * destruct (decide (o = oid)) as [->|Hne]; [|by left].
        right. split; [apply list_elem_of_here|done].
      * right. split; [by apply list_elem_of_further|].
        destruct (decide (o = oid)) as [->|Hne]; [|done].
        destruct (reminders db !! oid); simpl; [|done].
        by rewrite mark_sent_idemp.
    + destruct (process_due_cons_fail F now o d due n db Hno)
        as (db1 & e & Hfail & Hrem).
      left. rewrite Hfail. simpl. by rewrite Hrem.
Qed.

Lemma check_due_reminders_unfold F now db :
  check_due_reminders F now db
  = match process_due F now (find_due now db) 0 db with
    | (db', inl e) => (db', inl e)
    | (db', inr n) => (db', inr (message_response n))
    end.
Proof. reflexivity. Qed.

Lemma find_due_nil now db :
  map_Forall (λ _ d, is_due now d = false) (reminders db) →
  find_due now db = [].
Proof.
  intros Hnone. destruct (find_due now db) as [|[oid d] due] eqn:Hdue; [done|].
  assert ((oid, d) ∈ find_due now db) as Hin.
  { rewrite Hdue. apply list_elem_of_here. }
  apply elem_of_find_due in Hin as [Hl Hd].
  apply Hnone in Hl. simpl in Hl. congruence.
Qed.

Lemma find_due_keys now db oid :
  oid ∈ (find_due now db).*1 ↔
  ∃ d, reminders db !! oid = Some d ∧ is_due now d = true.
Proof.
  rewrite list_elem_of_fmap. split.
  - intros ([o d] & -> & Hin). exists d. by apply elem_of_find_due.
  - intros (d & Hl & Hd). exists (oid, d). split; [done|].
    by apply elem_of_find_due.
Qed.

(** The pass when every iteration goes through: the final store and the
    value of [notifications_sent]. *)
Lemma process_due_all_ok F now db :
  Forall (step_ok F) (find_due now db) →
  process_due F now (find_due now db) 0 db
  = (run_prefix now (find_due now db) db, inr (length (find_due now db))).
Proof.
  intros Hok.
  rewrite <- (app_nil_r (find_due now db)) at 1.
  by rewrite process_due_app_ok.
Qed.

(** What makes a stored reminder due: its status is pending and its
    [reminder_time], a date of the store, is not later than [now]. *)
Lemma is_due_spec now d t :
  r_reminder_time d = Some (bson_datetime t) →
  is_due now d = true ↔ r_status d = Some PENDING ∧ bson_datetime t ≤ now.
Proof.
  intros Ht. unfold is_due. rewrite Ht, andb_true_iff, !bool_decide_eq_true.
  rewrite le_bson_datetime. tauto.
Qed.


(** C1, counterexample: reminder 1 of the sample store is pending and due
    at instant 10000.  After a [PUT] on it whose body sets [title] to
    [null], the pass at that instant, with no failing store write, ends
    with a validation error instead of a response, and reminder 1 is still
    pending. *)
Lemma pass_stopped_by_null_title :
  let db :=
    (update_reminder "000000000000000000000001" null_title_update 8000
       sample_db).1 in
  let r := check_due_reminders no_faults 10000 db in
  is_due 10000 <$> reminders db !! 1%N = Some true
  ∧ r.2 = inl ValidationError
  ∧ r_status <$> reminders r.1 !! 1%N = Some (Some PENDING).
Proof. vm_compute. done. Qed.



(** Scenario C of the specification: right after a pass in which every
    iteration went through, the query of the reconciler, at the same
    instant, matches nothing. *)
Lemma find_due_after_pass now db :
  find_due now (run_prefix now (find_due now db) db) = [].
Proof.
  apply find_due_nil. intros oid d'. rewrite reminders_run_prefix.
  case_bool_decide as Hin.
  - destruct (reminders db !! oid) as [d|]; [|done].
    intros [= <-]. apply is_due_mark_sent.
  - intros Hl. destruct (is_due now d') eqn:Hd; [|done].
    destruct Hin. apply find_due_keys. eauto.
Qed.

(** C8: when no reminder has [status = pending] and [reminder_time <= now],
    the pass returns with [notifications_sent = 0] and leaves the whole
    database as it was: no notification is inserted and no reminder is
    modified, whatever store writes would have failed. *)
Theorem check_due_reminders_idle F now db :
  map_Forall (λ _ d, is_due now d = false) (reminders db) →
  reconcile F now db = (db, inr 0%nat)
  ∧ check_due_reminders F now db = (db, inr (message_response 0)).
Proof.
  intros Hnone. apply find_due_nil in Hnone.
  split.
  - unfold reconcile, bind, get_db. by rewrite Hnone.
  - by rewrite check_due_reminders_unfold, Hnone.
Qed.

(** C8 at instant 0 on the sample store, where nothing is due yet, even
    with a store that would refuse the update of reminder 1. *)
Lemma check_due_reminders_idle_witness :
  map_Forall (λ _ d, is_due 0 d = false) (reminders sample_db)
  ∧ reconcile (failing_update 1) 0 sample_db = (sample_db, inr 0%nat)
  ∧ check_due_reminders (failing_update 1) 0 sample_db
    = (sample_db, inr (message_response 0)).
Proof.
  assert (map_Forall (λ _ d, is_due 0 d = false) (reminders sample_db))
    as Hnone.
  { apply (bool_decide_unpack _). vm_compute. exact I. }
  split; [exact Hnone|].
  exact (check_due_reminders_idle (failing_update 1) 0 sample_db Hnone).
Defined.

(** C2, counterexample: reminders 1 and 2 of the sample store are both due
    at instant 10 and the scan reaches reminder 2 first.  When the update
    of reminder 2 fails, the pass ends with the exception, reports no count,
    and reminder 1 is still pending. *)
Lemma pass_aborted_by_failed_update :
  let r := check_due_reminders (failing_update 2) 10000 sample_db in
  r.2 = inl PyMongoError
  ∧ is_due 10000 <$> reminders sample_db !! 1%N = Some true
  ∧ r_status <$> reminders r.1 !! 1%N = Some (Some PENDING).
Proof. vm_compute. done. Qed.

(** C2, amended: the iterations of a pass are not isolated.  If the scan
    meets, after iterations that went through, a due reminder whose
    notification is inserted but whose update fails, the pass ends there
    with the store's exception and reports no count: the reminders scanned
    before are sent, the failing reminder and those after it are stored
    unchanged (still pending), and the notification of the failing
    reminder stays in the store.  A pass that does return a response went
    through for every due reminder, and the count in its message is the
    number of reminders it updated to sent. *)
Theorem check_due_reminders_not_isolated F now db :
  (∀ pre oid d post,
     find_due now db = pre ++ (oid, d) :: post →
     Forall (step_ok F) pre →
     notifiable d = true → insert_fails F oid = false →
     update_fails F oid = true →
     ∃ db',
       check_due_reminders F now db = (db', inl PyMongoError)
       ∧ (∀ o x, (o, x) ∈ pre → reminders db' !! o = Some (mark_sent now x))
       ∧ reminders db' !! oid = Some d
       ∧ (∀ o x, (o, x) ∈ post → reminders db' !! o = Some x)
       ∧ size (notifications db')
         = (size (notifications db) + length pre + 1)%nat)
  ∧ (∀ db' body,
       check_due_reminders F now db = (db', inr body) →
       Forall (step_ok F) (find_due now db)
       ∧ body = message_response (length (find_due now db))
       ∧ ∀ oid d, (oid, d) ∈ find_due now db →
           reminders db' !! oid = Some (mark_sent now d)).
Proof.
  split.
  - intros pre oid d post Hdue Hpre Hv Hi Hu.
    pose proof (NoDup_find_due now db) as Hnd.
    rewrite Hdue, fmap_app, fmap_cons in Hnd. simpl in Hnd.
    apply NoDup_app in Hnd as (Hnd_pre & Hdisj & Hnd_post).
    apply NoDup_cons in Hnd_post as [Hoid_post _].
    assert (∀ o x, (o, x) ∈ find_due now db → reminders db !! o = Some x)
      as Hstored.
    { intros o x Hin. by apply elem_of_find_due in Hin as [? _]. }
    exists (half_step_db now d (run_prefix now pre db)).
    split; [|split; [|split; [|split]]].
    + rewrite check_due_reminders_unfold, Hdue, process_due_app_ok by done.
      by rewrite process_due_cons_update_fails.
    + intros o x Hin. simpl.
      rewrite reminders_run_prefix, bool_decide_eq_true_2.
      * rewrite (Hstored o x); [done|].
        rewrite Hdue. apply elem_of_app. by left.
      * apply list_elem_of_fmap. by exists (o, x).
    + simpl. rewrite reminders_run_prefix, bool_decide_eq_false_2.
      * apply Hstored. rewrite Hdue. apply elem_of_app. right.
        apply list_elem_of_here.
      * intros Hin. apply (Hdisj oid Hin). apply list_elem_of_here.
    + intros o x Hin. simpl.
      rewrite reminders_run_prefix, bool_decide_eq_false_2.
      * apply Hstored. rewrite Hdue. apply elem_of_app. right.
        by apply list_elem_of_further.
      * intros Hin'. apply (Hdisj o Hin'). apply list_elem_of_further.
        apply list_elem_of_fmap. by exists (o, x).
    + simpl.
      rewrite map_size_insert_None by apply fresh_notification_None.
      rewrite notifications_run_prefix_size. lia.
  - intros db' body Hrun.
    rewrite check_due_reminders_unfold in Hrun.
    destruct (process_due F now (find_due now db) 0 db)
      as [db1 [e|n]] eqn:Hloop; [done|].
    pose proof (process_due_returns _ _ _ _ _ _ _ Hloop) as Hok.
    rewrite process_due_all_ok in Hloop by done.
    injection Hloop as <- <-. injection Hrun as <- <-.
    split; [done|]. split; [done|].
    intros oid d Hin.
    rewrite reminders_run_prefix, bool_decide_eq_true_2.
    + apply elem_of_find_due in Hin as [-> _]. done.
    + apply list_elem_of_fmap. by exists (oid, d).
Qed.

(** C2 as amended, on the sample store at instant 10 when the update of
    reminder 2, the first one scanned, fails. *)
Lemma check_due_reminders_not_isolated_witness :
  find_due 10000 sample_db
    = [] ++ (2%N, sample_reminder "Reminder: Call bank" 7000 PENDING)
         :: [(1%N, sample_reminder "Reminder: Pay rent" 5000 PENDING)]
  ∧ ∃ db',
      check_due_reminders (failing_update 2) 10000 sample_db
        = (db', inl PyMongoError)
      ∧ reminders db' !! 2%N
        = Some (sample_reminder "Reminder: Call bank" 7000 PENDING)
      ∧ reminders db' !! 1%N
        = Some (sample_reminder "Reminder: Pay rent" 5000 PENDING)
      ∧ size (notifications db') = 1%nat.
Proof.
  assert (find_due 10000 sample_db
          = [] ++ (2%N, sample_reminder "Reminder: Call bank" 7000 PENDING)
               :: [(1%N, sample_reminder "Reminder: Pay rent" 5000 PENDING)])
    as Hdue by (vm_compute; reflexivity).
  split; [exact Hdue|].
  destruct (proj1 (check_due_reminders_not_isolated (failing_update 2) 10000
                     sample_db) _ _ _ _ Hdue)
    as (db' & Hrun & _ & H2 & Hpost & Hsize).
  - constructor.
  - reflexivity.
  - reflexivity.
  - reflexivity.
  - exists db'. split; [exact Hrun|]. split; [exact H2|].
    split; [apply Hpost, list_elem_of_here|exact Hsize].
Defined.

(** C3, counterexample: at instant 6 only reminder 1 of the sample store is
    due; the pass handles it and answers with the one key [message],
    holding a sentence, and not with [{processed_count: 1}]. *)
Lemma check_due_reminders_no_processed_count :
  let r := check_due_reminders no_faults 6000 sample_db in
  r.2 ≠ inr (processed_count_response 1)
  ∧ r.2 = inr {[ "message" := JString "Processed 1 due reminders" ]}
  ∧ r_status <$> reminders r.1 !! 1%N = Some (Some SENT).
Proof.
  assert ((check_due_reminders no_faults 6000 sample_db).2
          = inr {[ "message" := JString "Processed 1 due reminders" ]}) as Hr.
  { vm_compute. reflexivity. }
  cbv zeta. split; [|split; [exact Hr|by vm_compute]].
  rewrite Hr. intros Heq.
  assert (({[ "message" := JString "Processed 1 due reminders" ]}
             : gmap string JSON) !! "message"
          = processed_count_response 1 !! "message") as Hm by congruence.
  vm_compute in Hm. discriminate.
Qed.

(** C3, amended: a pass in which every iteration goes through answers
    [{"message": "Processed n due reminders"}], where [n], written in
    decimal, is the number of due reminders, all of which it has updated to
    sent; a pass that answers at all answers with exactly this body, which
    has no [processed_count] key. *)
Theorem check_due_reminders_response F now db :
  (Forall (step_ok F) (find_due now db) →
   (check_due_reminders F now db).2
   = inr {[ "message" :=
              JString ("Processed " +:+ pretty (length (find_due now db))
                         +:+ " due reminders") ]})
  ∧ (∀ db' body,
       check_due_reminders F now db = (db', inr body) →
       body = {[ "message" :=
                   JString ("Processed " +:+ pretty (length (find_due now db))
                              +:+ " due reminders") ]}
       ∧ body !! "processed_count" = None
       ∧ ∀ oid d, reminders db !! oid = Some d → is_due now d = true →
           reminders db' !! oid = Some (mark_sent now d)).
Proof.
  split.
  - intros Hok. by rewrite check_due_reminders_unfold, process_due_all_ok.
  - intros db' body Hrun.
    rewrite check_due_reminders_unfold in Hrun.
    destruct (process_due F now (find_due now db) 0 db)
      as [db1 [e|n]] eqn:Hloop; [done|].
    pose proof (process_due_returns _ _ _ _ _ _ _ Hloop) as Hok.
    rewrite process_due_all_ok in Hloop by done.
    injection Hloop as <- <-. injection Hrun as <- <-.
    split; [done|]. split.
    + unfold message_response. by rewrite lookup_singleton_ne.
    + intros oid d Hl Hd.
      rewrite reminders_run_prefix, bool_decide_eq_true_2.
      * by rewrite Hl.
      * apply find_due_keys. eauto.
Qed.

(** C3 as amended, on the sample store at instant 10. *)
Lemma check_due_reminders_response_witness :
  Forall (step_ok no_faults) (find_due 10000 sample_db)
  ∧ (check_due_reminders no_faults 10000 sample_db).2
    = inr {[ "message" := JString "Processed 2 due reminders" ]}.
Proof.
  assert (Forall (step_ok no_faults) (find_due 10000 sample_db)) as Hok.
  { apply (bool_decide_unpack _). vm_compute. exact I. }
  split; [exact Hok|].
  exact (proj1 (check_due_reminders_response no_faults 10000 sample_db) Hok).
Defined.

Lemma Reminder_init_fst oid d db : (Reminder_init oid d db).1 = db.
Proof.
  unfold Reminder_init.
  destruct (r_title d), (r_message d), (r_reminder_time d), (r_status d);
    try done.
  by destruct (_ && _).
Qed.

(** What [update_reminder] leaves in the store for an existing reminder,
    whether or not the response model then validates. *)
Lemma update_reminder_store id oid upd t db d :
  ObjectId_of_str id = Some oid →
  reminders db !! oid = Some d →
  reminders (update_reminder id upd t db).1
  = <[oid := apply_set (reminder_update_data upd t) d]> (reminders db).
Proof.
  intros Hid Hl. unfold update_reminder. rewrite Hid.
  unfold bind at 1. unfold find_one_reminder at 1. rewrite Hl.
  unfold bind at 1. unfold update_one_reminder.
  unfold bind at 1. unfold find_one_reminder. cbn [reminders].
  rewrite lookup_alter_eq, Hl. cbn [fmap option_fmap option_map].
  rewrite Reminder_init_fst. cbn [reminders].
  apply map_eq. intros o. rewrite lookup_alter, lookup_insert.
  destruct (decide (oid = o)) as [->|]; [by rewrite Hl|done].
Qed.

(** C7, counterexample: reminder 4 of the sample store has been sent; a
    [PUT] on it whose body sets [status] to pending is accepted and the
    reminder is stored as pending again. *)
Lemma sent_reminder_back_to_pending :
  r_status <$> reminders sample_db !! 4%N = Some (Some SENT)
  ∧ r_status <$>
      reminders (update_reminder "000000000000000000000004"
                   (status_update PENDING) 20000 sample_db).1 !! 4%N
    = Some (Some PENDING).
Proof. vm_compute. done. Qed.

(** C7, amended: the reconciler moves a reminder only from pending to sent
    and leaves every other reminder, and every reminder that is not
    pending, as it was, whatever fails during the pass; it neither creates
    nor removes reminders.  [PUT /reminders/{id}] stores whatever status its
    body carries, from any current status, and keeps the status when the
    body has none; [DELETE /reminders/{id}] removes the document. *)
Theorem reminder_status_transitions :
  (∀ F now db oid,
     match reminders (check_due_reminders F now db).1 !! oid with
     | Some d' =>
         ∃ d, reminders db !! oid = Some d
              ∧ (d' = d
                 ∨ (r_status d = Some PENDING ∧ r_status d' = Some SENT))
     | None => reminders db !! oid = None
     end)
  ∧ (∀ id oid upd t db d,
       ObjectId_of_str id = Some oid →
       reminders db !! oid = Some d →
       r_status <$> reminders (update_reminder id upd t db).1 !! oid
       = Some (default (r_status d) (ru_status upd)))
  ∧ (∀ id oid db d,
       ObjectId_of_str id = Some oid →
       reminders db !! oid = Some d →
       reminders (delete_reminder id db).1 !! oid = None).
Proof.
  split; [|split].
  - intros F now db oid.
    assert ((check_due_reminders F now db).1
            = (process_due F now (find_due now db) 0 db).1) as ->.
    { rewrite check_due_reminders_unfold.
      by destruct (process_due F now (find_due now db) 0 db) as [? [?|?]]. }
    destruct (process_due_reminders F now (find_due now db) 0 db oid)
      as [->|[Hin ->]].
    + destruct (reminders db !! oid) as [d|]; [|done]. eauto.
    + apply find_due_keys in Hin as (d & -> & Hd). simpl.
      exists d. split; [done|]. right.
      split; [by eapply is_due_pending|done].
  - intros id oid upd t db d Hid Hl.
    rewrite (update_reminder_store id oid upd t db d) by done.
    by rewrite lookup_insert_eq.
  - intros id oid db d Hid Hl. unfold delete_reminder.
    rewrite Hid, Hl. simpl. apply lookup_delete_eq.
Qed.

(** C7 as amended: cancelling the pending reminder 3 of the sample store
    through [PUT]. *)
Lemma reminder_status_transitions_witness :
  ObjectId_of_str "000000000000000000000003" = Some 3%N
  ∧ reminders sample_db !! 3%N
    = Some (sample_reminder "Reminder: Renew pass" 50000 PENDING)
  ∧ r_status <$>
      reminders (update_reminder "000000000000000000000003"
                   (status_update CANCELLED) 20000 sample_db).1 !! 3%N
    = Some (Some CANCELLED).
Proof.
  assert (ObjectId_of_str "000000000000000000000003" = Some 3%N) as Hid
    by (vm_compute; reflexivity).
  assert (reminders sample_db !! 3%N
          = Some (sample_reminder "Reminder: Renew pass" 50000 PENDING)) as Hl
    by (vm_compute; reflexivity).
  split; [exact Hid|]. split; [exact Hl|].
  exact (proj1 (proj2 reminder_status_transitions) _ _
           (status_update CANCELLED) 20000 _ _ Hid Hl).
Defined.

(** C10: for every validated request to [POST /notifications/send] the
    handler returns; the document it inserted with status pending under a
    new [_id] is stored, at the end, with status sent and [sent_at] set to
    the second clock reading (to the millisecond), while the response
    body, built from the document as inserted, carries the same [_id] with
    status pending and no [sent_at].  Nothing else in the database
    changes. *)
Theorem send_notification_reports_pending notification utcnow1 utcnow2 db :
  valid_NotificationCreate notification = true →
  let oid := fresh (dom (notifications db)) in
  ∃ db' obj,
    send_notification notification utcnow1 utcnow2 db = (db', inr obj)
    ∧ notifications db !! oid = None
    ∧ (insert_one_notification false
         (pending_notification notification utcnow1) db).1
      = {| reminders := reminders db;
           notifications :=
             <[oid := bson_notification
                        (pending_notification notification utcnow1)]>
               (notifications db) |}
    ∧ db' = {| reminders := reminders db;
              notifications :=
                <[oid := set_notification_sent utcnow2
                           (bson_notification
                              (pending_notification notification utcnow1))]>
                  (notifications db) |}
    ∧ n_status <$> notifications db' !! oid = Some SENT
    ∧ n_sent_at <$> notifications db' !! oid
      = Some (Some (bson_datetime utcnow2))
    ∧ ntf_id obj = Some (str_of_ObjectId oid)
    ∧ ntf_status obj = PENDING
    ∧ ntf_sent_at obj = None.
Proof.
  intros Hv oid. unfold valid_NotificationCreate in Hv.
  unfold send_notification.
  unfold bind at 1. unfold insert_one_notification at 1.
  unfold bind at 1. unfold find_one_notification. cbn [notifications].
  rewrite lookup_insert_eq.
  unfold bind at 1. unfold Notification_init.
  cbn [n_title n_message bson_notification pending_notification].
  rewrite Hv. unfold ret at 1.
  unfold bind at 1. unfold update_one_notification, ret.
  cbn [notifications reminders].
  rewrite alter_insert_eq.
  eexists _, _. split; [reflexivity|].
  split; [apply fresh_notification_None|].
  split; [reflexivity|]. split; [reflexivity|].
  cbn [notifications]. fold oid. rewrite lookup_insert_eq.
  done.
Qed.

(** C10 on the sample store: the first notification gets [_id] 0, and the
    second clock reading, 12345, is stored as 12000. *)
Lemma send_notification_reports_pending_witness :
  valid_NotificationCreate sample_notification = true
  ∧ ∃ db' obj,
      send_notification sample_notification 11000 12345 sample_db
      = (db', inr obj)
      ∧ n_status <$> notifications db' !! 0%N = Some SENT
      ∧ n_sent_at <$> notifications db' !! 0%N = Some (Some 12000)
      ∧ ntf_status obj = PENDING.
Proof.
  assert (valid_NotificationCreate sample_notification = true) as Hv
    by reflexivity.
  split; [exact Hv|].
  destruct (send_notification_reports_pending sample_notification 11000 12345
              sample_db Hv)
    as (db' & obj & Hrun & _ & _ & _ & Hst & Hsent & _ & Hobj & _).
  exists db', obj. split; [exact Hrun|]. split; [exact Hst|].
  split; [exact Hsent|exact Hobj].
Defined.

End NotificationsFacts.

(** ** Facts about the task service *)

Module TasksFacts.
Import Tasks QueryFacts StoreFacts.

Lemma Task_init_cases oid d w :
  Task_init oid d w = (w, inl ValidationError)
  ∨ ∃ task_obj, Task_init oid d w = (w, inr task_obj).
Proof.
  unfold Task_init.
  destruct (d_title d), (d_priority d), (d_reminder_enabled d), (d_status d);
    try by left.
  destruct (_ && _); [right; by eexists|by left].
Qed.

Lemma Task_init_task_dict oid task utcnow1 utcnow2 w :
  valid_TaskCreate task = true →
  Task_init oid (bson_task (task_dict task utcnow1 utcnow2)) w
  = (w, inr (created_task oid task utcnow1 utcnow2)).
Proof.
  intros Hv. unfold valid_TaskCreate in Hv.
  unfold Task_init. simpl. by rewrite Hv.
Qed.

(** The bridge always returns normally; it never touches the collection
    and issues exactly the requests of [bridge_requests]. *)
Lemma notify_reminder_service_spec post task w :
  ∃ w', notify_reminder_service post task w = (w', inr tt)
        ∧ tasks w' = tasks w
        ∧ outbox w' = outbox w ++ bridge_requests task.
Proof.
  unfold notify_reminder_service, bridge_requests.
  destruct (t_reminder_enabled task), (t_reminder_time task) as [rt|];
    try (exists w; by rewrite app_nil_r).
  destruct (post _); by eexists.
Qed.

Lemma alter_absent {A} (f : A → A) (oid : ObjectId) (m : gmap ObjectId A) :
  m !! oid = None → alter f oid m = m.
Proof.
  intros Hn. apply map_eq. intros o. rewrite lookup_alter.
  destruct (decide (oid = o)) as [->|]; [by rewrite Hn|done].
Qed.

(** What [create_task] leaves in the collection, whatever it responds. *)
Lemma create_task_tasks post task utcnow1 utcnow2 w :
  tasks (create_task post task utcnow1 utcnow2 w).1
  = <[fresh (dom (tasks w)) := bson_task (task_dict task utcnow1 utcnow2)]>
      (tasks w).
Proof.
  unfold create_task.
  unfold bind at 1. unfold insert_one at 1.
  unfold bind at 1. unfold find_one. cbn [tasks].
  rewrite lookup_insert_eq. unfold bind at 1.
  match goal with |- context [Task_init ?o ?d ?w0] =>
    destruct (Task_init_cases o d w0) as [->|[task_obj ->]] end; [done|].
  unfold bind at 1.
  match goal with |- context [notify_reminder_service ?p ?t ?w0] =>
    destruct (notify_reminder_service_spec p t w0) as (w' & -> & Ht & _) end.
  unfold ret. simpl. by rewrite Ht.
Qed.

(** What [update_task] leaves in the collection, whatever it responds. *)
Lemma update_task_tasks post task_id task_update utcnow w :
  tasks (update_task post task_id task_update utcnow w).1
  = match ObjectId_of_str task_id with
    | Some oid =>
        alter (apply_set (task_update_data task_update utcnow)) oid (tasks w)
    | None => tasks w
    end.
Proof.
  unfold update_task.
  destruct (ObjectId_of_str task_id) as [oid|]; [|done].
  unfold bind at 1. unfold find_one at 1.
  destruct (tasks w !! oid) as [d|] eqn:Hl.
  - unfold bind at 1. unfold update_one.
    unfold bind at 1. unfold find_one. cbn [tasks].
    rewrite lookup_alter_eq, Hl. cbn [fmap option_fmap option_map].
    unfold bind at 1.
    match goal with |- context [Task_init ?o ?d ?w0] =>
      destruct (Task_init_cases o d w0) as [->|[task_obj ->]] end; [done|].
    unfold bind at 1.
    destruct (touches_reminder _).
    + match goal with |- context [notify_reminder_service ?p ?t ?w0] =>
        destruct (notify_reminder_service_spec p t w0) as (w' & -> & Ht & _)
      end.
      unfold ret. simpl. by rewrite Ht.
    + done.
  - simpl. by rewrite alter_absent.
Qed.

(** What [complete_task] leaves in the collection, whatever it responds. *)
Lemma complete_task_tasks task_id utcnow1 utcnow2 w :
  tasks (complete_task task_id utcnow1 utcnow2 w).1
  = match ObjectId_of_str task_id with
    | Some oid =>
        alter (apply_set (completion_data utcnow1 utcnow2)) oid (tasks w)
    | None => tasks w
    end.
Proof.
  unfold complete_task.
  destruct (ObjectId_of_str task_id) as [oid|]; [|done].
  unfold bind at 1. unfold update_one.
  destruct (tasks w !! oid) as [d|] eqn:Hl.
  - rewrite bool_decide_eq_false_2 by done.
    unfold bind at 1. unfold find_one. cbn [tasks].
    rewrite lookup_alter_eq, Hl. cbn [fmap option_fmap option_map].
    match goal with |- context [Task_init ?o ?d ?w0] =>
      by destruct (Task_init_cases o d w0) as [->|[task_obj ->]] end.
  - by rewrite bool_decide_eq_true_2.
Qed.

(** What [delete_task] leaves in the collection, whatever it responds. *)
Lemma delete_task_tasks task_id w :
  tasks (delete_task task_id w).1
  = match ObjectId_of_str task_id with
    | Some oid => delete oid (tasks w)
    | None => tasks w
    end.
Proof.
  unfold delete_task.
  destruct (ObjectId_of_str task_id) as [oid|]; [|done].
  unfold bind, delete_one.
  by destruct (tasks w !! oid); case_bool_decide.
Qed.

(** [create_task] on a validated input, for any behaviour of the outbound
    call. *)
Lemma create_task_run post task utcnow1 utcnow2 w :
  valid_TaskCreate task = true →
  ∃ w',
    create_task post task utcnow1 utcnow2 w
    = (w', inr (created_task (fresh (dom (tasks w))) task utcnow1 utcnow2))
    ∧ tasks w'
      = <[fresh (dom (tasks w)) := bson_task (task_dict task utcnow1 utcnow2)]>
          (tasks w)
    ∧ outbox w'
      = outbox w
        ++ bridge_requests
             (created_task (fresh (dom (tasks w))) task utcnow1 utcnow2).
Proof.
  intros Hv. unfold create_task.
  unfold bind at 1. unfold insert_one at 1.
  unfold bind at 1. unfold find_one. cbn [tasks].
  rewrite lookup_insert_eq. unfold bind at 1.
  rewrite Task_init_task_dict by done.
  unfold bind at 1.
  match goal with |- context [notify_reminder_service ?p ?t ?w0] =>
    destruct (notify_reminder_service_spec p t w0) as (w' & -> & Ht & Ho) end.
  exists w'. unfold ret. split; [done|]. split; [by rewrite Ht|by rewrite Ho].
Qed.

(** C5: a validated task creation returns the created task, stored under a
    new id with status pending (its dates to the millisecond, as the store
    keeps them), for every behaviour of the bridge's outbound call: the
    response and the collection are the same whether the notification
    service answers (with any status code) or the call raises any
    exception, in particular when [reminder_enabled] is true. *)
Theorem create_task_survives_bridge_failure task utcnow1 utcnow2 w :
  valid_TaskCreate task = true →
  let oid := fresh (dom (tasks w)) in
  tasks w !! oid = None
  ∧ ∀ post, ∃ w',
      create_task post task utcnow1 utcnow2 w
      = (w', inr (created_task oid task utcnow1 utcnow2))
      ∧ tasks w'
        = <[oid := bson_task (task_dict task utcnow1 utcnow2)]> (tasks w).
Proof.
  intros Hv oid. split; [apply not_elem_of_dom, is_fresh|].
  intros post.
  destruct (create_task_run post task utcnow1 utcnow2 w Hv)
    as (w' & Hrun & Ht & _).
  by exists w'.
Qed.

(** C5 for Scenario A when the notification service cannot be reached. *)
Lemma create_task_survives_bridge_failure_witness :
  valid_TaskCreate pay_rent = true
  ∧ ∃ w',
      create_task unreachable pay_rent 1000 1001 empty_world
      = (w', inr (created_task 0 pay_rent 1000 1001))
      ∧ tasks w' = <[0%N := bson_task (task_dict pay_rent 1000 1001)]> ∅.
Proof.
  assert (valid_TaskCreate pay_rent = true) as Hv by reflexivity.
  split; [exact Hv|].
  exact (proj2 (create_task_survives_bridge_failure pay_rent 1000 1001
                  empty_world Hv) unreachable).
Defined.

(** The requests [update_task] issues, read off its response. *)
Lemma update_task_outbox post task_id task_update utcnow w :
  outbox (update_task post task_id task_update utcnow w).1
  = outbox w
    ++ match (update_task post task_id task_update utcnow w).2 with
       | inr task_obj =>
           if touches_reminder (task_update_data task_update utcnow)
           then bridge_requests task_obj
           else []
       | inl _ => []
       end.
Proof.
  unfold update_task.
  destruct (ObjectId_of_str task_id) as [oid|]; [|by rewrite app_nil_r].
  unfold bind, find_one, update_one. cbn [tasks].
  destruct (tasks w !! oid) as [d|] eqn:Hl; [|by rewrite app_nil_r].
  rewrite lookup_alter_eq, Hl. cbn [fmap option_fmap option_map].
  match goal with |- context [Task_init ?o ?d ?w0] =>
    destruct (Task_init_cases o d w0) as [->|[task_obj ->]] end;
    [by rewrite app_nil_r|].
  destruct (touches_reminder _).
  - match goal with |- context [notify_reminder_service ?p ?t ?w0] =>
      destruct (notify_reminder_service_spec p t w0) as (w' & -> & _ & Ho)
    end.
    unfold ret. simpl. by rewrite Ho.
  - simpl. by rewrite app_nil_r.
Qed.

Lemma Task_init_showable oid d w :
  showable d = true → Task_init oid d w = (w, inr (task_view oid d)).
Proof.
  unfold showable, Task_init, task_view.
  destruct (d_title d), (d_priority d), (d_reminder_enabled d), (d_status d);
    try done.
  by intros ->.
Qed.

Lemma Task_init_unshowable oid d w :
  showable d = false → Task_init oid d w = (w, inl ValidationError).
Proof.
  unfold showable, Task_init.
  destruct (d_title d), (d_priority d), (d_reminder_enabled d), (d_status d);
    try done.
  by intros ->.
Qed.

(** [update_task] on a stored task, step by step. *)
Lemma update_task_run post task_id oid task_update utcnow w d :
  ObjectId_of_str task_id = Some oid →
  tasks w !! oid = Some d →
  let d' := apply_set (task_update_data task_update utcnow) d in
  let w1 := {| tasks := <[oid := d']> (tasks w);
               outbox := outbox w;
               stdout := stdout w |} in
  update_task post task_id task_update utcnow w
  = if showable d'
    then if touches_reminder (task_update_data task_update utcnow)
         then ((notify_reminder_service post (task_view oid d') w1).1,
               inr (task_view oid d'))
         else (w1, inr (task_view oid d'))
    else (w1, inl ValidationError).
Proof.
  intros Hid Hl d' w1. unfold update_task. rewrite Hid.
  unfold bind at 1. unfold find_one at 1. rewrite Hl.
  unfold bind at 1. unfold update_one.
  unfold bind at 1. unfold find_one. cbn [tasks].
  rewrite lookup_alter_eq, Hl. cbn [fmap option_fmap option_map].
  rewrite (alter_present _ _ _ _ Hl). fold d'. fold w1.
  unfold bind at 1.
  destruct (showable d') eqn:Hs.
  - rewrite Task_init_showable by done.
    unfold bind at 1.
    destruct (touches_reminder _); [|done].
    destruct (notify_reminder_service_spec post (task_view oid d') w1)
      as (w' & -> & _). done.
  - by rewrite Task_init_unshowable.
Qed.

(** C6: the bridge issues a request exactly when the task's
    [reminder_enabled] is true and its [reminder_time] is set, and the body
    of the request carries the task's id, the title [Reminder: <title>], a
    message built from the title, the reminder time and the due date; it
    always returns and leaves the collection alone.  A task creation runs
    the bridge on the created task.  A task update on a stored task whose
    updated document passes the validation of [Task] answers with the
    updated task and runs the bridge on it when its body set
    [reminder_enabled] or [reminder_time], and issues no request when its
    body set neither.  Whatever an update responds, the requests it has
    issued are those of the bridge on the task it answers with when the
    body set one of the two fields, and none otherwise. *)
Theorem bridge_trigger_contract post :
  (∀ task,
     bridge_requests task
     = if t_reminder_enabled task
       then match t_reminder_time task with
            | Some reminder_time =>
                [ {| p_task_id := t_id task;
                     p_title := "Reminder: " +:+ t_title task;
                     p_message := "Task '" +:+ t_title task +:+ "' is due soon";
                     p_reminder_time := reminder_time;
                     p_task_due_date := t_due_date task |} ]
            | None => []
            end
       else [])
  ∧ (∀ task w,
       ∃ w', notify_reminder_service post task w = (w', inr tt)
             ∧ tasks w' = tasks w
             ∧ outbox w' = outbox w ++ bridge_requests task)
  ∧ (∀ task utcnow1 utcnow2 w,
       valid_TaskCreate task = true →
       ∃ w',
         create_task post task utcnow1 utcnow2 w
         = (w', inr (created_task (fresh (dom (tasks w))) task
                       utcnow1 utcnow2))
         ∧ outbox w'
           = outbox w
             ++ bridge_requests
                  (created_task (fresh (dom (tasks w))) task
                     utcnow1 utcnow2))
  ∧ (∀ task_id oid task_update utcnow w d,
       ObjectId_of_str task_id = Some oid →
       tasks w !! oid = Some d →
       let d' := apply_set (task_update_data task_update utcnow) d in
       showable d' = true →
       ∃ w',
         update_task post task_id task_update utcnow w
         = (w', inr (task_view oid d'))
         ∧ tasks w' = <[oid := d']> (tasks w)
         ∧ outbox w'
           = outbox w
             ++ if bool_decide (is_Some (tu_reminder_enabled task_update))
                   || bool_decide (is_Some (tu_reminder_time task_update))
                then bridge_requests (task_view oid d')
                else [])
  ∧ (∀ task_id task_update utcnow w w' task_obj,
       update_task post task_id task_update utcnow w = (w', inr task_obj) →
       outbox w'
       = outbox w
         ++ if bool_decide (is_Some (tu_reminder_enabled task_update))
               || bool_decide (is_Some (tu_reminder_time task_update))
            then bridge_requests task_obj
            else [])
  ∧ (∀ task_id task_update utcnow w,
       tu_reminder_enabled task_update = None →
       tu_reminder_time task_update = None →
       outbox (update_task post task_id task_update utcnow w).1 = outbox w).
Proof.
  split; [|split; [|split; [|split; [|split]]]].
  - intros task. unfold bridge_requests, reminder_payload.
    by destruct (t_reminder_enabled task), (t_reminder_time task).
  - intros task w. apply notify_reminder_service_spec.
  - intros task utcnow1 utcnow2 w Hv.
    destruct (create_task_run post task utcnow1 utcnow2 w Hv)
      as (w' & Hrun & _ & Ho).
    by exists w'.
  - intros task_id oid task_update utcnow w d Hid Hl d' Hs.
    rewrite (update_task_run post _ oid _ _ _ d) by done. cbv zeta.
    fold d'. rewrite Hs.
    change (bool_decide (is_Some (tu_reminder_enabled task_update))
            || bool_decide (is_Some (tu_reminder_time task_update)))
      with (touches_reminder (task_update_data task_update utcnow)).
    destruct (touches_reminder _).
    + match goal with |- context [notify_reminder_service post ?t ?w0] =>
        destruct (notify_reminder_service_spec post t w0)
          as (w' & -> & Ht & Ho)
      end.
      exists w'. by rewrite Ht, Ho.
    + eexists. split; [done|]. split; [done|]. simpl. by rewrite app_nil_r.
  - intros task_id task_update utcnow w w' task_obj Hrun.
    pose proof (update_task_outbox post task_id task_update utcnow w) as Ho.
    rewrite Hrun in Ho. exact Ho.
  - intros task_id task_update utcnow w Hen Htime.
    rewrite update_task_outbox.
    unfold touches_reminder, task_update_data. simpl. rewrite Hen, Htime.
    rewrite !bool_decide_eq_false_2 by (by intros [? ?]).
    simpl. destruct (_ .2); by rewrite app_nil_r.
Qed.

(** C6 for Scenario A: the one request the creation issues, and the second
    request issued when an update then moves the reminder to 50000. *)
Lemma bridge_trigger_contract_witness :
  valid_TaskCreate pay_rent = true
  ∧ ObjectId_of_str "000000000000000000000000" = Some 0%N
  ∧ tasks rent_world !! 0%N
    = Some (bson_task (task_dict pay_rent 1000 1001))
  ∧ showable (apply_set (task_update_data (reminder_time_only 50000) 3000)
                (bson_task (task_dict pay_rent 1000 1001))) = true
  ∧ (∃ w',
       create_task reachable pay_rent 1000 1001 empty_world
       = (w', inr (created_task 0 pay_rent 1000 1001))
       ∧ outbox w'
         = [ {| p_task_id := Some "000000000000000000000000";
                p_title := "Reminder: Pay rent";
                p_message := "Task 'Pay rent' is due soon";
                p_reminder_time := 40000;
                p_task_due_date := Some 100000 |} ])
  ∧ (∃ w' task_obj,
       update_task reachable "000000000000000000000000"
         (reminder_time_only 50000) 3000 rent_world
       = (w', inr task_obj)
       ∧ t_reminder_time task_obj = Some 50000
       ∧ outbox w'
         = [ {| p_task_id := Some "000000000000000000000000";
                p_title := "Reminder: Pay rent";
                p_message := "Task 'Pay rent' is due soon";
                p_reminder_time := 40000;
                p_task_due_date := Some 100000 |};
             {| p_task_id := Some "000000000000000000000000";
                p_title := "Reminder: Pay rent";
                p_message := "Task 'Pay rent' is due soon";
                p_reminder_time := 50000;
                p_task_due_date := Some 100000 |} ]).
Proof.
  assert (valid_TaskCreate pay_rent = true) as Hv by reflexivity.
  assert (ObjectId_of_str "000000000000000000000000" = Some 0%N) as Hid
    by (vm_compute; reflexivity).
  assert (tasks rent_world !! 0%N
          = Some (bson_task (task_dict pay_rent 1000 1001))) as Hl
    by (vm_compute; reflexivity).
  assert (showable
            (apply_set (task_update_data (reminder_time_only 50000) 3000)
               (bson_task (task_dict pay_rent 1000 1001))) = true) as Hs
    by reflexivity.
  split; [exact Hv|]. split; [exact Hid|]. split; [exact Hl|].
  split; [exact Hs|]. split.
  - exact (proj1 (proj2 (proj2 (bridge_trigger_contract reachable)))
             pay_rent 1000 1001 empty_world Hv).
  - destruct (proj1 (proj2 (proj2 (proj2 (bridge_trigger_contract reachable))))
                "000000000000000000000000" 0%N (reminder_time_only 50000) 3000
                rent_world _ Hid Hl Hs) as (w' & Hrun & _ & Ho).
    exists w'. eexists. split; [exact Hrun|]. split; [reflexivity|].
    rewrite Ho. reflexivity.
Defined.

Lemma map_Forall_alter_preserved (P : TaskDoc → Prop) (f : TaskDoc → TaskDoc)
    (oid : ObjectId) (m : gmap ObjectId TaskDoc) :
  (∀ d, P d → P (f d)) →
  map_Forall (λ _, P) m → map_Forall (λ _, P) (alter f oid m).
Proof.
  intros Hf Hm o d'. rewrite lookup_alter.
  destruct (decide (oid = o)) as [->|Hne]; [|by apply Hm].
  destruct (m !! o) as [d|] eqn:Hl; [|done].
  intros [= <-]. apply Hf. by eapply (Hm o).
Qed.

Lemma marker_ok_task_dict task utcnow1 utcnow2 :
  marker_ok (task_dict task utcnow1 utcnow2).
Proof.
  unfold marker_ok. simpl. split; [done|]. by intros [? ?].
Qed.

Lemma marker_ok_completion utcnow1 utcnow2 d :
  marker_ok (apply_set (completion_data utcnow1 utcnow2) d).
Proof. unfold marker_ok. simpl. split; by eauto. Qed.

Lemma marker_ok_update task_update utcnow d :
  tu_status task_update = None →
  marker_ok d → marker_ok (apply_set (task_update_data task_update utcnow) d).
Proof. unfold marker_ok. simpl. by intros ->. Qed.

(** Serving a request that is not a status-setting update keeps the
    invariant. *)
Lemma serve_keeps_invariant post r w :
  status_unset r → completion_invariant w →
  completion_invariant (serve post r w).
Proof.
  unfold completion_invariant. intros Hr Hw.
  destruct r as [task t1 t2|task_id task_update t|task_id|task_id t1 t2];
    simpl in *.
  - rewrite create_task_tasks.
    apply map_Forall_insert_2; [apply marker_ok_task_dict|done].
  - rewrite update_task_tasks.
    destruct (ObjectId_of_str task_id) as [oid|]; [|done].
    apply (map_Forall_alter_preserved marker_ok); [|done].
    intros d. by apply marker_ok_update.
  - rewrite delete_task_tasks.
    destruct (ObjectId_of_str task_id) as [oid|]; [|done].
    by apply map_Forall_delete.
  - rewrite complete_task_tasks.
    destruct (ObjectId_of_str task_id) as [oid|]; [|done].
    intros o d'. rewrite lookup_alter.
    destruct (decide (oid = o)) as [->|Hne]; [|by apply Hw].
    destruct (tasks w !! o) as [d|]; [|done].
    intros [= <-]. apply marker_ok_completion.
Qed.

(** C4, counterexample: on a store holding the task of Scenario A,
    completing the task at instant 5000 and again at instant 9000 moves
    [completed_at] from 5000 to 9000; and an update whose body sets [status] to
    completed is answered with, and stores, a completed task whose
    [completed_at] is null. *)
Lemma recompletion_overwrites_marker :
  let oid := "000000000000000000000000" in
  let w0 := serve reachable (CreateTask pay_rent 1000 1000) empty_world in
  let w1 := serve reachable (CompleteTask oid 5000 5000) w0 in
  let w2 := serve reachable (CompleteTask oid 9000 9000) w1 in
  let r := update_task reachable oid (status_only COMPLETED) 5000 w0 in
  d_completed_at <$> tasks w1 !! 0%N = Some (Some 5000)
  ∧ d_completed_at <$> tasks w2 !! 0%N = Some (Some 9000)
  ∧ (d_status <$> tasks r.1 !! 0%N = Some (Some COMPLETED)
     ∧ d_completed_at <$> tasks r.1 !! 0%N = Some None)
  ∧ match r.2 with
    | inr task_obj =>
        t_status task_obj = COMPLETED ∧ t_completed_at task_obj = None
    | inl _ => False
    end.
Proof. vm_compute. done. Qed.

(** C4, amended: creation stores a pending task with a null
    [completed_at]; [complete_task] stores status completed together with
    [completed_at] set to the clock reading of that call (to the
    millisecond), on every call, so
    completing a completed task again replaces the earlier instant;
    an update whose body does not set [status] to completed leaves
    [completed_at] as it was.  Hence, from a store in which status is
    completed exactly when [completed_at] is non-null, every sequence of
    creations, completions, deletions and updates whose body leaves
    [status] unset reaches a store with the same property. *)
Theorem completion_marker post :
  (∀ task utcnow1 utcnow2 w,
     (λ d, (d_status d, d_completed_at d))
       <$> tasks (create_task post task utcnow1 utcnow2 w).1
           !! fresh (dom (tasks w))
     = Some (Some PENDING, None))
  ∧ (∀ task_id oid utcnow1 utcnow2 w d,
       ObjectId_of_str task_id = Some oid →
       tasks w !! oid = Some d →
       (λ d, (d_status d, d_completed_at d))
         <$> tasks (complete_task task_id utcnow1 utcnow2 w).1 !! oid
       = Some (Some COMPLETED, Some (bson_datetime utcnow1)))
  ∧ (∀ task_id oid task_update utcnow w d,
       tu_status task_update ≠ Some (Some COMPLETED) →
       ObjectId_of_str task_id = Some oid →
       tasks w !! oid = Some d →
       d_completed_at
         <$> tasks (update_task post task_id task_update utcnow w).1 !! oid
       = Some (d_completed_at d))
  ∧ (∀ rs w,
       Forall status_unset rs →
       completion_invariant w →
       completion_invariant (serve_all post rs w)).
Proof.
  split; [|split; [|split]].
  - intros task utcnow1 utcnow2 w.
    by rewrite create_task_tasks, lookup_insert_eq.
  - intros task_id oid utcnow1 utcnow2 w d Hid Hl.
    by rewrite complete_task_tasks, Hid, lookup_alter_eq, Hl.
  - intros task_id oid task_update utcnow w d _ Hid Hl.
    by rewrite update_task_tasks, Hid, lookup_alter_eq, Hl.
  - intros rs w Hrs. revert w.
    induction Hrs as [|r rs Hr _ IH]; intros w Hw; [done|].
    simpl. apply IH. by apply serve_keeps_invariant.
Qed.

(** C4 as amended, on a run that creates, renames, completes twice and
    deletes, with an unreachable notification service. *)
Lemma completion_marker_witness :
  Forall status_unset
    [ CreateTask pay_rent 1000 1001;
      UpdateTask "000000000000000000000000" (title_only "Pay the rent") 3000;
      CompleteTask "000000000000000000000000" 5000 6000;
      CompleteTask "000000000000000000000000" 9000 10000;
      DeleteTask "000000000000000000000007" ]
  ∧ completion_invariant empty_world
  ∧ completion_invariant
      (serve_all unreachable
         [ CreateTask pay_rent 1000 1001;
           UpdateTask "000000000000000000000000" (title_only "Pay the rent") 3000;
           CompleteTask "000000000000000000000000" 5000 6000;
           CompleteTask "000000000000000000000000" 9000 10000;
           DeleteTask "000000000000000000000007" ]
         empty_world).
Proof.
  assert (Forall status_unset
            [ CreateTask pay_rent 1000 1001;
              UpdateTask "000000000000000000000000"
                (title_only "Pay the rent") 3000;
              CompleteTask "000000000000000000000000" 5000 6000;
              CompleteTask "000000000000000000000000" 9000 10000;
              DeleteTask "000000000000000000000007" ]) as Hrs.
  { repeat constructor. }
  assert (completion_invariant empty_world) as Hw.
  { apply map_Forall_empty. }
  split; [exact Hrs|]. split; [exact Hw|].
  exact (proj2 (proj2 (proj2 (completion_marker unreachable))) _ _ Hrs Hw).
Defined.

End TasksFacts.

(** ** More facts about the notification service *)

Module NotificationsExtra.
Import Notifications NotificationsFacts QueryFacts StoreFacts.

Lemma Reminder_init_cases oid d db :
  Reminder_init oid d db = (db, inl ValidationError)
  ∨ ∃ r, Reminder_init oid d db = (db, inr r)
         ∧ rem_id r = Some (str_of_ObjectId oid)
         ∧ r_title d = Some (rem_title r)
         ∧ r_reminder_time d = Some (rem_reminder_time r)
         ∧ r_status d = Some (rem_status r)
         ∧ rem_task_id r = r_task_id d.
Proof.
  unfold Reminder_init.
  destruct (r_title d), (r_message d), (r_reminder_time d), (r_status d);
    try by left.
  destruct (_ && _); [right; by eexists|by left].
Qed.

Lemma Reminder_init_null_title oid d db :
  r_title d = None → Reminder_init oid d db = (db, inl ValidationError).
Proof. unfold Reminder_init. by intros ->. Qed.

Lemma Reminder_init_reminder_dict oid reminder utcnow1 utcnow2 db :
  valid_ReminderCreate reminder = true →
  Reminder_init oid (bson_reminder (reminder_dict reminder utcnow1 utcnow2)) db
  = (db, inr (created_reminder oid reminder utcnow1 utcnow2)).
Proof.
  intros Hv. unfold valid_ReminderCreate in Hv.
  unfold Reminder_init. simpl. by rewrite Hv.
Qed.

Lemma fresh_reminder_None db :
  reminders db !! fresh (dom (reminders db)) = None.
Proof. apply not_elem_of_dom, is_fresh. Qed.

(** [create_reminder] on a validated input. *)
Lemma create_reminder_run reminder utcnow1 utcnow2 db :
  valid_ReminderCreate reminder = true →
  create_reminder reminder utcnow1 utcnow2 db
  = ({| reminders :=
          <[fresh (dom (reminders db)) :=
              bson_reminder (reminder_dict reminder utcnow1 utcnow2)]>
            (reminders db);
        notifications := notifications db |},
     inr (created_reminder (fresh (dom (reminders db))) reminder
            utcnow1 utcnow2)).
Proof.
  intros Hv. unfold create_reminder.
  unfold bind at 1. unfold insert_one_reminder.
  unfold bind at 1. unfold find_one_reminder. cbn [reminders].
  rewrite lookup_insert_eq.
  by rewrite Reminder_init_reminder_dict.
Qed.

(** X1: a validated [POST /reminders] stores the reminder under an [_id]
    that no reminder had, with status pending and no [sent_at]; the store
    keeps its dates to the millisecond: [reminder_time] and the due date
    as requested, [created_at] and [updated_at] as the two clock readings,
    each without what it has below the millisecond.  It changes no other
    reminder and no notification, and the response is the stored reminder,
    read back, with that [_id] as a string.  The reconciler's query
    selects the new reminder exactly from the millisecond of the requested
    [reminder_time] on. *)
Theorem create_reminder_stores_pending reminder utcnow1 utcnow2 db :
  valid_ReminderCreate reminder = true →
  let oid := fresh (dom (reminders db)) in
  let stored :=
    {| r_task_id := rc_task_id reminder;
       r_title := Some (rc_title reminder);
       r_message := Some (rc_message reminder);
       r_reminder_time := Some (bson_datetime (rc_reminder_time reminder));
       r_task_due_date := bson_datetime <$> rc_task_due_date reminder;
       r_status := Some PENDING;
       r_created_at := bson_datetime utcnow1;
       r_updated_at := bson_datetime utcnow2;
       r_sent_at := None |} in
  ∃ db',
    create_reminder reminder utcnow1 utcnow2 db
    = (db', inr {| rem_id := Some (str_of_ObjectId oid);
                   rem_task_id := rc_task_id reminder;
                   rem_title := rc_title reminder;
                   rem_message := rc_message reminder;
                   rem_reminder_time :=
                     bson_datetime (rc_reminder_time reminder);
                   rem_task_due_date :=
                     bson_datetime <$> rc_task_due_date reminder;
                   rem_status := PENDING;
                   rem_created_at := bson_datetime utcnow1;
                   rem_updated_at := bson_datetime utcnow2;
                   rem_sent_at := None |})
    ∧ reminders db !! oid = None
    ∧ reminders db' !! oid = Some stored
    ∧ (∀ o, o ≠ oid → reminders db' !! o = reminders db !! o)
    ∧ notifications db' = notifications db
    ∧ (∀ now, (oid, stored) ∈ find_due now db'
              ↔ bson_datetime (rc_reminder_time reminder) ≤ now).
Proof.
  intros Hv oid stored. eexists.
  split; [by apply create_reminder_run|].
  split; [apply fresh_reminder_None|].
  cbn [reminders notifications].
  split; [apply lookup_insert_eq|].
  split; [intros o Hne; by rewrite lookup_insert_ne|].
  split; [done|].
  intros now. rewrite elem_of_find_due. cbn [reminders].
  fold oid. rewrite lookup_insert_eq.
  rewrite (is_due_spec now _ (rc_reminder_time reminder)) by done.
  unfold stored, bson_reminder, reminder_dict. simpl. tauto.
Qed.

(** X1 on the sample store, whose reminders are 1 to 4: the new reminder
    gets [_id] 5; the requested [reminder_time] 40500 is stored and
    answered as 40000, the clock reading 11250 as 11000, and the reminder
    is due at instant 40200. *)
Lemma create_reminder_stores_pending_witness :
  valid_ReminderCreate sample_reminder_create = true
  ∧ ∃ db' r d,
      create_reminder sample_reminder_create 11250 12000 sample_db
      = (db', inr r)
      ∧ rem_reminder_time r = 40000
      ∧ rem_created_at r = 11000
      ∧ reminders db' !! 5%N = Some d
      ∧ r_reminder_time d = Some 40000
      ∧ (5%N, d) ∈ find_due 40200 db'
      ∧ notifications db' = notifications sample_db.
Proof.
  assert (valid_ReminderCreate sample_reminder_create = true) as Hv
    by reflexivity.
  split; [exact Hv|].
  destruct (create_reminder_stores_pending sample_reminder_create 11250 12000
              sample_db Hv)
    as (db' & Hrun & _ & Hnew & _ & Hn & Hdue).
  exists db'. eexists _, _. split; [exact Hrun|].
  split; [reflexivity|]. split; [reflexivity|].
  split; [exact Hnew|]. split; [reflexivity|].
  split; [apply Hdue; by vm_compute|exact Hn].
Defined.

Lemma get_reminder_run reminder_id oid db :
  ObjectId_of_str reminder_id = Some oid →
  get_reminder reminder_id db
  = match reminders db !! oid with
    | None => (db, inl (HTTPException 404 "Reminder not found"))
    | Some d => Reminder_init oid d db
    end.
Proof.
  intros Hid. unfold get_reminder. rewrite Hid.
  unfold bind, find_one_reminder. by destruct (reminders db !! oid).
Qed.

(** X2: the [_id] in the response of a validated [POST /reminders] is
    accepted by [GET /reminders/{id}], which answers with the very same
    reminder and leaves the database as it is. *)
Theorem get_reminder_after_create reminder utcnow1 utcnow2 db :
  valid_ReminderCreate reminder = true →
  is_ObjectId (fresh (dom (reminders db))) →
  ∃ db' r reminder_id,
    create_reminder reminder utcnow1 utcnow2 db = (db', inr r)
    ∧ rem_id r = Some reminder_id
    ∧ get_reminder reminder_id db' = (db', inr r).
Proof.
  intros Hv Hoid. eexists _, _, _.
  split; [by apply create_reminder_run|]. split; [reflexivity|].
  rewrite (get_reminder_run _ (fresh (dom (reminders db))))
    by by apply ObjectId_of_str_of_ObjectId.
  cbn [reminders]. rewrite lookup_insert_eq.
  by rewrite Reminder_init_reminder_dict.
Qed.

(** X2 on the sample store. *)
Lemma get_reminder_after_create_witness :
  valid_ReminderCreate sample_reminder_create = true
  ∧ is_ObjectId (fresh (dom (reminders sample_db)))
  ∧ ∃ db' r reminder_id,
      create_reminder sample_reminder_create 11250 12000 sample_db = (db', inr r)
      ∧ rem_id r = Some reminder_id
      ∧ get_reminder reminder_id db' = (db', inr r).
Proof.
  assert (valid_ReminderCreate sample_reminder_create = true) as Hv
    by reflexivity.
  assert (is_ObjectId (fresh (dom (reminders sample_db)))) as Hoid
    by (by vm_compute).
  split; [exact Hv|]. split; [exact Hoid|].
  exact (get_reminder_after_create sample_reminder_create 11250 12000 sample_db
           Hv Hoid).
Defined.

(** X3: [DELETE /reminders/{id}] on a stored reminder removes that
    document and nothing else: the other reminders and all notifications,
    those sent for the deleted reminder included, stay.  Afterwards both
    [GET] and a second [DELETE] of the same id answer 404 and change
    nothing. *)
Theorem delete_reminder_removes reminder_id oid db d :
  ObjectId_of_str reminder_id = Some oid →
  reminders db !! oid = Some d →
  ∃ db',
    delete_reminder reminder_id db
    = (db', inr {[ "message" := JString "Reminder deleted successfully" ]})
    ∧ reminders db' = delete oid (reminders db)
    ∧ notifications db' = notifications db
    ∧ get_reminder reminder_id db'
      = (db', inl (HTTPException 404 "Reminder not found"))
    ∧ delete_reminder reminder_id db'
      = (db', inl (HTTPException 404 "Reminder not found")).
Proof.
  intros Hid Hl. eexists.
  split; [unfold delete_reminder; by rewrite Hid, Hl|].
  split; [done|]. split; [done|]. split.
  - rewrite (get_reminder_run _ oid) by done.
    cbn [reminders]. by rewrite lookup_delete_eq.
  - unfold delete_reminder. rewrite Hid. cbn [reminders].
    by rewrite lookup_delete_eq.
Qed.

(** X3 for reminder 4 of the sample store. *)
Lemma delete_reminder_removes_witness :
  ObjectId_of_str "000000000000000000000004" = Some 4%N
  ∧ reminders sample_db !! 4%N
    = Some (sample_reminder "Reminder: Water plants" 1000 SENT)
  ∧ ∃ db',
      delete_reminder "000000000000000000000004" sample_db
      = (db', inr {[ "message" := JString "Reminder deleted successfully" ]})
      ∧ reminders db' = delete 4%N (reminders sample_db)
      ∧ get_reminder "000000000000000000000004" db'
        = (db', inl (HTTPException 404 "Reminder not found")).
Proof.
  assert (ObjectId_of_str "000000000000000000000004" = Some 4%N) as Hid
    by (vm_compute; reflexivity).
  assert (reminders sample_db !! 4%N
          = Some (sample_reminder "Reminder: Water plants" 1000 SENT)) as Hl
    by (vm_compute; reflexivity).
  split; [exact Hid|]. split; [exact Hl|].
  destruct (delete_reminder_removes _ _ _ _ Hid Hl)
    as (db' & Hrun & Hrem & _ & Hget & _).
  exists db'. split; [exact Hrun|]. split; [exact Hrem|exact Hget].
Defined.

(** X4: [PUT /reminders/{id}] whose body sets [title], [message],
    [reminder_time] or [status] to [null] is applied to the stored
    reminder and only then fails: the response is a validation error, the
    document keeps the [null], and every later [GET] of that reminder fails
    in the same way. *)
Theorem update_reminder_null_is_stored reminder_id oid upd utcnow db d :
  ObjectId_of_str reminder_id = Some oid →
  reminders db !! oid = Some d →
  ru_title upd = Some None ∨ ru_message upd = Some None
  ∨ ru_reminder_time upd = Some None ∨ ru_status upd = Some None →
  ∃ db',
    update_reminder reminder_id upd utcnow db = (db', inl ValidationError)
    ∧ reminders db'
      = <[oid := apply_set (reminder_update_data upd utcnow) d]> (reminders db)
    ∧ notifications db' = notifications db
    ∧ get_reminder reminder_id db' = (db', inl ValidationError).
Proof.
  intros Hid Hl Hnull.
  assert (∀ db0, Reminder_init oid
                   (apply_set (reminder_update_data upd utcnow) d) db0
                 = (db0, inl ValidationError)) as Hinit.
  { intros db0. unfold Reminder_init. simpl.
    destruct Hnull as [-> | [-> | [-> | ->]]]; simpl;
      repeat (match goal with |- context [match ?x with _ => _ end] =>
                destruct x end); done. }
  pose proof (update_reminder_store _ _ upd utcnow _ _ Hid Hl) as Hstore.
  destruct (update_reminder reminder_id upd utcnow db) as [db' res] eqn:Hrun.
  simpl in Hstore. exists db'.
  assert (res = inl ValidationError ∧ notifications db' = notifications db)
    as [-> Hn].
  { unfold update_reminder in Hrun. rewrite Hid in Hrun.
    unfold bind, find_one_reminder, update_one_reminder in Hrun.
    rewrite Hl in Hrun. cbn [reminders] in Hrun.
    rewrite lookup_alter_eq, Hl in Hrun.
    cbn [fmap option_fmap option_map] in Hrun.
    rewrite Hinit in Hrun. by injection Hrun as <- <-. }
  split; [done|]. split; [done|]. split; [done|].
  rewrite (get_reminder_run _ oid) by done.
  by rewrite Hstore, lookup_insert_eq, Hinit.
Qed.

(** X4 for reminder 1 of the sample store and a body that only sets
    [title] to [null]. *)
Lemma update_reminder_null_is_stored_witness :
  ObjectId_of_str "000000000000000000000001" = Some 1%N
  ∧ reminders sample_db !! 1%N
    = Some (sample_reminder "Reminder: Pay rent" 5000 PENDING)
  ∧ ∃ db',
      update_reminder "000000000000000000000001" null_title_update 8000
        sample_db
      = (db', inl ValidationError)
      ∧ r_title <$> reminders db' !! 1%N = Some None.
Proof.
  assert (ObjectId_of_str "000000000000000000000001" = Some 1%N) as Hid
    by (vm_compute; reflexivity).
  assert (reminders sample_db !! 1%N
          = Some (sample_reminder "Reminder: Pay rent" 5000 PENDING)) as Hl
    by (vm_compute; reflexivity).
  split; [exact Hid|]. split; [exact Hl|].
  destruct (update_reminder_null_is_stored _ _ null_title_update 8000 _ _
              Hid Hl (or_introl eq_refl))
    as (db' & Hrun & Hrem & _).
  exists db'. split; [exact Hrun|].
  rewrite Hrem, lookup_insert_eq. reflexivity.
Defined.

(** A reminder that the loop changes comes from an iteration that went
    through. *)
Lemma process_due_marks_ok F now due n db oid :
  reminders (process_due F now due n db).1 !! oid = reminders db !! oid
  ∨ ∃ d, (oid, d) ∈ due ∧ step_ok F (oid, d)
         ∧ reminders (process_due F now due n db).1 !! oid
           = mark_sent now <$> reminders db !! oid.
Proof.
  revert n db. induction due as [|[o d] due IH]; intros n db.
  - by left.
  - destruct (decide (step_ok F (o, d))) as [Hok|Hno].
    + rewrite process_due_cons_ok by done.
      destruct (IH (S n) (step_db now o d db)) as [Heq|(x & Hin & Hx & Heq)];
        rewrite Heq; simpl; rewrite lookup_alter.
      * destruct (decide (o = oid)) as [->|Hne]; [|by left].
        right. exists d. split; [apply list_elem_of_here|done].
      * right. exists x. split; [by apply list_elem_of_further|].
        split; [done|].
        destruct (decide (o = oid)) as [->|Hne]; [|done].
        destruct (reminders db !! oid); simpl; [|done].
        by rewrite mark_sent_idemp.
    + destruct (process_due_cons_fail F now o d due n db Hno)
        as (db1 & e & Hfail & Hrem).
      left. rewrite Hfail. simpl. by rewrite Hrem.
Qed.

(** X5: one due reminder whose stored title or message does not pass the
    validation of [NotificationCreate] (a [null] left by an update, for
    instance) makes every pass that finds it due end with an exception
    instead of a response, whatever the store does; the pass leaves that
    reminder as it was, pending and due, so the next pass meets it
    again. *)
Theorem pass_blocked_by_invalid_reminder F now db oid d :
  reminders db !! oid = Some d →
  is_due now d = true →
  notifiable d = false →
  ∃ db' e,
    check_due_reminders F now db = (db', inl e)
    ∧ reminders db' !! oid = Some d
    ∧ (oid, d) ∈ find_due now db'.
Proof.
  intros Hl Hd Hbad.
  assert ((oid, d) ∈ find_due now db) as Hin by by apply elem_of_find_due.
  rewrite check_due_reminders_unfold.
  pose proof (process_due_marks_ok F now (find_due now db) 0 db oid) as Hmark.
  destruct (process_due F now (find_due now db) 0 db)
    as [db' [e|n]] eqn:Hloop.
  - exists db', e. split; [done|].
    assert (reminders db' !! oid = Some d) as Hkept.
    { simpl in Hmark. destruct Hmark as [->|(x & Hx & (Hok & _) & _)]; [done|].
      apply elem_of_find_due in Hx as [Hlx _].
      simpl in Hok. congruence. }
    split; [done|]. by apply elem_of_find_due.
  - apply process_due_returns in Hloop.
    rewrite Forall_forall in Hloop.
    destruct (Hloop _ Hin) as (Hok & _). simpl in Hok. congruence.
Qed.

(** X5 after reminder 1 of the sample store had its title set to [null]. *)
Lemma pass_blocked_by_invalid_reminder_witness :
  let db :=
    (update_reminder "000000000000000000000001" null_title_update 8000
       sample_db).1 in
  let d := apply_set (reminder_update_data null_title_update 8000)
             (sample_reminder "Reminder: Pay rent" 5000 PENDING) in
  reminders db !! 1%N = Some d
  ∧ is_due 10000 d = true
  ∧ notifiable d = false
  ∧ ∃ db' e,
      check_due_reminders no_faults 10000 db = (db', inl e)
      ∧ reminders db' !! 1%N = Some d.
Proof.
  cbv zeta.
  assert (reminders
            (update_reminder "000000000000000000000001" null_title_update 8000
               sample_db).1 !! 1%N
          = Some (apply_set (reminder_update_data null_title_update 8000)
                    (sample_reminder "Reminder: Pay rent" 5000 PENDING))) as Hl
    by (vm_compute; reflexivity).
  split; [exact Hl|]. split; [reflexivity|]. split; [reflexivity|].
  destruct (pass_blocked_by_invalid_reminder no_faults 10000 _ _ _ Hl
              eq_refl eq_refl)
    as (db' & e & Hrun & Hkept & _).
  by exists db', e.
Defined.

(** X6: [PUT /reminders/{id}] answers 400, without touching the database,
    for every id that [ObjectId] rejects: a string that does not have 24
    characters or is not made of pairs of hexadecimal digits (whitespace
    between the pairs is accepted).  It answers 404, again without
    touching the database, for a 12-byte id that no reminder has.  On a
    stored reminder it changes that document only, and in it only the
    fields its body sets, plus [updated_at], which becomes the clock
    reading; dates are stored to the millisecond.  [task_id], [created_at]
    and [sent_at] are never changed, so a status written by an update
    comes without a [sent_at]. *)
Theorem update_reminder_frame reminder_id upd utcnow db :
  (ObjectId_of_str reminder_id = None
   ↔ String.length reminder_id ≠ 24%nat ∨ fromhex reminder_id = None)
  ∧ match ObjectId_of_str reminder_id with
    | None =>
        update_reminder reminder_id upd utcnow db
        = (db, inl (HTTPException 400 "Invalid reminder ID format"))
    | Some oid =>
        match reminders db !! oid with
        | None =>
            is_ObjectId oid →
            update_reminder reminder_id upd utcnow db
            = (db, inl (HTTPException 404 "Reminder not found"))
        | Some d =>
            let db' := (update_reminder reminder_id upd utcnow db).1 in
            notifications db' = notifications db
            ∧ (∀ o, o ≠ oid → reminders db' !! o = reminders db !! o)
            ∧ ∃ d',
                reminders db' !! oid = Some d'
                ∧ r_task_id d' = r_task_id d
                ∧ r_created_at d' = r_created_at d
                ∧ r_sent_at d' = r_sent_at d
                ∧ r_updated_at d' = bson_datetime utcnow
                ∧ r_title d' = default (r_title d) (ru_title upd)
                ∧ r_message d' = default (r_message d) (ru_message upd)
                ∧ r_reminder_time d'
                  = default (r_reminder_time d)
                      (fmap (M:=option) bson_datetime
                         <$> ru_reminder_time upd)
                ∧ r_task_due_date d'
                  = default (r_task_due_date d)
                      (fmap (M:=option) bson_datetime
                         <$> ru_task_due_date upd)
                ∧ r_status d' = default (r_status d) (ru_status upd)
        end
    end.
Proof.
  split; [apply ObjectId_of_str_None|].
  destruct (ObjectId_of_str reminder_id) as [oid|] eqn:Hid.
  - destruct (reminders db !! oid) as [d|] eqn:Hl.
    + cbv zeta.
      pose proof (update_reminder_store _ _ upd utcnow _ _ Hid Hl) as Hstore.
      split; [|split].
      * unfold update_reminder. rewrite Hid.
        unfold bind, find_one_reminder, update_one_reminder.
        rewrite Hl. cbn [reminders].
        rewrite lookup_alter_eq, Hl. cbn [fmap option_fmap option_map].
        by rewrite Reminder_init_fst.
      * intros o Hne. by rewrite Hstore, lookup_insert_ne.
      * eexists. split; [by rewrite Hstore, lookup_insert_eq|]. done.
    + intros _. unfold update_reminder. rewrite Hid.
      unfold bind, find_one_reminder. by rewrite Hl.
  - unfold update_reminder. by rewrite Hid.
Qed.

(** X6 on the sample store: reminder 3, put to sent by an update at
    instant 20700, is stored as sent with no [sent_at] and [updated_at]
    20000; the 12-byte id 9 is unknown and answered 404; an id of 23
    characters and one with a letter that is no hexadecimal digit are
    answered 400; the 24 characters [00000000000000000000 01 ] are not
    rejected by [ObjectId]. *)
Lemma update_reminder_frame_witness :
  (∃ d',
     reminders (update_reminder "000000000000000000000003"
                  (status_update SENT) 20700 sample_db).1 !! 3%N = Some d'
     ∧ r_status d' = Some SENT
     ∧ r_sent_at d' = None
     ∧ r_updated_at d' = 20000)
  ∧ is_ObjectId 9
  ∧ update_reminder "000000000000000000000009" (status_update SENT) 20700
      sample_db
    = (sample_db, inl (HTTPException 404 "Reminder not found"))
  ∧ update_reminder "00000000000000000000003" (status_update SENT) 20700
      sample_db
    = (sample_db, inl (HTTPException 400 "Invalid reminder ID format"))
  ∧ update_reminder "00000000000000000000000g" (status_update SENT) 20700
      sample_db
    = (sample_db, inl (HTTPException 400 "Invalid reminder ID format"))
  ∧ ObjectId_of_str "00000000000000000000 01 " ≠ None.
Proof.
  assert (is_ObjectId 9) as H9 by (by vm_compute).
  split; [|split; [exact H9|split; [|split; [|split]]]].
  - pose proof (proj2 (update_reminder_frame "000000000000000000000003"
                         (status_update SENT) 20700 sample_db)) as H.
    change (ObjectId_of_str "000000000000000000000003") with (Some 3%N) in H.
    change (reminders sample_db !! 3%N)
      with (Some (sample_reminder "Reminder: Renew pass" 50000 PENDING)) in H.
    destruct H as (_ & _ & d' & Hd & _ & _ & Hsent & Hupd & _ & _ & _ & _ & Hst).
    exists d'. split; [exact Hd|]. split; [exact Hst|].
    split; [exact Hsent|exact Hupd].
  - pose proof (proj2 (update_reminder_frame "000000000000000000000009"
                         (status_update SENT) 20700 sample_db)) as H.
    change (ObjectId_of_str "000000000000000000000009") with (Some 9%N) in H.
    change (reminders sample_db !! 9%N)
      with (@None ReminderDoc) in H.
    exact (H H9).
  - exact (proj2 (update_reminder_frame "00000000000000000000003"
                    (status_update SENT) 20700 sample_db)).
  - exact (proj2 (update_reminder_frame "00000000000000000000000g"
                    (status_update SENT) 20700 sample_db)).
  - intros Hnone.
    apply (proj1 (update_reminder_frame "00000000000000000000 01 "
                    (status_update SENT) 20700 sample_db)) in Hnone.
    destruct Hnone as [Hlen|Hhex]; [by apply Hlen|discriminate Hhex].
Defined.

(** Each iteration that goes through leaves a notification of its own. *)
Lemma run_prefix_notification now l db o x :
  (o, x) ∈ l →
  ∃ j, notifications db !! j = None
       ∧ notifications (run_prefix now l db) !! j
         = Some (notification_for now (default "" (r_title x))
                   (default "" (r_message x)) x).
Proof.
  revert db. induction l as [|[o' x'] l IH]; intros db Hin.
  - by apply elem_of_nil in Hin.
  - change (run_prefix now ((o', x') :: l) db)
      with (run_prefix now l (step_db now o' x' db)).
    apply elem_of_cons in Hin as [[= -> ->]|Hin].
    + exists (fresh (dom (notifications db))).
      split; [apply fresh_notification_None|].
      eapply lookup_weaken; [|apply notifications_run_prefix_subseteq].
      simpl. apply lookup_insert_eq.
    + destruct (IH (step_db now o' x' db) Hin) as (j & Hnone & Hsome).
      exists j. split; [|done].
      simpl in Hnone. apply lookup_insert_None in Hnone as [Hnone _]. done.
Qed.

(** The iterations that go through leave one notification each, all under
    different identifiers that were free, and no other. *)
Lemma run_prefix_notifications now l db :
  ∃ js,
    NoDup js
    ∧ Forall2 (λ p j,
         notifications db !! j = None
         ∧ notifications (run_prefix now l db) !! j
           = Some (notification_for now (default "" (r_title p.2))
                     (default "" (r_message p.2)) p.2)) l js
    ∧ ∀ j, j ∉ js →
        notifications (run_prefix now l db) !! j = notifications db !! j.
Proof.
  revert db. induction l as [|[o x] l IH]; intros db.
  - exists []. split; [constructor|]. split; [constructor|done].
  - change (run_prefix now ((o, x) :: l) db)
      with (run_prefix now l (step_db now o x db)).
    destruct (IH (step_db now o x db)) as (js & Hnd & Hall & Hframe).
    set (j0 := fresh (dom (notifications db))).
    assert (notifications (step_db now o x db) !! j0
            = Some (notification_for now (default "" (r_title x))
                      (default "" (r_message x)) x)) as Hj0.
    { simpl. apply lookup_insert_eq. }
    assert (j0 ∉ js) as Hnotin.
    { intros Hin.
      destruct (Forall2_elem_of_r _ _ _ _ Hall Hin) as (p & _ & Hnone & _).
      congruence. }
    exists (j0 :: js). split; [by constructor|]. split.
    + constructor.
      * split; [apply fresh_notification_None|].
        by rewrite (Hframe j0 Hnotin).
      * eapply Forall2_impl; [exact Hall|].
        intros p j [Hnone Hsome]. split; [|done].
        simpl in Hnone. by apply lookup_insert_None in Hnone as [? _].
    + intros j Hj. apply not_elem_of_cons in Hj as [Hne Hj].
      rewrite (Hframe j Hj). simpl. by rewrite lookup_insert_ne.
Qed.

(** X7: in a pass in which every iteration goes through, each due reminder
    gets a notification of its own: the due reminders, in the order of the
    scan, correspond one to one to pairwise different [_id]s that were
    free, under each of which the store then holds a notification with
    that reminder's [task_id], title and message, type reminder, status
    sent and [created_at = sent_at = now], to the millisecond; the pass
    adds no other notification and changes none. *)
Theorem pass_notifies_each_due_reminder F now db :
  Forall (step_ok F) (find_due now db) →
  ∃ db' body js,
    check_due_reminders F now db = (db', inr body)
    ∧ (∀ oid d, (oid, d) ∈ find_due now db
         ↔ reminders db !! oid = Some d ∧ is_due now d = true)
    ∧ NoDup (find_due now db).*1
    ∧ NoDup js
    ∧ Forall2 (λ p j,
         ∃ doc,
           notifications db !! j = None
           ∧ notifications db' !! j = Some doc
           ∧ n_task_id doc = r_task_id p.2
           ∧ r_title p.2 = Some (n_title doc)
           ∧ r_message p.2 = Some (n_message doc)
           ∧ n_notification_type doc = REMINDER
           ∧ n_status doc = SENT
           ∧ n_created_at doc = bson_datetime now
           ∧ n_sent_at doc = Some (bson_datetime now))
        (find_due now db) js
    ∧ (∀ j, j ∉ js → notifications db' !! j = notifications db !! j).
Proof.
  intros Hok.
  destruct (run_prefix_notifications now (find_due now db) db)
    as (js & Hnd & Hall & Hframe).
  eexists _, _, js.
  split; [by rewrite check_due_reminders_unfold, process_due_all_ok|].
  split; [intros oid d; apply elem_of_find_due|].
  split; [apply NoDup_find_due|]. split; [done|]. split; [|done].
  eapply Forall2_Forall_impl; [exact Hok|exact Hall|].
  intros [oid d] j (Hv & _) [Hnone Hsome]. simpl in *.
  eexists. split; [done|]. split; [exact Hsome|].
  unfold notifiable in Hv. simpl.
  destruct (r_title d), (r_message d); done.
Qed.

(** X7 on the sample store at instant 10000: the scan meets reminder 2,
    then reminder 1, and their notifications are stored under [_id]s 0
    and 1. *)
Lemma pass_notifies_each_due_reminder_witness :
  Forall (step_ok no_faults) (find_due 10000 sample_db)
  ∧ ∃ db' body,
      check_due_reminders no_faults 10000 sample_db = (db', inr body)
      ∧ (find_due 10000 sample_db).*1 = [2%N; 1%N]
      ∧ n_title <$> notifications db' !! 0%N = Some "Reminder: Call bank"
      ∧ n_title <$> notifications db' !! 1%N = Some "Reminder: Pay rent"
      ∧ size (notifications db') = 2%nat.
Proof.
  assert (Forall (step_ok no_faults) (find_due 10000 sample_db)) as Hok.
  { apply (bool_decide_unpack _). vm_compute. exact I. }
  split; [exact Hok|].
  destruct (pass_notifies_each_due_reminder no_faults 10000 sample_db Hok)
    as (db' & body & js & Hrun & _).
  exists db', body. split; [exact Hrun|].
  assert (db' = (check_due_reminders no_faults 10000 sample_db).1) as ->
    by by rewrite Hrun.
  by vm_compute.
Defined.

(** X8: after a pass in which every iteration went through, a pass at the
    same instant finds nothing and changes nothing (Scenario C), and a pass
    at any instant selects only reminders that the first pass left alone:
    no reminder is notified by two such passes. *)
Theorem pass_never_repeats F F' now db :
  Forall (step_ok F) (find_due now db) →
  ∃ db' body,
    check_due_reminders F now db = (db', inr body)
    ∧ check_due_reminders F' now db' = (db', inr (message_response 0))
    ∧ ∀ now' oid d, (oid, d) ∈ find_due now' db' →
        reminders db !! oid = Some d ∧ is_due now d = false.
Proof.
  intros Hok. eexists _, _.
  split; [by rewrite check_due_reminders_unfold, process_due_all_ok|].
  split.
  - by rewrite check_due_reminders_unfold, find_due_after_pass.
  - intros now' oid d' [Hl Hd]%elem_of_find_due.
    rewrite reminders_run_prefix in Hl.
    case_bool_decide as Hin.
    + destruct (reminders db !! oid) as [d|]; [|done].
      injection Hl as <-. by rewrite is_due_mark_sent in Hd.
    + split; [done|].
      destruct (is_due now d') eqn:Hnow; [|done].
      destruct Hin. apply find_due_keys. eauto.
Qed.

(** X8 on the sample store: the second pass runs against a store that
    would refuse the update of reminder 1. *)
Lemma pass_never_repeats_witness :
  Forall (step_ok no_faults) (find_due 10000 sample_db)
  ∧ ∃ db' body,
      check_due_reminders no_faults 10000 sample_db = (db', inr body)
      ∧ check_due_reminders (failing_update 1) 10000 db'
        = (db', inr (message_response 0)).
Proof.
  assert (Forall (step_ok no_faults) (find_due 10000 sample_db)) as Hok.
  { apply (bool_decide_unpack _). vm_compute. exact I. }
  split; [exact Hok|].
  destruct (pass_never_repeats no_faults (failing_update 1) 10000 sample_db Hok)
    as (db' & body & Hrun & Hagain & _).
  by exists db', body.
Defined.

Lemma is_due_later now now2 d :
  is_due now d = true → now ≤ now2 → is_due now2 d = true.
Proof.
  unfold is_due. intros [Ht Hs]%andb_true_iff Hle.
  apply andb_true_iff. split; [|done].
  destruct (r_reminder_time d) as [t|]; [|done].
  apply bool_decide_eq_true in Ht. apply bool_decide_eq_true.
  pose proof (bson_datetime_mono now now2 Hle). lia.
Qed.

(** X9: when the notification of a due reminder is inserted and the update
    of the reminder then fails, the pass ends with the exception and the
    reminder stays pending; a later pass that goes through sends it, and
    the store then holds two notifications for that one reminder, the one
    of the failed pass and the one of the retry. *)
Theorem failed_update_duplicates_notification
    F F2 now now2 db pre oid d post :
  find_due now db = pre ++ (oid, d) :: post →
  Forall (step_ok F) pre →
  notifiable d = true →
  insert_fails F oid = false →
  update_fails F oid = true →
  now ≤ now2 →
  ∃ db1,
    check_due_reminders F now db = (db1, inl PyMongoError)
    ∧ (Forall (step_ok F2) (find_due now2 db1) →
       ∃ db2 body i j,
         check_due_reminders F2 now2 db1 = (db2, inr body)
         ∧ reminders db2 !! oid = Some (mark_sent now2 d)
         ∧ i ≠ j
         ∧ notifications db !! i = None
         ∧ notifications db !! j = None
         ∧ notifications db2 !! i
           = Some (notification_for now (default "" (r_title d))
                     (default "" (r_message d)) d)
         ∧ notifications db2 !! j
           = Some (notification_for now2 (default "" (r_title d))
                     (default "" (r_message d)) d)).
Proof.
  intros Hdue Hpre Hv Hi Hu Hle.
  exists (half_step_db now d (run_prefix now pre db)).
  split.
  { rewrite check_due_reminders_unfold, Hdue, process_due_app_ok by done.
    by rewrite process_due_cons_update_fails. }
  intros Hok2.
  set (db0 := run_prefix now pre db).
  set (db1 := half_step_db now d db0).
  set (i := fresh (dom (notifications db0))).
  assert ((oid, d) ∈ find_due now db) as Hin.
  { rewrite Hdue. apply elem_of_app. right. apply list_elem_of_here. }
  apply elem_of_find_due in Hin as [Hl Hd].
  assert (oid ∉ pre.*1) as Hnotpre.
  { pose proof (NoDup_find_due now db) as Hnd.
    rewrite Hdue, fmap_app, fmap_cons in Hnd.
    apply NoDup_app in Hnd as (_ & Hdisj & _).
    intros Hin'. apply (Hdisj oid Hin'). apply list_elem_of_here. }
  assert (reminders db1 !! oid = Some d) as Hl1.
  { unfold db1, db0. simpl.
    by rewrite reminders_run_prefix, bool_decide_eq_false_2. }
  assert ((oid, d) ∈ find_due now2 db1) as Hin2.
  { apply elem_of_find_due. split; [done|]. by eapply is_due_later. }
  destruct (run_prefix_notification now2 _ db1 _ _ Hin2)
    as (j & Hj1 & Hj2).
  assert (notifications db1 !! i
          = Some (notification_for now (default "" (r_title d))
                    (default "" (r_message d)) d)) as Hi1.
  { unfold db1, i. simpl. apply lookup_insert_eq. }
  exists (run_prefix now2 (find_due now2 db1) db1),
         (message_response (length (find_due now2 db1))), i, j.
  split; [by rewrite check_due_reminders_unfold, process_due_all_ok|].
  split.
  { rewrite reminders_run_prefix, bool_decide_eq_true_2, Hl1; [done|].
    apply list_elem_of_fmap. by exists (oid, d). }
  split; [congruence|].
  assert (notifications db ⊆ notifications db1) as Hsub.
  { etrans; [apply (notifications_run_prefix_subseteq now pre db)|].
    unfold db1. simpl. apply insert_subseteq, fresh_notification_None. }
  split.
  { eapply lookup_weaken_None;
      [apply (fresh_notification_None db0)|].
    apply notifications_run_prefix_subseteq. }
  split; [by eapply lookup_weaken_None|].
  split; [|done].
  eapply lookup_weaken; [exact Hi1|].
  apply notifications_run_prefix_subseteq.
Qed.

(** X9 on the sample store: the update of reminder 2 fails at instant 10,
    the retry at instant 11 goes through. *)
Lemma failed_update_duplicates_notification_witness :
  find_due 10000 sample_db
    = [] ++ (2%N, sample_reminder "Reminder: Call bank" 7000 PENDING)
         :: [(1%N, sample_reminder "Reminder: Pay rent" 5000 PENDING)]
  ∧ ∃ db1 db2 body,
      check_due_reminders (failing_update 2) 10000 sample_db
      = (db1, inl PyMongoError)
      ∧ check_due_reminders no_faults 11000 db1 = (db2, inr body)
      ∧ size (filter (λ p, n_title p.2 = "Reminder: Call bank")
                (notifications db2)) = 2%nat.
Proof.
  assert (find_due 10000 sample_db
          = [] ++ (2%N, sample_reminder "Reminder: Call bank" 7000 PENDING)
               :: [(1%N, sample_reminder "Reminder: Pay rent" 5000 PENDING)])
    as Hdue by (vm_compute; reflexivity).
  split; [exact Hdue|].
  assert (10000 ≤ 11000) as Hle by lia.
  destruct (failed_update_duplicates_notification (failing_update 2)
              no_faults 10000 11000 sample_db _ _ _ _ Hdue (Forall_nil_2 _)
              eq_refl eq_refl eq_refl Hle)
    as (db1 & Hrun1 & Hretry).
  assert (db1 = (check_due_reminders (failing_update 2) 10000 sample_db).1)
    as Hdb1 by by rewrite Hrun1.
  destruct Hretry as (db2 & body & i & j & Hrun2 & _).
  { rewrite Hdb1. apply (bool_decide_unpack _). vm_compute. exact I. }
  exists db1, db2, body. split; [exact Hrun1|]. split; [exact Hrun2|].
  assert (db2 = (check_due_reminders no_faults 11000
                   (check_due_reminders (failing_update 2) 10000 sample_db).1).1)
    as -> by by rewrite <- Hdb1, Hrun2.
  vm_compute. reflexivity.
Defined.

Global Instance date_key_le_total : Total date_key_le.
Proof. intros [x|] [y|]; simpl; try tauto. lia. Qed.

Global Instance date_key_le_trans : Transitive date_key_le.
Proof. intros [x|] [y|] [z|]; simpl; try tauto. lia. Qed.

Global Instance by_reminder_time_total : Total by_reminder_time.
Proof. intros p q. apply date_key_le_total. Qed.

Global Instance by_reminder_time_trans : Transitive by_reminder_time.
Proof. intros p q r. apply date_key_le_trans. Qed.

Global Instance by_created_at_desc_total : Total by_created_at_desc.
Proof. intros p q. unfold by_created_at_desc. lia. Qed.

Global Instance by_created_at_desc_trans : Transitive by_created_at_desc.
Proof. intros p q r. unfold by_created_at_desc. lia. Qed.

Lemma Reminder_init_readable oid d db :
  readable d = true → ∃ r, Reminder_init oid d db = (db, inr r).
Proof.
  unfold readable, Reminder_init.
  destruct (r_title d), (r_message d), (r_reminder_time d), (r_status d);
    try done.
  intros ->. by eexists.
Qed.

Lemma Reminder_init_unreadable oid d db :
  readable d = false → Reminder_init oid d db = (db, inl ValidationError).
Proof.
  unfold readable, Reminder_init.
  destruct (r_title d), (r_message d), (r_reminder_time d), (r_status d);
    try done.
  by intros ->.
Qed.

(** The list comprehension returns one model per document, in order, or
    raises. *)
Lemma Reminder_list_inv l db db' rs :
  Reminder_list l db = (db', inr rs) →
  db' = db
  ∧ Forall2 (λ p r, Reminder_init p.1 p.2 db = (db, inr r)) l rs.
Proof.
  revert rs. induction l as [|[oid d] l IH]; intros rs Hrun.
  - injection Hrun as <- <-. by split.
  - cbn [Reminder_list] in Hrun. unfold bind at 1 in Hrun.
    destruct (Reminder_init_cases oid d db) as [Hbad|(r & Hr & _)];
      [by rewrite Hbad in Hrun|].
    rewrite Hr in Hrun. unfold bind at 1 in Hrun.
    destruct (Reminder_list l db) as [db1 [e|rs1]] eqn:Hrest; [done|].
    injection Hrun as <- <-.
    destruct (IH rs1 eq_refl) as [-> Hall].
    split; [done|]. by constructor.
Qed.

Lemma Reminder_list_readable l db :
  Forall (λ p, readable p.2 = true) l →
  ∃ rs, Reminder_list l db = (db, inr rs).
Proof.
  induction 1 as [|[oid d] l Hd _ [rs IH]]; [by eexists|].
  destruct (Reminder_init_readable oid d db Hd) as [r Hr].
  exists (r :: rs). cbn [Reminder_list]. unfold bind at 1. rewrite Hr.
  unfold bind at 1. by rewrite IH.
Qed.

Lemma Reminder_list_unreadable l db p :
  p ∈ l → readable p.2 = false →
  Reminder_list l db = (db, inl ValidationError).
Proof.
  intros Hin Hbad. induction l as [|[oid d] l IH].
  - by apply elem_of_nil in Hin.
  - cbn [Reminder_list]. unfold bind at 1.
    destruct (readable d) eqn:Hd.
    + destruct (Reminder_init_readable oid d db Hd) as [r ->].
      unfold bind at 1.
      apply elem_of_cons in Hin as [->|Hin]; [simpl in Hbad; congruence|].
      by rewrite IH.
    + by rewrite Reminder_init_unreadable.
Qed.

Lemma get_reminders_unfold skip limit status task_id db :
  get_reminders skip limit status task_id db
  = Reminder_list (reminders_page skip limit status task_id db) db.
Proof. reflexivity. Qed.

Lemma elem_of_reminders_page skip limit status task_id db oid d :
  (oid, d) ∈ reminders_page skip limit status task_id db →
  reminders db !! oid = Some d
  ∧ reminder_matches (reminder_filter_dict status task_id) d = true.
Proof.
  unfold reminders_page.
  intros [Hm Hin]%elem_of_cursor_to_list%list_elem_of_filter.
  apply elem_of_map_to_list in Hin. split; [done|]. by apply Is_true_true.
Qed.

(** X10: [GET /reminders] answers as soon as every stored reminder passes
    the validation of the response model.  When it answers, the database
    is untouched and the list has at most [limit] entries, in ascending
    order of [reminder_time]; each entry is a stored reminder, has the
    requested status when one is given and the requested [task_id] when a
    non-empty one is given.  An empty [task_id] filters nothing: the
    request is the one without [task_id]. *)
Theorem get_reminders_page skip limit status task_id db :
  (map_Forall (λ _ d, readable d = true) (reminders db) →
   ∃ rs, get_reminders skip limit status task_id db = (db, inr rs))
  ∧ (∀ db' rs,
       get_reminders skip limit status task_id db = (db', inr rs) →
       db' = db
       ∧ (length rs ≤ limit)%nat
       ∧ StronglySorted (λ a b, rem_reminder_time a ≤ rem_reminder_time b) rs
       ∧ Forall (λ r, ∃ oid d,
                   reminders db !! oid = Some d
                   ∧ Reminder_init oid d db = (db, inr r)
                   ∧ (∀ st, status = Some st → rem_status r = st)
                   ∧ (∀ t, task_id = Some t → t ≠ "" → rem_task_id r = t))
           rs)
  ∧ get_reminders skip limit status (Some "") db
    = get_reminders skip limit status None db.
Proof.
  split; [|split; [|done]].
  - intros Hall. rewrite get_reminders_unfold.
    apply Reminder_list_readable, Forall_forall. intros [oid d] Hin.
    apply elem_of_reminders_page in Hin as [Hl _]. by apply (Hall oid).
  - intros db' rs Hrun. rewrite get_reminders_unfold in Hrun.
    apply Reminder_list_inv in Hrun as [-> Hall].
    split; [done|]. split; [|split].
    + rewrite <- (Forall2_length _ _ _ Hall).
      apply length_cursor_to_list.
    + eapply (StronglySorted_Forall2 by_reminder_time); [|exact Hall|].
      * intros [o1 d1] [o2 d2] r1 r2 H1 H2 Hle. simpl in *.
        destruct (Reminder_init_cases o1 d1 db)
          as [Hbad|(r & Hr & _ & _ & Ht1 & _)]; [congruence|].
        assert (r = r1) as -> by congruence.
        destruct (Reminder_init_cases o2 d2 db)
          as [Hbad|(r & Hr' & _ & _ & Ht2 & _)]; [congruence|].
        assert (r = r2) as -> by congruence.
        unfold by_reminder_time in Hle. simpl in Hle.
        by rewrite Ht1, Ht2 in Hle.
      * apply StronglySorted_cursor_to_list; apply _.
    + apply Forall_forall. intros r Hr.
      apply (Forall2_elem_of_r _ _ _ _ Hall) in Hr as ([oid d] & Hin & Hinit).
      simpl in Hinit.
      apply elem_of_reminders_page in Hin as [Hl Hm].
      exists oid, d. split; [done|]. split; [done|].
      destruct (Reminder_init_cases oid d db)
        as [Hbad|(r' & Hr' & _ & _ & _ & Hst & Htask)]; [congruence|].
      assert (r' = r) as -> by congruence.
      unfold reminder_matches, reminder_filter_dict in Hm. simpl in Hm.
      apply andb_true_iff in Hm as [Hms Hmt].
      split.
      * intros st ->. apply bool_decide_eq_true in Hms. congruence.
      * intros t -> Hne. destruct t as [|c t]; [done|]. simpl in Hmt.
        apply bool_decide_eq_true in Hmt. congruence.
Qed.

(** X10 on the sample store, asking for the pending reminders. *)
Lemma get_reminders_page_witness :
  map_Forall (λ _ d, readable d = true) (reminders sample_db)
  ∧ ∃ rs,
      get_reminders 0 100 (Some PENDING) None sample_db = (sample_db, inr rs)
      ∧ rem_reminder_time <$> rs = [5000; 7000; 50000].
Proof.
  assert (map_Forall (λ _ d, readable d = true) (reminders sample_db))
    as Hall.
  { apply (bool_decide_unpack _). vm_compute. exact I. }
  split; [exact Hall|].
  destruct (proj1 (get_reminders_page 0 100 (Some PENDING) None sample_db)
              Hall) as [rs Hrun].
  exists rs. split; [exact Hrun|].
  assert (inr rs
          = (get_reminders 0 100 (Some PENDING) None sample_db).2) as Hrs
    by by rewrite Hrun.
  vm_compute in Hrs. injection Hrs as ->. reflexivity.
Defined.

(** X11: one stored reminder that does not pass the validation of the
    response model (after an update wrote a [null], for instance) makes the
    unfiltered first page of [GET /reminders] fail with a validation error
    instead of listing the reminders that are fine. *)
Theorem get_reminders_fails_on_unreadable limit db oid d :
  reminders db !! oid = Some d →
  readable d = false →
  (size (reminders db) ≤ limit)%nat →
  get_reminders 0 limit None None db = (db, inl ValidationError).
Proof.
  intros Hl Hbad Hsize. rewrite get_reminders_unfold.
  apply (Reminder_list_unreadable _ _ (oid, d)); [|done].
  unfold reminders_page, cursor_to_list.
  rewrite filter_all by done. rewrite drop_0.
  assert (length (merge_sort by_reminder_time (map_to_list (reminders db)))
          ≤ limit)%nat as Hlen.
  { by rewrite merge_sort_Permutation, length_map_to_list. }
  rewrite (take_ge (merge_sort _ _)) by done. rewrite take_ge by done.
  rewrite merge_sort_Permutation. by apply elem_of_map_to_list.
Qed.

(** X11 after reminder 1 of the sample store had its title set to [null]. *)
Lemma get_reminders_fails_on_unreadable_witness :
  let db :=
    (update_reminder "000000000000000000000001" null_title_update 8000
       sample_db).1 in
  let d := apply_set (reminder_update_data null_title_update 8000)
             (sample_reminder "Reminder: Pay rent" 5000 PENDING) in
  reminders db !! 1%N = Some d
  ∧ readable d = false
  ∧ (size (reminders db) ≤ 100)%nat
  ∧ get_reminders 0 100 None None db = (db, inl ValidationError).
Proof.
  cbv zeta.
  assert (reminders
            (update_reminder "000000000000000000000001" null_title_update 8000
               sample_db).1 !! 1%N
          = Some (apply_set (reminder_update_data null_title_update 8000)
                    (sample_reminder "Reminder: Pay rent" 5000 PENDING))) as Hl
    by (vm_compute; reflexivity).
  assert (size (reminders
                  (update_reminder "000000000000000000000001"
                     null_title_update 8000 sample_db).1) ≤ 100)%nat as Hsize
    by (vm_compute; lia).
  split; [exact Hl|]. split; [reflexivity|]. split; [exact Hsize|].
  exact (get_reminders_fails_on_unreadable 100 _ _ _ Hl eq_refl Hsize).
Defined.

Lemma Notification_init_cases oid d db :
  (presentable d = false
   ∧ Notification_init oid d db = (db, inl ValidationError))
  ∨ (presentable d = true
     ∧ Notification_init oid d db
       = (db, inr {| ntf_id := Some (str_of_ObjectId oid);
                     ntf_task_id := n_task_id d;
                     ntf_title := n_title d;
                     ntf_message := n_message d;
                     ntf_notification_type := n_notification_type d;
                     ntf_status := n_status d;
                     ntf_created_at := n_created_at d;
                     ntf_sent_at := n_sent_at d;
                     ntf_error_message := None |})).
Proof.
  unfold presentable, Notification_init.
  destruct (_ && _); [by right|by left].
Qed.

Lemma Notification_list_inv l db db' ns :
  Notification_list l db = (db', inr ns) →
  db' = db
  ∧ Forall2 (λ p n, Notification_init p.1 p.2 db = (db, inr n)) l ns.
Proof.
  revert ns. induction l as [|[oid d] l IH]; intros ns Hrun.
  - injection Hrun as <- <-. by split.
  - cbn [Notification_list] in Hrun. unfold bind at 1 in Hrun.
    destruct (Notification_init_cases oid d db) as [[_ Hbad]|[_ Hn]];
      [by rewrite Hbad in Hrun|].
    rewrite Hn in Hrun. unfold bind at 1 in Hrun.
    destruct (Notification_list l db) as [db1 [e|ns1]] eqn:Hrest; [done|].
    injection Hrun as <- <-.
    destruct (IH ns1 eq_refl) as [-> Hall].
    split; [done|]. by constructor.
Qed.

Lemma Notification_list_presentable l db :
  Forall (λ p, presentable p.2 = true) l →
  ∃ ns, Notification_list l db = (db, inr ns).
Proof.
  induction 1 as [|[oid d] l Hd _ [ns IH]]; [by eexists|].
  destruct (Notification_init_cases oid d db) as [[Hbad _]|[_ Hn]];
    [simpl in Hd; congruence|].
  eexists. cbn [Notification_list]. unfold bind at 1. rewrite Hn.
  unfold bind at 1. by rewrite IH.
Qed.

Lemma get_notification_history_unfold skip limit status ty task_id db :
  get_notification_history skip limit status ty task_id db
  = Notification_list (notifications_page skip limit status ty task_id db) db.
Proof. reflexivity. Qed.

Lemma elem_of_notifications_page skip limit status ty task_id db oid d :
  (oid, d) ∈ notifications_page skip limit status ty task_id db →
  notifications db !! oid = Some d
  ∧ notification_matches (notification_filter_dict status ty task_id) d
    = true.
Proof.
  unfold notifications_page.
  intros [Hm Hin]%elem_of_cursor_to_list%list_elem_of_filter.
  apply elem_of_map_to_list in Hin. split; [done|]. by apply Is_true_true.
Qed.

(** X12: [GET /notifications/history] answers as soon as every stored
    notification passes the validation of the response model.  When it
    answers, the database is untouched and the list has at most [limit]
    entries, newest [created_at] first; each entry is a stored
    notification and has the requested status, the requested type and the
    requested non-empty [task_id], where these are given. *)
Theorem get_notification_history_page skip limit status ty task_id db :
  (map_Forall (λ _ d, presentable d = true) (notifications db) →
   ∃ ns,
     get_notification_history skip limit status ty task_id db = (db, inr ns))
  ∧ (∀ db' ns,
       get_notification_history skip limit status ty task_id db
       = (db', inr ns) →
       db' = db
       ∧ (length ns ≤ limit)%nat
       ∧ StronglySorted (λ a b, ntf_created_at b ≤ ntf_created_at a) ns
       ∧ Forall (λ n, ∃ oid d,
                   notifications db !! oid = Some d
                   ∧ Notification_init oid d db = (db, inr n)
                   ∧ (∀ st, status = Some st → ntf_status n = st)
                   ∧ (∀ t, ty = Some t → ntf_notification_type n = t)
                   ∧ (∀ t, task_id = Some t → t ≠ "" → ntf_task_id n = t))
           ns).
Proof.
  split.
  - intros Hall. rewrite get_notification_history_unfold.
    apply Notification_list_presentable, Forall_forall. intros [oid d] Hin.
    apply elem_of_notifications_page in Hin as [Hl _]. by apply (Hall oid).
  - intros db' ns Hrun. rewrite get_notification_history_unfold in Hrun.
    apply Notification_list_inv in Hrun as [-> Hall].
    split; [done|]. split; [|split].
    + rewrite <- (Forall2_length _ _ _ Hall).
      apply length_cursor_to_list.
    + eapply (StronglySorted_Forall2 by_created_at_desc); [|exact Hall|].
      * intros [o1 d1] [o2 d2] n1 n2 H1 H2 Hle. simpl in *.
        destruct (Notification_init_cases o1 d1 db) as [[_ Hb]|[_ Hn1]];
          [congruence|].
        destruct (Notification_init_cases o2 d2 db) as [[_ Hb]|[_ Hn2]];
          [congruence|].
        rewrite Hn1 in H1. rewrite Hn2 in H2.
        injection H1 as <-. injection H2 as <-. exact Hle.
      * apply StronglySorted_cursor_to_list; apply _.
    + apply Forall_forall. intros n Hn.
      apply (Forall2_elem_of_r _ _ _ _ Hall) in Hn as ([oid d] & Hin & Hinit).
      simpl in Hinit.
      apply elem_of_notifications_page in Hin as [Hl Hm].
      exists oid, d. split; [done|]. split; [done|].
      destruct (Notification_init_cases oid d db) as [[_ Hb]|[_ Hn']];
        [congruence|].
      rewrite Hn' in Hinit. injection Hinit as <-. simpl.
      unfold notification_matches, notification_filter_dict in Hm.
      simpl in Hm.
      apply andb_true_iff in Hm as [[Hms Hmy]%andb_true_iff Hmt].
      split; [|split].
      * intros st ->. by apply bool_decide_eq_true in Hms.
      * intros t ->. by apply bool_decide_eq_true in Hmy.
      * intros t -> Hne. destruct t as [|c t]; [done|]. simpl in Hmt.
        by apply bool_decide_eq_true in Hmt.
Qed.

(** X12 on the store left by a pass over the sample store. *)
Lemma get_notification_history_page_witness :
  let db := (check_due_reminders no_faults 10000 sample_db).1 in
  map_Forall (λ _ d, presentable d = true) (notifications db)
  ∧ ∃ ns,
      get_notification_history 0 100 (Some SENT) (Some REMINDER) None db
      = (db, inr ns)
      ∧ length ns = 2%nat.
Proof.
  cbv zeta.
  assert (map_Forall (λ _ d, presentable d = true)
            (notifications (check_due_reminders no_faults 10000 sample_db).1))
    as Hall.
  { apply (bool_decide_unpack _). vm_compute. exact I. }
  split; [exact Hall|].
  destruct (proj1 (get_notification_history_page 0 100 (Some SENT)
                     (Some REMINDER) None _) Hall) as [ns Hrun].
  exists ns. split; [exact Hrun|].
  assert (inr ns
          = (get_notification_history 0 100 (Some SENT) (Some REMINDER) None
               (check_due_reminders no_faults 10000 sample_db).1).2) as Hns
    by by rewrite Hrun.
  vm_compute in Hns. injection Hns as ->. reflexivity.
Defined.

Lemma send_notification_run notification utcnow1 utcnow2 db :
  valid_NotificationCreate notification = true →
  send_notification notification utcnow1 utcnow2 db
  = ({| reminders := reminders db;
        notifications :=
          <[fresh (dom (notifications db)) :=
              set_notification_sent utcnow2
                (bson_notification
                   (pending_notification notification utcnow1))]>
            (notifications db) |},
     inr {| ntf_id := Some (str_of_ObjectId (fresh (dom (notifications db))));
            ntf_task_id := nc_task_id notification;
            ntf_title := nc_title notification;
            ntf_message := nc_message notification;
            ntf_notification_type := nc_notification_type notification;
            ntf_status := PENDING;
            ntf_created_at := bson_datetime utcnow1;
            ntf_sent_at := None;
            ntf_error_message := None |}).
Proof.
  intros Hv. unfold valid_NotificationCreate in Hv.
  unfold send_notification.
  unfold bind at 1. unfold insert_one_notification at 1.
  unfold bind at 1. unfold find_one_notification. cbn [notifications].
  rewrite lookup_insert_eq.
  unfold bind at 1. unfold Notification_init.
  cbn [n_title n_message bson_notification pending_notification].
  rewrite Hv. unfold ret at 1.
  unfold bind at 1. unfold update_one_notification, ret.
  cbn [notifications reminders].
  by rewrite alter_insert_eq.
Qed.

(** X13: the notification that a validated [POST /notifications/send]
    reports as pending is listed, by a [GET /notifications/history] for
    status sent whose first page is long enough, under the same [_id] with
    status sent and [sent_at] set to the second clock reading, to the
    millisecond. *)
Theorem sent_notification_listed_as_sent
    notification utcnow1 utcnow2 limit db :
  valid_NotificationCreate notification = true →
  map_Forall (λ _ d, presentable d = true) (notifications db) →
  (size (notifications db) < limit)%nat →
  ∃ db' obj ns n,
    send_notification notification utcnow1 utcnow2 db = (db', inr obj)
    ∧ ntf_status obj = PENDING
    ∧ get_notification_history 0 limit (Some SENT) None None db'
      = (db', inr ns)
    ∧ n ∈ ns
    ∧ ntf_id n = ntf_id obj
    ∧ ntf_status n = SENT
    ∧ ntf_sent_at n = Some (bson_datetime utcnow2).
Proof.
  intros Hv Hall Hsize.
  set (oid := fresh (dom (notifications db))).
  set (stored := set_notification_sent utcnow2
                   (bson_notification
                      (pending_notification notification utcnow1))).
  set (db' := {| reminders := reminders db;
                 notifications := <[oid := stored]> (notifications db) |}).
  assert (presentable stored = true) as Hstored by exact Hv.
  assert (map_Forall (λ _ d, presentable d = true) (notifications db'))
    as Hall' by by apply map_Forall_insert_2.
  destruct (proj1 (get_notification_history_page 0 limit (Some SENT) None
                     None db') Hall') as [ns Hns].
  pose proof Hns as Hlist. rewrite get_notification_history_unfold in Hlist.
  apply Notification_list_inv in Hlist as [_ Hlist].
  assert ((oid, stored) ∈ notifications_page 0 limit (Some SENT) None None db')
    as Hin.
  { unfold notifications_page. apply elem_of_cursor_to_list_all.
    - etrans; [apply length_filter|]. rewrite length_map_to_list.
      simpl. rewrite map_size_insert_None by apply fresh_notification_None.
      lia.
    - apply list_elem_of_filter. split; [done|].
      apply elem_of_map_to_list. simpl. apply lookup_insert_eq. }
  destruct (Forall2_elem_of_l _ _ _ _ Hlist Hin) as (n & Hn & Hinit).
  simpl in Hinit.
  destruct (Notification_init_cases oid stored db') as [[Hb _]|[_ Hok]];
    [congruence|].
  rewrite Hok in Hinit. injection Hinit as <-.
  eexists db', _, ns, _.
  split; [by apply send_notification_run|]. split; [done|].
  split; [exact Hns|]. split; [exact Hn|]. done.
Qed.

(** X13 on the store left by a pass over the sample store. *)
Lemma sent_notification_listed_as_sent_witness :
  let db := (check_due_reminders no_faults 10000 sample_db).1 in
  valid_NotificationCreate sample_notification = true
  ∧ map_Forall (λ _ d, presentable d = true) (notifications db)
  ∧ (size (notifications db) < 100)%nat
  ∧ ∃ db' obj ns n,
      send_notification sample_notification 11000 12345 db = (db', inr obj)
      ∧ ntf_status obj = PENDING
      ∧ get_notification_history 0 100 (Some SENT) None None db'
        = (db', inr ns)
      ∧ n ∈ ns
      ∧ ntf_id n = ntf_id obj
      ∧ ntf_status n = SENT
      ∧ ntf_sent_at n = Some 12000.
Proof.
  cbv zeta.
  assert (map_Forall (λ _ d, presentable d = true)
            (notifications (check_due_reminders no_faults 10000 sample_db).1))
    as Hall.
  { apply (bool_decide_unpack _). vm_compute. exact I. }
  assert (size (notifications (check_due_reminders no_faults 10000 sample_db).1)
          < 100)%nat as Hsize by (vm_compute; lia).
  split; [reflexivity|]. split; [exact Hall|]. split; [exact Hsize|].
  exact (sent_notification_listed_as_sent sample_notification 11000 12345 100 _
           eq_refl Hall Hsize).
Defined.

(** How a count over the reminders moves across iterations that go
    through. *)
Lemma count_reminders_run_prefix (P : ReminderDoc → bool) now l db :
  NoDup l.*1 →
  (∀ o x, (o, x) ∈ l → reminders db !! o = Some x) →
  (count_documents P (reminders (run_prefix now l db))
   + length (filter (λ p, P p.2) l)
   = count_documents P (reminders db)
     + length (filter (λ p, P (mark_sent now p.2)) l))%nat.
Proof.
  revert db. induction l as [|[o x] l IH]; intros db Hnd Hl.
  - simpl. lia.
  - change (run_prefix now ((o, x) :: l) db)
      with (run_prefix now l (step_db now o x db)).
    rewrite fmap_cons in Hnd. apply NoDup_cons in Hnd as [Ho Hnd].
    assert (reminders db !! o = Some x) as Hox
      by apply Hl, list_elem_of_here.
    assert (reminders (step_db now o x db)
            = <[o := mark_sent now x]> (reminders db)) as Hstep.
    { simpl. by apply alter_present. }
    specialize (IH (step_db now o x db) Hnd).
    rewrite Hstep in IH.
    assert (∀ o' x', (o', x') ∈ l →
              <[o := mark_sent now x]> (reminders db) !! o' = Some x') as Hl'.
    { intros o' x' Hin. rewrite lookup_insert_ne.
      - apply Hl. by apply list_elem_of_further.
      - intros ->. apply Ho. apply list_elem_of_fmap. by exists (o', x'). }
    specialize (IH Hl').
    pose proof (count_documents_insert P (reminders db) o x
                  (mark_sent now x) Hox) as Hins.
    rewrite (length_filter_cons P o x l).
    rewrite (length_filter_cons (λ d, P (mark_sent now d)) o x l).
    lia.
Qed.

(** How a count over the notifications moves across iterations that go
    through. *)
Lemma count_notifications_run_prefix (P : NotificationDoc → bool) now l db :
  (∀ t m d, P (notification_for now t m d) = P (notification_for now "" "" d))
  →
  count_documents P (notifications (run_prefix now l db))
  = (count_documents P (notifications db)
     + length (filter (λ p, P (notification_for now "" "" p.2)) l))%nat.
Proof.
  intros HP. revert db. induction l as [|[o x] l IH]; intros db.
  - simpl. lia.
  - change (run_prefix now ((o, x) :: l) db)
      with (run_prefix now l (step_db now o x db)).
    rewrite IH. simpl.
    rewrite count_documents_insert_new by apply fresh_notification_None.
    rewrite (length_filter_cons (λ d, P (notification_for now "" "" d)) o x l).
    rewrite HP. lia.
Qed.

Lemma get_notification_stats_fst utcnow db :
  (get_notification_stats utcnow db).1 = db.
Proof. reflexivity. Qed.

(** X14: [GET /stats/overview] always answers and leaves the database
    alone.  Its totals are the sizes of the two collections; pending and
    sent reminders together do not exceed the total, nor do sent and failed
    notifications; [due_soon] counts pending reminders only, and counts
    every reminder that is due at the instant of the request. *)
Theorem get_notification_stats_consistent utcnow db :
  ∃ stats,
    get_notification_stats utcnow db = (db, inr stats)
    ∧ total_reminders stats = size (reminders db)
    ∧ total_notifications stats = size (notifications db)
    ∧ (pending_reminders stats + sent_reminders stats
       ≤ total_reminders stats)%nat
    ∧ (sent_notifications stats + failed_notifications stats
       ≤ total_notifications stats)%nat
    ∧ (due_soon stats ≤ pending_reminders stats)%nat
    ∧ (length (find_due utcnow db) ≤ due_soon stats)%nat.
Proof.
  eexists. split; [by cbv [get_notification_stats bind get_db ret]|]. cbn.
  split; [apply count_documents_all|].
  split; [apply count_documents_all|].
  split; [|split; [|split]].
  - rewrite count_documents_disjoint.
    + rewrite count_documents_all. apply count_documents_le.
    + intros d H1%bool_decide_eq_true H2%bool_decide_eq_true. congruence.
  - rewrite count_documents_disjoint.
    + rewrite count_documents_all. apply count_documents_le.
    + intros d H1%bool_decide_eq_true H2%bool_decide_eq_true. congruence.
  - apply count_documents_mono. intros oid d _ Hd.
    apply bool_decide_eq_true. by eapply is_due_pending.
  - change (length (find_due utcnow db))
      with (count_documents (is_due utcnow) (reminders db)).
    apply count_documents_mono. intros oid d _ Hd.
    eapply is_due_later; [exact Hd|]. unfold timedelta_hours. lia.
Qed.

(** X14 on the sample store at instant 10. *)
Lemma get_notification_stats_consistent_witness :
  ∃ stats,
    get_notification_stats 10000 sample_db = (sample_db, inr stats)
    ∧ total_reminders stats = 4%nat
    ∧ (due_soon stats ≤ pending_reminders stats)%nat
    ∧ (length (find_due 10000 sample_db) ≤ due_soon stats)%nat.
Proof.
  destruct (get_notification_stats_consistent 10000 sample_db)
    as (stats & Hrun & Htotal & _ & _ & _ & Hdue & Hnow).
  exists stats. split; [exact Hrun|]. split; [exact Htotal|].
  split; [exact Hdue|exact Hnow].
Defined.

(** X15: a pass in which every iteration goes through moves the
    statistics by the number [n] of reminders it found due: [n] reminders
    fewer are pending and [n] more are sent, [n] notifications more exist
    and [n] more of them are sent, while the number of reminders and the
    number of failed notifications stay. *)
Theorem pass_moves_stats F now utcnow db :
  Forall (step_ok F) (find_due now db) →
  ∃ db' body before after,
    check_due_reminders F now db = (db', inr body)
    ∧ get_notification_stats utcnow db = (db, inr before)
    ∧ get_notification_stats utcnow db' = (db', inr after)
    ∧ let n := length (find_due now db) in
      total_reminders after = total_reminders before
      ∧ (pending_reminders after + n)%nat = pending_reminders before
      ∧ sent_reminders after = (sent_reminders before + n)%nat
      ∧ total_notifications after = (total_notifications before + n)%nat
      ∧ sent_notifications after = (sent_notifications before + n)%nat
      ∧ failed_notifications after = failed_notifications before.
Proof.
  intros Hok. eexists _, _, _, _.
  split; [by rewrite check_due_reminders_unfold, process_due_all_ok|].
  split; [by cbv [get_notification_stats bind get_db ret]|].
  split; [by cbv [get_notification_stats bind get_db ret]|].
  cbn -[find_due].
  assert (∀ o x, (o, x) ∈ find_due now db → reminders db !! o = Some x)
    as Hstored.
  { intros o x Hin. by apply elem_of_find_due in Hin as [? _]. }
  pose proof (NoDup_find_due now db) as Hnd.
  assert (∀ P : ReminderDoc → bool,
            (count_documents P
               (reminders (run_prefix now (find_due now db) db))
             + length (filter (λ p, P p.2) (find_due now db))
             = count_documents P (reminders db)
               + length (filter (λ p, P (mark_sent now p.2))
                           (find_due now db)))%nat) as Hcount.
  { intros P. by apply count_reminders_run_prefix. }
  assert (∀ p, p ∈ find_due now db → r_status p.2 = Some PENDING) as Hpend.
  { intros [o x] Hin. apply elem_of_find_due in Hin as [_ Hd].
    by eapply is_due_pending. }
  split; [|split; [|split; [|split; [|split]]]].
  - pose proof (Hcount (λ _, true)) as H.
    rewrite !length_filter_all in H by done. lia.
  - pose proof (Hcount (λ d, bool_decide (r_status d = Some PENDING))) as H.
    rewrite length_filter_all, length_filter_none in H; [lia| |].
    + intros p _ Hb. apply Is_true_true, bool_decide_eq_true in Hb.
      discriminate Hb.
    + intros p Hp. apply Is_true_true, bool_decide_eq_true. by apply Hpend.
  - pose proof (Hcount (λ d, bool_decide (r_status d = Some SENT))) as H.
    rewrite length_filter_none, length_filter_all in H; [lia| |].
    + intros p _. by apply Is_true_true, bool_decide_eq_true.
    + intros p Hp Hb. apply Is_true_true, bool_decide_eq_true in Hb.
      rewrite (Hpend p Hp) in Hb. discriminate Hb.
  - rewrite count_notifications_run_prefix by done.
    by rewrite length_filter_all.
  - rewrite count_notifications_run_prefix by done.
    rewrite length_filter_all; [done|].
    intros p _. by apply Is_true_true, bool_decide_eq_true.
  - rewrite count_notifications_run_prefix by done.
    rewrite length_filter_none; [lia|].
    intros p _ Hb. apply Is_true_true, bool_decide_eq_true in Hb.
    discriminate Hb.
Qed.

(** X15 on the sample store at instant 10: two reminders move from pending
    to sent and two notifications are added. *)
Lemma pass_moves_stats_witness :
  Forall (step_ok no_faults) (find_due 10000 sample_db)
  ∧ ∃ db' body before after,
      check_due_reminders no_faults 10000 sample_db = (db', inr body)
      ∧ get_notification_stats 10000 sample_db = (sample_db, inr before)
      ∧ get_notification_stats 10000 db' = (db', inr after)
      ∧ (pending_reminders after + 2)%nat = pending_reminders before
      ∧ sent_notifications after = (sent_notifications before + 2)%nat.
Proof.
  assert (Forall (step_ok no_faults) (find_due 10000 sample_db)) as Hok.
  { apply (bool_decide_unpack _). vm_compute. exact I. }
  split; [exact Hok|].
  destruct (pass_moves_stats no_faults 10000 10000 sample_db Hok)
    as (db' & body & before & after & Hrun & Hb & Ha & Hmoves).
  destruct Hmoves as (_ & Hp & _ & _ & Hs & _).
  exists db', body, before, after.
  split; [exact Hrun|]. split; [exact Hb|]. split; [exact Ha|].
  split; [exact Hp|exact Hs].
Defined.

End NotificationsExtra.

(** ** More facts about the task service *)

Module TasksExtra.
Import Tasks TasksFacts QueryFacts.

Lemma showable_task_dict task utcnow1 utcnow2 :
  valid_TaskCreate task = true →
  showable (task_dict task utcnow1 utcnow2) = true.
Proof. done. Qed.

Lemma World_eta w :
  {| tasks := tasks w; outbox := outbox w; stdout := stdout w |} = w.
Proof. by destruct w. Qed.

Lemma get_task_run task_id oid w :
  ObjectId_of_str task_id = Some oid →
  get_task task_id w
  = match tasks w !! oid with
    | None => (w, inl (HTTPException 404 "Task not found"))
    | Some d => Task_init oid d w
    end.
Proof.
  intros Hid. unfold get_task. rewrite Hid.
  unfold bind, find_one. by destruct (tasks w !! oid).
Qed.

(** X16: the [_id] in the response of a validated [POST /tasks] is accepted
    by [GET /tasks/{id}], which answers with the very same task and leaves
    the world as it is, whatever the bridge's call did. *)
Theorem get_task_after_create post task utcnow1 utcnow2 w :
  valid_TaskCreate task = true →
  is_ObjectId (fresh (dom (tasks w))) →
  ∃ w' task_obj task_id,
    create_task post task utcnow1 utcnow2 w = (w', inr task_obj)
    ∧ t_id task_obj = Some task_id
    ∧ get_task task_id w' = (w', inr task_obj).
Proof.
  intros Hv Hoid.
  destruct (create_task_run post task utcnow1 utcnow2 w Hv)
    as (w' & Hrun & Ht & _).
  eexists w', _, _. split; [exact Hrun|]. split; [reflexivity|].
  rewrite (get_task_run _ (fresh (dom (tasks w))))
    by by apply ObjectId_of_str_of_ObjectId.
  rewrite Ht, lookup_insert_eq.
  by rewrite Task_init_showable.
Qed.

(** X16 for Scenario A with an unreachable notification service. *)
Lemma get_task_after_create_witness :
  valid_TaskCreate pay_rent = true
  ∧ is_ObjectId (fresh (dom (tasks empty_world)))
  ∧ ∃ w' task_obj task_id,
      create_task unreachable pay_rent 1000 1001 empty_world = (w', inr task_obj)
      ∧ t_id task_obj = Some task_id
      ∧ get_task task_id w' = (w', inr task_obj).
Proof.
  assert (is_ObjectId (fresh (dom (tasks empty_world)))) as Hoid
    by (by vm_compute).
  split; [reflexivity|]. split; [exact Hoid|].
  exact (get_task_after_create unreachable pay_rent 1000 1001 empty_world
           eq_refl Hoid).
Defined.

(** X17: [DELETE /tasks/{id}] on a stored task removes that document and
    nothing else, and sends nothing to the notification service: reminders
    registered for the task are not cancelled.  Afterwards [GET], a second
    [DELETE] and [PATCH .../complete] of the same id all answer 404 and
    change nothing. *)
Theorem delete_task_removes task_id oid w d :
  ObjectId_of_str task_id = Some oid →
  tasks w !! oid = Some d →
  ∃ w',
    delete_task task_id w
    = (w', inr {[ "message" := JString "Task deleted successfully" ]})
    ∧ tasks w' = delete oid (tasks w)
    ∧ outbox w' = outbox w
    ∧ stdout w' = stdout w
    ∧ get_task task_id w' = (w', inl (HTTPException 404 "Task not found"))
    ∧ delete_task task_id w'
      = (w', inl (HTTPException 404 "Task not found"))
    ∧ ∀ utcnow1 utcnow2,
        complete_task task_id utcnow1 utcnow2 w'
        = (w', inl (HTTPException 404 "Task not found")).
Proof.
  intros Hid Hl. eexists.
  split.
  { unfold delete_task. rewrite Hid. unfold bind, delete_one. by rewrite Hl. }
  split; [done|]. split; [done|]. split; [done|].
  split; [|split].
  - rewrite (get_task_run _ oid) by done. cbn [tasks].
    by rewrite lookup_delete_eq.
  - unfold delete_task. rewrite Hid. unfold bind, delete_one. cbn [tasks].
    rewrite lookup_delete_eq. cbn.
    by rewrite delete_delete_eq.
  - intros utcnow1 utcnow2. unfold complete_task. rewrite Hid.
    unfold bind, update_one. cbn [tasks].
    rewrite lookup_delete_eq. cbn.
    by rewrite alter_absent by apply lookup_delete_eq.
Qed.

(** X17 for the task of Scenario A. *)
Lemma delete_task_removes_witness :
  ObjectId_of_str "000000000000000000000000" = Some 0%N
  ∧ tasks rent_world !! 0%N = Some (bson_task (task_dict pay_rent 1000 1001))
  ∧ ∃ w',
      delete_task "000000000000000000000000" rent_world
      = (w', inr {[ "message" := JString "Task deleted successfully" ]})
      ∧ tasks w' = delete 0%N (tasks rent_world)
      ∧ outbox w' = outbox rent_world.
Proof.
  assert (ObjectId_of_str "000000000000000000000000" = Some 0%N) as Hid
    by (vm_compute; reflexivity).
  assert (tasks rent_world !! 0%N = Some (bson_task (task_dict pay_rent 1000 1001))) as Hl
    by (vm_compute; reflexivity).
  split; [exact Hid|]. split; [exact Hl|].
  destruct (delete_task_removes _ _ _ _ Hid Hl)
    as (w' & Hrun & Ht & Ho & _).
  exists w'. split; [exact Hrun|]. split; [exact Ht|exact Ho].
Defined.

(** [complete_task] on a stored task. *)
Lemma complete_task_run task_id oid utcnow1 utcnow2 w d :
  ObjectId_of_str task_id = Some oid →
  tasks w !! oid = Some d →
  let d' := apply_set (completion_data utcnow1 utcnow2) d in
  complete_task task_id utcnow1 utcnow2 w
  = Task_init oid d'
      {| tasks := <[oid := d']> (tasks w);
         outbox := outbox w;
         stdout := stdout w |}.
Proof.
  intros Hid Hl d'. unfold complete_task. rewrite Hid.
  unfold bind at 1. unfold update_one. rewrite Hl.
  rewrite bool_decide_eq_false_2 by done.
  unfold bind at 1. unfold find_one. cbn [tasks].
  rewrite lookup_alter_eq, Hl. cbn [fmap option_fmap option_map].
  by rewrite (alter_present _ _ _ _ Hl).
Qed.

(** X18: [PATCH /tasks/{id}/complete] on a stored task that passes the
    validation answers with that task, completed: status completed,
    [completed_at] the first clock reading and [updated_at] the second,
    both to the millisecond, and every other field (id, title,
    description, priority, category, due date, reminder settings,
    [created_at]) as stored.  The stored document changes in the same
    three fields and in nothing else.  The handler does so from any status
    (a cancelled or an already completed task included), changes no other
    task and never calls the bridge. *)
Theorem complete_task_completes task_id oid utcnow1 utcnow2 w d :
  ObjectId_of_str task_id = Some oid →
  tasks w !! oid = Some d →
  showable d = true →
  ∃ w' task_obj,
    complete_task task_id utcnow1 utcnow2 w = (w', inr task_obj)
    ∧ get_task task_id w' = (w', inr task_obj)
    ∧ t_id task_obj = Some (str_of_ObjectId oid)
    ∧ t_status task_obj = COMPLETED
    ∧ t_completed_at task_obj = Some (bson_datetime utcnow1)
    ∧ t_updated_at task_obj = bson_datetime utcnow2
    ∧ t_created_at task_obj = d_created_at d
    ∧ d_title d = Some (t_title task_obj)
    ∧ t_description task_obj = d_description d
    ∧ d_priority d = Some (t_priority task_obj)
    ∧ t_category task_obj = d_category d
    ∧ t_due_date task_obj = d_due_date d
    ∧ d_reminder_enabled d = Some (t_reminder_enabled task_obj)
    ∧ t_reminder_time task_obj = d_reminder_time d
    ∧ tasks w'
      = <[oid := {| d_title := d_title d;
                    d_description := d_description d;
                    d_priority := d_priority d;
                    d_category := d_category d;
                    d_due_date := d_due_date d;
                    d_reminder_enabled := d_reminder_enabled d;
                    d_reminder_time := d_reminder_time d;
                    d_status := Some COMPLETED;
                    d_created_at := d_created_at d;
                    d_updated_at := bson_datetime utcnow2;
                    d_completed_at := Some (bson_datetime utcnow1) |}]>
          (tasks w)
    ∧ outbox w' = outbox w
    ∧ stdout w' = stdout w.
Proof.
  intros Hid Hl Hs.
  set (d' := apply_set (completion_data utcnow1 utcnow2) d).
  assert (showable d' = true) as Hs'.
  { unfold showable in *. simpl.
    by destruct (d_title d), (d_priority d), (d_reminder_enabled d),
      (d_status d). }
  eexists _, _.
  split.
  { rewrite (complete_task_run _ oid _ _ _ d) by done.
    by apply Task_init_showable. }
  split.
  { rewrite (get_task_run _ oid) by done. cbn [tasks].
    rewrite lookup_insert_eq. by apply Task_init_showable. }
  cbn -[str_of_ObjectId]. unfold apply_set, completion_data.
  cbn -[str_of_ObjectId]. unfold showable in Hs.
  destruct (d_title d), (d_priority d), (d_reminder_enabled d), (d_status d);
    try done.
Qed.

(** X18 for the task of Scenario A, completed at instant 5400. *)
Lemma complete_task_completes_witness :
  ObjectId_of_str "000000000000000000000000" = Some 0%N
  ∧ tasks rent_world !! 0%N = Some (bson_task (task_dict pay_rent 1000 1001))
  ∧ showable (bson_task (task_dict pay_rent 1000 1001)) = true
  ∧ ∃ w' task_obj,
      complete_task "000000000000000000000000" 5400 6000 rent_world
      = (w', inr task_obj)
      ∧ t_status task_obj = COMPLETED
      ∧ t_completed_at task_obj = Some 5000
      ∧ t_priority task_obj = HIGH
      ∧ outbox w' = outbox rent_world.
Proof.
  assert (ObjectId_of_str "000000000000000000000000" = Some 0%N) as Hid
    by (vm_compute; reflexivity).
  assert (tasks rent_world !! 0%N
          = Some (bson_task (task_dict pay_rent 1000 1001))) as Hl
    by (vm_compute; reflexivity).
  split; [exact Hid|]. split; [exact Hl|]. split; [reflexivity|].
  destruct (complete_task_completes _ _ 5400 6000 _ _ Hid Hl eq_refl)
    as (w' & task_obj & Hrun & _ & _ & Hst & Hc & _ & _ & _ & _ & Hp & _ & _
        & _ & _ & _ & Ho & _).
  exists w', task_obj. split; [exact Hrun|]. split; [exact Hst|].
  split; [exact Hc|]. split; [by injection Hp|exact Ho].
Defined.

(** X19: [PUT /tasks/{id}] whose body sets [title], [priority],
    [reminder_enabled] or [status] to [null] is applied to the stored task
    and only then fails: the response is a validation error, the document
    keeps the [null], the bridge is not called even when the body sets
    reminder fields, and every later [GET] or [PATCH .../complete] of that
    task fails in the same way. *)
Theorem update_task_null_is_stored post task_id oid task_update utcnow w d :
  ObjectId_of_str task_id = Some oid →
  tasks w !! oid = Some d →
  tu_title task_update = Some None ∨ tu_priority task_update = Some None
  ∨ tu_reminder_enabled task_update = Some None
  ∨ tu_status task_update = Some None →
  ∃ w',
    update_task post task_id task_update utcnow w = (w', inl ValidationError)
    ∧ tasks w'
      = <[oid := apply_set (task_update_data task_update utcnow) d]> (tasks w)
    ∧ outbox w' = outbox w
    ∧ get_task task_id w' = (w', inl ValidationError)
    ∧ (tu_title task_update = Some None
       ∨ tu_priority task_update = Some None
       ∨ tu_reminder_enabled task_update = Some None →
       ∀ utcnow1 utcnow2,
         (complete_task task_id utcnow1 utcnow2 w').2 = inl ValidationError).
Proof.
  intros Hid Hl Hnull.
  set (d' := apply_set (task_update_data task_update utcnow) d).
  assert (showable d' = false) as Hs.
  { unfold showable, d'. simpl.
    destruct Hnull as [-> | [-> | [-> | ->]]]; simpl;
      repeat (match goal with |- context [match ?x with _ => _ end] =>
                destruct x end); done. }
  eexists. split.
  { rewrite (update_task_run _ _ oid _ _ _ d) by done. cbv zeta.
    fold d'. by rewrite Hs. }
  split; [done|]. split; [done|]. split.
  - rewrite (get_task_run _ oid) by done. cbn [tasks].
    rewrite lookup_insert_eq. by apply Task_init_unshowable.
  - intros Hnull' utcnow1 utcnow2.
    rewrite (complete_task_run _ oid _ _ _ d')
      by (done || (cbn [tasks]; apply lookup_insert_eq)).
    rewrite Task_init_unshowable; [done|].
    unfold showable, d'. simpl.
    destruct Hnull' as [-> | [-> | ->]]; simpl;
      repeat (match goal with |- context [match ?x with _ => _ end] =>
                destruct x end); done.
Qed.

(** X19 for the task of Scenario A and a body that only sets [title] to
    [null]. *)
Lemma update_task_null_is_stored_witness :
  ObjectId_of_str "000000000000000000000000" = Some 0%N
  ∧ tasks rent_world !! 0%N = Some (bson_task (task_dict pay_rent 1000 1001))
  ∧ ∃ w',
      update_task reachable "000000000000000000000000" null_title 3000
        rent_world
      = (w', inl ValidationError)
      ∧ d_title <$> tasks w' !! 0%N = Some None.
Proof.
  assert (ObjectId_of_str "000000000000000000000000" = Some 0%N) as Hid
    by (vm_compute; reflexivity).
  assert (tasks rent_world !! 0%N = Some (bson_task (task_dict pay_rent 1000 1001))) as Hl
    by (vm_compute; reflexivity).
  split; [exact Hid|]. split; [exact Hl|].
  destruct (update_task_null_is_stored reachable _ _ null_title 3000 _ _
              Hid Hl (or_introl eq_refl))
    as (w' & Hrun & Ht & _).
  exists w'. split; [exact Hrun|].
  rewrite Ht, lookup_insert_eq. reflexivity.
Defined.

Lemma notify_reminder_service_stdout post task w :
  stdout w `prefix_of` stdout (notify_reminder_service post task w).1.
Proof.
  unfold notify_reminder_service.
  destruct (t_reminder_enabled task), (t_reminder_time task); try done.
  destruct (post _); simpl; [done|]. by apply prefix_app_r.
Qed.

(** X20: [PUT /tasks/{id}] answers 400, without touching the world, for
    every id that [ObjectId] rejects: a string that does not have 24
    characters or is not made of pairs of hexadecimal digits (whitespace
    between the pairs is accepted).  It answers 404, again without
    touching the world, for a 12-byte id that no task has.  On a stored
    task it changes that document only, and in it only the fields its body
    sets, plus [updated_at], which becomes the clock reading; dates are
    stored to the millisecond.  [created_at] and [completed_at] are never
    changed; standard output and the outbox only grow. *)
Theorem update_task_frame post task_id task_update utcnow w :
  (ObjectId_of_str task_id = None
   ↔ String.length task_id ≠ 24%nat ∨ fromhex task_id = None)
  ∧ match ObjectId_of_str task_id with
    | None =>
        update_task post task_id task_update utcnow w
        = (w, inl (HTTPException 400 "Invalid task ID format"))
    | Some oid =>
        match tasks w !! oid with
        | None =>
            is_ObjectId oid →
            update_task post task_id task_update utcnow w
            = (w, inl (HTTPException 404 "Task not found"))
        | Some d =>
            let w' := (update_task post task_id task_update utcnow w).1 in
            (∀ o, o ≠ oid → tasks w' !! o = tasks w !! o)
            ∧ outbox w `prefix_of` outbox w'
            ∧ stdout w `prefix_of` stdout w'
            ∧ ∃ d',
                tasks w' !! oid = Some d'
                ∧ d_created_at d' = d_created_at d
                ∧ d_completed_at d' = d_completed_at d
                ∧ d_updated_at d' = bson_datetime utcnow
                ∧ d_title d' = default (d_title d) (tu_title task_update)
                ∧ d_description d'
                  = default (d_description d) (tu_description task_update)
                ∧ d_priority d'
                  = default (d_priority d) (tu_priority task_update)
                ∧ d_category d'
                  = default (d_category d) (tu_category task_update)
                ∧ d_due_date d'
                  = default (d_due_date d)
                      (fmap (M:=option) bson_datetime
                         <$> tu_due_date task_update)
                ∧ d_reminder_enabled d'
                  = default (d_reminder_enabled d)
                      (tu_reminder_enabled task_update)
                ∧ d_reminder_time d'
                  = default (d_reminder_time d)
                      (fmap (M:=option) bson_datetime
                         <$> tu_reminder_time task_update)
                ∧ d_status d' = default (d_status d) (tu_status task_update)
        end
    end.
Proof.
  split; [apply ObjectId_of_str_None|].
  destruct (ObjectId_of_str task_id) as [oid|] eqn:Hid.
  - destruct (tasks w !! oid) as [d|] eqn:Hl.
    + cbv zeta.
      rewrite (update_task_run post _ oid _ _ _ d) by done. cbv zeta.
      set (d' := apply_set (task_update_data task_update utcnow) d).
      set (w1 := {| tasks := <[oid:=d']> (tasks w);
                    outbox := outbox w; stdout := stdout w |}).
      assert (∃ w', (if showable d'
                     then if touches_reminder
                               (task_update_data task_update utcnow)
                          then ((notify_reminder_service post
                                   (task_view oid d') w1).1,
                                inr (task_view oid d'))
                          else (w1, inr (task_view oid d'))
                     else (w1, inl ValidationError)).1 = w'
                    ∧ tasks w' = tasks w1
                    ∧ outbox w1 `prefix_of` outbox w'
                    ∧ stdout w1 `prefix_of` stdout w') as (w' & -> & Ht & Ho & Hp).
      { destruct (showable d'); [|by exists w1].
        destruct (touches_reminder _); [|by exists w1].
        eexists. split; [done|]. simpl.
        destruct (notify_reminder_service_spec post (task_view oid d') w1)
          as (w' & Hr & Ht & Ho).
        pose proof (notify_reminder_service_stdout post (task_view oid d') w1)
          as Hp.
        rewrite Hr in Hp |- *. simpl in *.
        split; [done|]. split; [|done].
        rewrite Ho. by apply prefix_app_r. }
      rewrite Ht. simpl.
      split; [intros o Hne; by rewrite lookup_insert_ne|].
      split; [done|]. split; [done|].
      exists d'. by rewrite lookup_insert_eq.
    + intros _. unfold update_task. rewrite Hid.
      unfold bind, find_one. by rewrite Hl.
  - unfold update_task. by rewrite Hid.
Qed.

(** X20 for the task of Scenario A: a body that only sets the title, at
    instant 3999, leaves [updated_at] 3000; the 12-byte id 7 is unknown
    and answered 404; an id of 12 characters is answered 400; the 24
    characters [00000000000000000000 01 ] are not rejected by
    [ObjectId]. *)
Lemma update_task_frame_witness :
  (∃ d',
     tasks (update_task unreachable "000000000000000000000000"
              (title_only "Pay the rent") 3999 rent_world).1 !! 0%N = Some d'
     ∧ d_title d' = Some "Pay the rent"
     ∧ d_created_at d' = 1000
     ∧ d_updated_at d' = 3000
     ∧ d_status d' = Some PENDING)
  ∧ is_ObjectId 7
  ∧ update_task unreachable "000000000000000000000007"
      (title_only "Pay the rent") 3999 rent_world
    = (rent_world, inl (HTTPException 404 "Task not found"))
  ∧ update_task unreachable "65f0a1b2c3d4" (title_only "Pay the rent") 3999
      rent_world
    = (rent_world, inl (HTTPException 400 "Invalid task ID format"))
  ∧ ObjectId_of_str "00000000000000000000 01 " ≠ None.
Proof.
  assert (is_ObjectId 7) as H7 by (by vm_compute).
  split; [|split; [exact H7|split; [|split]]].
  - pose proof (proj2 (update_task_frame unreachable
                         "000000000000000000000000"
                         (title_only "Pay the rent") 3999 rent_world)) as H.
    change (ObjectId_of_str "000000000000000000000000") with (Some 0%N) in H.
    change (tasks rent_world !! 0%N)
      with (Some (bson_task (task_dict pay_rent 1000 1001))) in H.
    destruct H as (_ & _ & _ & d' & Hd & Hc & _ & Hu & Ht & _ & _ & _ & _ & _
                   & _ & Hst).
    exists d'. split; [exact Hd|]. split; [exact Ht|]. split; [exact Hc|].
    split; [exact Hu|exact Hst].
  - pose proof (proj2 (update_task_frame unreachable
                         "000000000000000000000007"
                         (title_only "Pay the rent") 3999 rent_world)) as H.
    change (ObjectId_of_str "000000000000000000000007") with (Some 7%N) in H.
    change (tasks rent_world !! 7%N) with (@None TaskDoc) in H.
    exact (H H7).
  - exact (proj2 (update_task_frame unreachable "65f0a1b2c3d4"
                    (title_only "Pay the rent") 3999 rent_world)).
  - intros Hnone.
    apply (proj1 (update_task_frame unreachable "00000000000000000000 01 "
                    (title_only "Pay the rent") 3999 rent_world)) in Hnone.
    destruct Hnone as [Hlen|Hhex]; [by apply Hlen|discriminate Hhex].
Defined.

Lemma bridge_requests_disabled task :
  t_reminder_enabled task = false → bridge_requests task = [].
Proof. unfold bridge_requests. by intros ->. Qed.

(** X21: a [PUT /tasks/{id}] whose body sets [reminder_enabled] to false
    sends nothing to the notification service, whatever else the body sets
    and whatever the response: a reminder registered earlier for the task
    is neither cancelled nor updated. *)
Theorem disabling_reminder_sends_nothing post task_id task_update utcnow w :
  tu_reminder_enabled task_update = Some (Some false) →
  outbox (update_task post task_id task_update utcnow w).1 = outbox w
  ∧ stdout (update_task post task_id task_update utcnow w).1 = stdout w.
Proof.
  intros Hoff.
  destruct (ObjectId_of_str task_id) as [oid|] eqn:Hid;
    [|unfold update_task; by rewrite Hid].
  destruct (tasks w !! oid) as [d|] eqn:Hl.
  - rewrite (update_task_run post _ oid _ _ _ d) by done. cbv zeta.
    destruct (showable _); [|done].
    destruct (touches_reminder _); [|done].
    unfold notify_reminder_service. cbn. by rewrite Hoff.
  - unfold update_task. rewrite Hid. unfold bind, find_one. by rewrite Hl.
Qed.

(** X21 for the task of Scenario A, whose creation registered a
    reminder. *)
Lemma disabling_reminder_sends_nothing_witness :
  tu_reminder_enabled (reminder_enabled_only false) = Some (Some false)
  ∧ length (outbox rent_world) = 1%nat
  ∧ outbox (update_task reachable "000000000000000000000000"
              (reminder_enabled_only false) 3000 rent_world).1
    = outbox rent_world.
Proof.
  split; [reflexivity|]. split; [reflexivity|].
  exact (proj1 (disabling_reminder_sends_nothing reachable
                  "000000000000000000000000" (reminder_enabled_only false)
                  3000 rent_world eq_refl)).
Defined.

(** X22: [PUT /tasks/{id}] gives the same response, the same collection
    and the same outbox for every behaviour of the bridge's outbound call,
    whether the notification service answers or the call raises; a call
    that is answered, with any status code, prints nothing. *)
Theorem update_task_survives_bridge_failure
    post1 post2 task_id task_update utcnow w :
  (update_task post1 task_id task_update utcnow w).2
  = (update_task post2 task_id task_update utcnow w).2
  ∧ tasks (update_task post1 task_id task_update utcnow w).1
    = tasks (update_task post2 task_id task_update utcnow w).1
  ∧ outbox (update_task post1 task_id task_update utcnow w).1
    = outbox (update_task post2 task_id task_update utcnow w).1
  ∧ ((∀ payload, ∃ status_code, post1 payload = Responded status_code) →
     stdout (update_task post1 task_id task_update utcnow w).1 = stdout w).
Proof.
  destruct (ObjectId_of_str task_id) as [oid|] eqn:Hid;
    [|unfold update_task; by rewrite Hid].
  destruct (tasks w !! oid) as [d|] eqn:Hl.
  - rewrite !(update_task_run _ _ oid _ _ _ d) by done. cbv zeta.
    destruct (showable _); [|done].
    destruct (touches_reminder _); [|done].
    match goal with |- context [notify_reminder_service post1 ?t ?w0] =>
      destruct (notify_reminder_service_spec post1 t w0)
        as (w1 & Hr1 & Ht1 & Ho1);
      destruct (notify_reminder_service_spec post2 t w0)
        as (w2 & Hr2 & Ht2 & Ho2)
    end.
    split; [done|].
    split; [rewrite Hr1, Hr2; simpl; by rewrite Ht1, Ht2|].
    split; [rewrite Hr1, Hr2; simpl; by rewrite Ho1, Ho2|].
    intros Hans. clear Hr1 Hr2. unfold notify_reminder_service.
    match goal with |- context [t_reminder_enabled ?t] =>
      destruct (t_reminder_enabled t), (t_reminder_time t) as [rt|];
        try done;
      destruct (Hans (reminder_payload t rt)) as [c ->]
    end.
    done.
  - unfold update_task. rewrite Hid. unfold bind, find_one. by rewrite Hl.
Qed.

(** X22 for the task of Scenario A and a body that moves the reminder: a
    reachable and an unreachable notification service. *)
Lemma update_task_survives_bridge_failure_witness :
  (∀ payload, ∃ status_code, reachable payload = Responded status_code)
  ∧ (update_task reachable "000000000000000000000000"
       (reminder_time_only 50000) 3000 rent_world).2
    = (update_task unreachable "000000000000000000000000"
         (reminder_time_only 50000) 3000 rent_world).2
  ∧ stdout (update_task reachable "000000000000000000000000"
              (reminder_time_only 50000) 3000 rent_world).1
    = stdout rent_world.
Proof.
  assert (∀ payload, ∃ status_code, reachable payload = Responded status_code)
    as Hans by (intros payload; by exists 200%nat).
  split; [exact Hans|].
  destruct (update_task_survives_bridge_failure reachable unreachable
              "000000000000000000000000" (reminder_time_only 50000) 3000
              rent_world) as (Hresp & _ & _ & Hout).
  split; [exact Hresp|exact (Hout Hans)].
Defined.

Lemma apply_set_twice task_update utcnow utcnow' d :
  apply_set (task_update_data task_update utcnow')
    (apply_set (task_update_data task_update utcnow) d)
  = apply_set (task_update_data task_update utcnow') d.
Proof.
  unfold apply_set, task_update_data. simpl.
  f_equal;
    match goal with
    | |- default (default _ ?o) ?o = _ => by destruct o
    | _ => done
    end.
Qed.

(** X23: the bridge keeps no record of what it has registered: two
    successive [PUT]s of the same body that sets [reminder_time], on a task
    whose reminder is enabled, issue two requests with the same content
    (the task's id and the requested [reminder_time], to the millisecond),
    so the notification service is asked twice to create a reminder for
    the one task. *)
Theorem repeated_update_repeats_request
    post task_id oid task_update reminder_time utcnow utcnow' w d :
  ObjectId_of_str task_id = Some oid →
  tasks w !! oid = Some d →
  tu_reminder_time task_update = Some (Some reminder_time) →
  tu_reminder_enabled task_update = None →
  d_reminder_enabled d = Some true →
  showable (apply_set (task_update_data task_update utcnow) d) = true →
  let w1 := (update_task post task_id task_update utcnow w).1 in
  let w2 := (update_task post task_id task_update utcnow' w1).1 in
  ∃ payload,
    outbox w2 = outbox w ++ [payload; payload]
    ∧ p_reminder_time payload = bson_datetime reminder_time
    ∧ p_task_id payload = Some (str_of_ObjectId oid).
Proof.
  intros Hid Hl Htime Hen Hon Hs w1 w2.
  set (d1 := apply_set (task_update_data task_update utcnow) d).
  set (d2 := apply_set (task_update_data task_update utcnow') d).
  assert (showable d1 = true) as Hs1 by exact Hs.
  assert (showable d2 = true) as Hs2 by exact Hs.
  assert (touches_reminder (task_update_data task_update utcnow) = true)
    as Htouch1.
  { unfold touches_reminder. simpl. rewrite Htime.
    apply orb_true_iff. right. by apply bool_decide_eq_true. }
  assert (touches_reminder (task_update_data task_update utcnow') = true)
    as Htouch2 by exact Htouch1.
  assert (bridge_requests (task_view oid d1)
          = [reminder_payload (task_view oid d1) (bson_datetime reminder_time)]) as Hreq1.
  { unfold bridge_requests. simpl. by rewrite Htime, Hen, Hon. }
  assert (bridge_requests (task_view oid d2)
          = [reminder_payload (task_view oid d1) (bson_datetime reminder_time)]) as Hreq2
    by exact Hreq1.
  assert (tasks w1 = <[oid := d1]> (tasks w)
          ∧ outbox w1
            = outbox w ++ [reminder_payload (task_view oid d1) (bson_datetime reminder_time)])
    as [Ht1 Ho1].
  { unfold w1. rewrite (update_task_run post _ oid _ _ _ d) by done.
    cbv zeta. fold d1. rewrite Hs1, Htouch1.
    destruct (notify_reminder_service_spec post (task_view oid d1)
                {| tasks := <[oid:=d1]> (tasks w);
                   outbox := outbox w; stdout := stdout w |})
      as (w' & -> & Ht & Ho).
    simpl. rewrite Ht, Ho. simpl. by rewrite Hreq1. }
  assert (tasks w1 !! oid = Some d1) as Hl1
    by by rewrite Ht1, lookup_insert_eq.
  exists (reminder_payload (task_view oid d1) (bson_datetime reminder_time)).
  split; [|done].
  unfold w2. rewrite (update_task_run post _ oid _ _ _ d1) by done.
  cbv zeta. unfold d1 at 1 2 3 4. rewrite !apply_set_twice. fold d2.
  rewrite Hs2, Htouch2.
  destruct (notify_reminder_service_spec post (task_view oid d2)
              {| tasks := <[oid:=d2]> (tasks w1);
                 outbox := outbox w1; stdout := stdout w1 |})
    as (w' & -> & _ & Ho).
  simpl. rewrite Ho. simpl. rewrite Ho1, Hreq2.
  by rewrite <- app_assoc.
Qed.

(** X23 for the task of Scenario A, moved twice to the same reminder
    time. *)
Lemma repeated_update_repeats_request_witness :
  ObjectId_of_str "000000000000000000000000" = Some 0%N
  ∧ tasks rent_world !! 0%N = Some (bson_task (task_dict pay_rent 1000 1001))
  ∧ ∃ payload,
      outbox (update_task reachable "000000000000000000000000"
                (reminder_time_only 50000) 4000
                (update_task reachable "000000000000000000000000"
                   (reminder_time_only 50000) 3000 rent_world).1).1
      = outbox rent_world ++ [payload; payload]
      ∧ p_reminder_time payload = 50000.
Proof.
  assert (ObjectId_of_str "000000000000000000000000" = Some 0%N) as Hid
    by (vm_compute; reflexivity).
  assert (tasks rent_world !! 0%N = Some (bson_task (task_dict pay_rent 1000 1001))) as Hl
    by (vm_compute; reflexivity).
  split; [exact Hid|]. split; [exact Hl|].
  destruct (repeated_update_repeats_request reachable _ _
              (reminder_time_only 50000) 50000 3000 4000 _ _ Hid Hl eq_refl eq_refl
              eq_refl eq_refl)
    as (payload & Hout & Htime & _).
  exists payload. split; [exact Hout|exact Htime].
Defined.

Lemma get_task_stats_run now w :
  get_task_stats now w
  = (w, inr {| total_tasks := count_documents (λ _, true) (tasks w);
               pending_tasks := count_documents (has_status PENDING) (tasks w);
               in_progress_tasks :=
                 count_documents (has_status IN_PROGRESS) (tasks w);
               completed_tasks :=
                 count_documents (has_status COMPLETED) (tasks w);
               cancelled_tasks :=
                 count_documents (has_status CANCELLED) (tasks w);
               overdue_tasks := count_documents (is_overdue now) (tasks w);
               upcoming_tasks :=
                 count_documents
                   (is_upcoming now (now + timedelta_days 7)) (tasks w) |}).
Proof. reflexivity. Qed.

Lemma has_status_disjoint st1 st2 d :
  st1 ≠ st2 → has_status st1 d = true → has_status st2 d = true → False.
Proof.
  unfold has_status.
  intros Hne H1%bool_decide_eq_true H2%bool_decide_eq_true. congruence.
Qed.

(** X24: [GET /tasks/stats/overview] always answers and leaves the world
    alone.  The total is the size of the collection; the four status counts
    together do not exceed it, and make it up exactly when no stored status
    is [null]; no task is counted both as overdue and as upcoming, and
    neither count includes a completed task, so overdue, upcoming and
    completed together do not exceed the total. *)
Theorem get_task_stats_consistent now w :
  ∃ stats,
    get_task_stats now w = (w, inr stats)
    ∧ total_tasks stats = size (tasks w)
    ∧ (pending_tasks stats + in_progress_tasks stats
       + completed_tasks stats + cancelled_tasks stats
       ≤ total_tasks stats)%nat
    ∧ (map_Forall (λ _ d, is_Some (d_status d)) (tasks w) →
       (pending_tasks stats + in_progress_tasks stats
        + completed_tasks stats + cancelled_tasks stats)%nat
       = total_tasks stats)
    ∧ (overdue_tasks stats + upcoming_tasks stats + completed_tasks stats
       ≤ total_tasks stats)%nat.
Proof.
  eexists. split; [apply get_task_stats_run|]. cbn.
  rewrite count_documents_all.
  assert ((count_documents (has_status PENDING) (tasks w)
           + count_documents (has_status IN_PROGRESS) (tasks w)
           + count_documents (has_status COMPLETED) (tasks w)
           + count_documents (has_status CANCELLED) (tasks w))%nat
          = count_documents
              (λ d, has_status PENDING d || has_status IN_PROGRESS d
                    || has_status COMPLETED d || has_status CANCELLED d)
              (tasks w)) as Hsum.
  { rewrite (count_documents_disjoint (has_status PENDING)
               (has_status IN_PROGRESS))
      by (intros d; by apply has_status_disjoint).
    rewrite (count_documents_disjoint _ (has_status COMPLETED)).
    - rewrite (count_documents_disjoint _ (has_status CANCELLED)); [done|].
      intros d [[H|H]%orb_true_iff|H]%orb_true_iff H';
        revert H H'; unfold has_status; rewrite !bool_decide_eq_true;
        congruence.
    - intros d [H|H]%orb_true_iff H';
        revert H H'; unfold has_status; rewrite !bool_decide_eq_true;
        congruence. }
  split; [done|]. split; [|split].
  - rewrite Hsum. apply count_documents_le.
  - intros Hall. rewrite Hsum, <- count_documents_all.
    apply count_documents_ext. intros oid d Hl.
    destruct (Hall oid d Hl) as [st Hst]. unfold has_status. rewrite Hst.
    by destruct st.
  - rewrite (count_documents_disjoint (is_overdue now)).
    + rewrite (count_documents_disjoint _ (has_status COMPLETED)).
      * apply count_documents_le.
      * unfold is_overdue, is_upcoming, has_status.
        intros d [H|H]%orb_true_iff H'%bool_decide_eq_true;
          apply andb_true_iff in H as [_ H%bool_decide_eq_true]; done.
    + unfold is_overdue, is_upcoming.
      intros d [H1 _]%andb_true_iff [H2 _]%andb_true_iff.
      destruct (d_due_date d) as [t|]; [|done].
      apply bool_decide_eq_true in H1, H2. lia.
Qed.

(** X24 for the store of Scenario A. *)
Lemma get_task_stats_consistent_witness :
  map_Forall (λ _ d, is_Some (d_status d)) (tasks rent_world)
  ∧ ∃ stats,
      get_task_stats 50000 rent_world = (rent_world, inr stats)
      ∧ (pending_tasks stats + in_progress_tasks stats
         + completed_tasks stats + cancelled_tasks stats)%nat
        = total_tasks stats
      ∧ total_tasks stats = 1%nat.
Proof.
  assert (map_Forall (λ _ d, is_Some (d_status d)) (tasks rent_world))
    as Hall.
  { apply (bool_decide_unpack _). vm_compute. exact I. }
  split; [exact Hall|].
  destruct (get_task_stats_consistent 50000 rent_world)
    as (stats & Hrun & Htotal & _ & Hsum & _).
  exists stats. split; [exact Hrun|]. split; [exact (Hsum Hall)|exact Htotal].
Defined.

(** X25: completing a stored task moves the statistics by that one task:
    the total stays, the completed count grows by one unless the task was
    completed already, the count of its former status shrinks by one, and
    the task leaves the overdue and the upcoming counts if it was in
    them. *)
Theorem complete_task_moves_stats task_id oid utcnow1 utcnow2 now w d :
  ObjectId_of_str task_id = Some oid →
  tasks w !! oid = Some d →
  ∃ before after,
    get_task_stats now w = (w, inr before)
    ∧ (get_task_stats now (complete_task task_id utcnow1 utcnow2 w).1).2
      = inr after
    ∧ total_tasks after = total_tasks before
    ∧ (completed_tasks after + (if has_status COMPLETED d then 1 else 0)
       = completed_tasks before + 1)%nat
    ∧ (pending_tasks after + (if has_status PENDING d then 1 else 0))%nat
      = pending_tasks before
    ∧ (in_progress_tasks after
       + (if has_status IN_PROGRESS d then 1 else 0))%nat
      = in_progress_tasks before
    ∧ (cancelled_tasks after + (if has_status CANCELLED d then 1 else 0))%nat
      = cancelled_tasks before
    ∧ (overdue_tasks after + (if is_overdue now d then 1 else 0))%nat
      = overdue_tasks before
    ∧ (upcoming_tasks after
       + (if is_upcoming now (now + timedelta_days 7) d then 1 else 0))%nat
      = upcoming_tasks before.
Proof.
  intros Hid Hl. eexists _, _.
  split; [apply get_task_stats_run|].
  split; [by rewrite get_task_stats_run|].
  cbn [total_tasks pending_tasks in_progress_tasks completed_tasks
       cancelled_tasks overdue_tasks upcoming_tasks].
  rewrite complete_task_tasks, Hid, (alter_present _ _ _ _ Hl).
  set (d' := apply_set (completion_data utcnow1 utcnow2) d).
  assert (∀ P : TaskDoc → bool,
            (count_documents P (<[oid := d']> (tasks w))
             + (if P d then 1 else 0)
             = count_documents P (tasks w) + (if P d' then 1 else 0))%nat)
    as Hcount by (intros P; by apply count_documents_insert).
  split; [pose proof (Hcount (λ _, true)) as H; cbv beta iota in H; lia|].
  split; [pose proof (Hcount (has_status COMPLETED)) as H;
          change (has_status COMPLETED d') with true in H;
          cbv beta iota in H; lia|].
  split; [pose proof (Hcount (has_status PENDING)) as H;
          change (has_status PENDING d') with false in H;
          cbv beta iota in H; lia|].
  split; [pose proof (Hcount (has_status IN_PROGRESS)) as H;
          change (has_status IN_PROGRESS d') with false in H;
          cbv beta iota in H; lia|].
  split; [pose proof (Hcount (has_status CANCELLED)) as H;
          change (has_status CANCELLED d') with false in H;
          cbv beta iota in H; lia|].
  assert (is_overdue now d' = false) as Hov.
  { unfold is_overdue. apply andb_false_iff. right.
    apply bool_decide_eq_false. by intros []. }
  assert (is_upcoming now (now + timedelta_days 7) d' = false) as Hup.
  { unfold is_upcoming. apply andb_false_iff. right.
    apply bool_decide_eq_false. by intros []. }
  split.
  - pose proof (Hcount (is_overdue now)) as H. rewrite Hov in H.
    cbv beta iota in H. lia.
  - pose proof (Hcount (is_upcoming now (now + timedelta_days 7))) as H.
    rewrite Hup in H. cbv beta iota in H. lia.
Qed.

(** X25 for the task of Scenario A, overdue at instant 200. *)
Lemma complete_task_moves_stats_witness :
  ObjectId_of_str "000000000000000000000000" = Some 0%N
  ∧ tasks rent_world !! 0%N = Some (bson_task (task_dict pay_rent 1000 1001))
  ∧ ∃ before after,
      get_task_stats 200000 rent_world = (rent_world, inr before)
      ∧ (get_task_stats 200000
           (complete_task "000000000000000000000000" 5000 6000 rent_world).1).2
        = inr after
      ∧ (completed_tasks after = completed_tasks before + 1)%nat
      ∧ (overdue_tasks after + 1)%nat = overdue_tasks before.
Proof.
  assert (ObjectId_of_str "000000000000000000000000" = Some 0%N) as Hid
    by (vm_compute; reflexivity).
  assert (tasks rent_world !! 0%N = Some (bson_task (task_dict pay_rent 1000 1001))) as Hl
    by (vm_compute; reflexivity).
  split; [exact Hid|]. split; [exact Hl|].
  destruct (complete_task_moves_stats _ _ 5000 6000 200000 _ _ Hid Hl)
    as (before & after & Hb & Ha & _ & Hc & _ & _ & _ & Ho & _).
  exists before, after. split; [exact Hb|]. split; [exact Ha|].
  split; [|exact Ho].
  change (has_status COMPLETED (bson_task (task_dict pay_rent 1000 1001))) with false in Hc.
  cbv beta iota in Hc. lia.
Defined.

Global Instance task_order_total : Total by_created_at_desc.
Proof. intros p q. unfold by_created_at_desc. lia. Qed.

Global Instance task_order_trans : Transitive by_created_at_desc.
Proof. intros p q r. unfold by_created_at_desc. lia. Qed.

Lemma Task_init_view oid d w task_obj :
  Task_init oid d w = (w, inr task_obj) →
  showable d = true ∧ task_obj = task_view oid d.
Proof.
  intros Hinit. destruct (showable d) eqn:Hs.
  - rewrite Task_init_showable in Hinit by done. by injection Hinit as <-.
  - by rewrite Task_init_unshowable in Hinit.
Qed.

(** The list comprehension returns one model per document, in order, or
    raises. *)
Lemma Task_list_inv l w w' ts :
  Task_list l w = (w', inr ts) →
  w' = w ∧ Forall2 (λ p t, showable p.2 = true ∧ t = task_view p.1 p.2) l ts.
Proof.
  revert ts. induction l as [|[oid d] l IH]; intros ts Hrun.
  - injection Hrun as <- <-. by split.
  - cbn [Task_list] in Hrun. unfold bind at 1 in Hrun.
    destruct (showable d) eqn:Hs.
    + rewrite Task_init_showable in Hrun by done. unfold bind at 1 in Hrun.
      destruct (Task_list l w) as [w1 [e|ts1]] eqn:Hrest; [done|].
      injection Hrun as <- <-.
      destruct (IH ts1 eq_refl) as [-> Hall].
      split; [done|]. by constructor.
    + by rewrite Task_init_unshowable in Hrun.
Qed.

Lemma Task_list_showable l w :
  Forall (λ p, showable p.2 = true) l →
  Task_list l w = (w, inr ((λ p, task_view p.1 p.2) <$> l)).
Proof.
  induction 1 as [|[oid d] l Hd _ IH]; [done|].
  cbn [Task_list]. unfold bind at 1. rewrite Task_init_showable by done.
  unfold bind at 1. by rewrite IH.
Qed.

Lemma get_tasks_unfold compile skip limit status priority category search w :
  get_tasks compile skip limit status priority category search w
  = match match nonempty search with
          | Some pattern => compile pattern
          | None => Some (λ _, true)
          end with
    | None => (w, inl PyMongoError)
    | Some regex =>
        Task_list
          (tasks_page regex skip limit status priority category search w) w
    end.
Proof.
  unfold get_tasks, bind, get_db. simpl.
  by destruct (match nonempty search with
               | Some pattern => compile pattern
               | None => Some (λ _, true)
               end).
Qed.

Lemma elem_of_tasks_page
    regex skip limit status priority category search w oid d :
  (oid, d) ∈ tasks_page regex skip limit status priority category search w →
  tasks w !! oid = Some d
  ∧ task_matches regex (task_filter_dict status priority category search) d
    = true.
Proof.
  unfold tasks_page.
  intros [Hm Hin]%elem_of_cursor_to_list%list_elem_of_filter.
  apply elem_of_map_to_list in Hin. split; [done|]. by apply Is_true_true.
Qed.

(** X26: [GET /tasks] fails, without touching the world, when the store
    rejects the search pattern.  When it answers, the world is untouched and
    the list has at most [limit] entries, newest [created_at] first; each
    entry is a stored task with the requested status and, where a
    non-empty one is given, the requested category and a priority whose
    stored value is exactly the requested string.  A non-empty [priority]
    that is none of the four stored values is not rejected: the answer is
    the empty list. *)
Theorem get_tasks_page compile skip limit status priority category search w :
  (∀ pattern, nonempty search = Some pattern → compile pattern = None →
     get_tasks compile skip limit status priority category search w
     = (w, inl PyMongoError))
  ∧ (∀ w' ts,
       get_tasks compile skip limit status priority category search w
       = (w', inr ts) →
       w' = w
       ∧ (length ts ≤ limit)%nat
       ∧ StronglySorted (λ a b, t_created_at b ≤ t_created_at a) ts
       ∧ Forall (λ t, ∃ oid d,
                   tasks w !! oid = Some d
                   ∧ t = task_view oid d
                   ∧ (∀ st, status = Some st → t_status t = st)
                   ∧ (∀ p, priority = Some p → p ≠ "" →
                        TaskPriority_value (t_priority t) = p)
                   ∧ (∀ c, category = Some c → c ≠ "" →
                        t_category t = Some c))
           ts)
  ∧ (∀ p, priority = Some p → p ≠ "" →
       (∀ value, TaskPriority_value value ≠ p) →
       (∀ pattern, nonempty search = Some pattern →
          is_Some (compile pattern)) →
       get_tasks compile skip limit status priority category search w
       = (w, inr [])).
Proof.
  split; [|split].
  - intros pattern Hs Hbad. rewrite get_tasks_unfold. by rewrite Hs, Hbad.
  - intros w' ts Hrun. rewrite get_tasks_unfold in Hrun.
    destruct (match nonempty search with
              | Some pattern => compile pattern
              | None => Some (λ _, true)
              end) as [regex|]; [|done].
    apply Task_list_inv in Hrun as [-> Hall].
    split; [done|]. split; [|split].
    + rewrite <- (Forall2_length _ _ _ Hall).
      apply length_cursor_to_list.
    + eapply (StronglySorted_Forall2 by_created_at_desc); [|exact Hall|].
      * intros [o1 d1] [o2 d2] t1 t2 [_ ->] [_ ->] Hle. exact Hle.
      * apply StronglySorted_cursor_to_list; apply _.
    + apply Forall_forall. intros t Ht.
      apply (Forall2_elem_of_r _ _ _ _ Hall) in Ht
        as ([oid d] & Hin & Hshow & ->).
      simpl in Hshow.
      apply elem_of_tasks_page in Hin as [Hl Hm].
      exists oid, d. split; [done|]. split; [done|].
      unfold task_matches, task_filter_dict in Hm. simpl in Hm.
      apply andb_true_iff in Hm as [[[Hms Hmp]%andb_true_iff
                                       Hmc]%andb_true_iff _].
      unfold showable in Hshow. unfold task_view.
      cbn [fst snd t_status t_priority t_category].
      destruct (d_title d), (d_priority d) as [pr|], (d_reminder_enabled d),
        (d_status d) as [st'|]; try done.
      simpl. split; [|split].
      * intros st ->. apply bool_decide_eq_true in Hms. congruence.
      * intros p -> Hne. destruct p as [|c p]; [done|]. simpl in Hmp.
        apply bool_decide_eq_true in Hmp. by injection Hmp.
      * intros c -> Hne. destruct c as [|c0 c]; [done|]. simpl in Hmc.
        by apply bool_decide_eq_true in Hmc.
  - intros p -> Hne Hnone Hcompile. rewrite get_tasks_unfold.
    assert (∃ regex, match nonempty search with
                     | Some pattern => compile pattern
                     | None => Some (λ _, true)
                     end = Some regex) as [regex ->].
    { destruct (nonempty search) as [pattern|] eqn:Hs; [|by eexists].
      by destruct (Hcompile pattern eq_refl) as [regex ->]; eexists. }
    assert (tasks_page regex skip limit status (Some p) category search w
            = []) as ->; [|done].
    unfold tasks_page. rewrite filter_none.
    + apply cursor_to_list_skipped. simpl. lia.
    + intros [oid d] Hm. apply Is_true_true in Hm.
      unfold task_matches, task_filter_dict in Hm. simpl in Hm.
      apply andb_true_iff in Hm as [[[_ Hmp]%andb_true_iff _]%andb_true_iff _].
      destruct p as [|c p]; [done|]. simpl in Hmp.
      apply bool_decide_eq_true in Hmp.
      destruct (d_priority d) as [pr|]; [|done].
      injection Hmp as Hmp. by apply (Hnone pr).
Qed.

(** X26 for the store of Scenario A and the priority written [HIGH]. *)
Lemma get_tasks_page_witness :
  (∀ value, TaskPriority_value value ≠ "HIGH")
  ∧ get_tasks (λ _, None) 0 100 None (Some "HIGH") None None rent_world
    = (rent_world, inr [])
  ∧ ∃ ts,
      get_tasks (λ _, None) 0 100 None (Some "high") None None rent_world
      = (rent_world, inr ts)
      ∧ length ts = 1%nat.
Proof.
  assert (∀ value, TaskPriority_value value ≠ "HIGH") as Hnone
    by (by intros []).
  split; [exact Hnone|]. split.
  - apply (proj2 (proj2 (get_tasks_page (λ _, None) 0 100 None (Some "HIGH")
                           None None rent_world)) "HIGH");
      [reflexivity|done|exact Hnone|done].
  - eexists. split; [by vm_compute|reflexivity].
Defined.

End TasksExtra.
